(** * Timetable synthesis engine (services/aiTimetableService.js)

    A shallow embedding of the genetic-algorithm timetable service and the
    properties its specification states about it.

    Conventions of the embedding.
    - The evaluator is embedded twice.  Module [Binary64] has
      [calculateTeacherWorkloads] and [calculateFitness] with binary64
      numbers and the machine's operations on them, and a workloads object
      that inherits from Object.prototype: it computes the values the code
      computes, and what the specification says about the values of
      workload and fitness is stated on it.  The search driver is developed
      over the same loops with exact rationals ([Q]) and a workloads object
      without prototype: its properties compare and bound fitness values
      and do not depend on their last bit.
    - Identifiers are strings, as in the service's tests and database rows.
    - [moment(s, 'HH:mm')] is modelled on the two-digit "HH:mm" strings
      the service itself writes (00:00 to 23:59), where it is the minute
      of the day; any other string is taken as an invalid moment.
    - [Math.random()] reads the next value of an oracle, a number m / 2^53;
      the position in the oracle is threaded as state.  The index
      [Math.floor(Math.random() * n)] is the floor of the binary64 product.
    - A thrown exception is the [Throw] outcome of the [result] type. *)

From Stdlib Require Import List String Ascii ZArith QArith Qround Qminmax Bool Lia Lqa Permutation Sorted Arith Floats.
Import ListNotations.

Local Open Scope string_scope.
Local Open Scope list_scope.
Local Open Scope Z_scope.
Local Open Scope Q_scope.

Set Warnings "-inexact-float".

(* ================================================================== *)
(** ** Data model *)
(* ================================================================== *)

Record Student := { student_id : string }.

Record Teacher := {
  teacher_id : string;
  maxWorkload : Q
}.

Record Course := {
  course_id : string;
  course_teacherId : string;
  course_creditHours : Z;
  maxStudents : option Z      (* undefined in some test fixtures *)
}.

Record Room := {
  room_id : string;
  capacity : Z;
  roomType : string
}.

(** A gene: the object built by [generateRandomSlot]. *)
Record Slot := {
  courseId : string;
  teacherId : string;
  roomId : string;
  dayOfWeek : Z;
  startTime : string;
  endTime : string;
  creditHours : Z
}.

(** A committed timetable row, as far as the evaluator reads it. *)
Record Existing := {
  existing_teacherId : string;
  existing_dayOfWeek : Z;
  existing_startTime : string;
  existing_endTime : string
}.

Inductive Conflict :=
| TEACHER_CONFLICT (slot1 slot2 : Slot)
| ROOM_CONFLICT (slot1 slot2 : Slot)
| EXISTING_CONFLICT (slot : Slot) (existing : Existing)
| WORKLOAD_EXCEEDED (tid : string) (current max : Q)
| CAPACITY_EXCEEDED (slot : Slot) (course : Course) (room : Room).

Definition severity (c : Conflict) : Q :=
  match c with
  | TEACHER_CONFLICT _ _ => 8 # 10
  | ROOM_CONFLICT _ _ => 9 # 10
  | EXISTING_CONFLICT _ _ => 7 # 10
  | WORKLOAD_EXCEEDED _ _ _ => 6 # 10
  | CAPACITY_EXCEEDED _ _ _ => 5 # 10
  end.

Record Individual := {
  slots : list Slot;
  conflicts : list Conflict;
  fitness : Q
}.

Definition Population := list Individual.

(** The snapshot handed to the operators. *)
Record Env := {
  students : list Student;
  teachers : list Teacher;
  courses : list Course;
  rooms : list Room;
  existingTimetables : list Existing
}.

(** [Array.prototype.find]. *)
Definition find_teacher (ts : list Teacher) (id : string) : option Teacher :=
  find (fun t => String.eqb (teacher_id t) id) ts.

Definition find_course (cs : list Course) (id : string) : option Course :=
  find (fun c => String.eqb (course_id c) id) cs.

Definition find_room (rs : list Room) (id : string) : option Room :=
  find (fun r => String.eqb (room_id r) id) rs.

(* ================================================================== *)
(** ** Times: moment(s, 'HH:mm') *)
(* ================================================================== *)

Definition digit (c : ascii) : option Z :=
  let n := Z.of_nat (nat_of_ascii c) in
  if ((48 <=? n) && (n <=? 57))%Z then Some (n - 48)%Z else None.

(** Minute of the day of a two-digit "HH:mm" between 00:00 and 23:59;
    [None] is an invalid moment. *)
Definition moment (s : string) : option Z :=
  match s with
  | String h1 (String h2 (String sep (String m1 (String m2 EmptyString)))) =>
      match digit h1, digit h2, digit m1, digit m2 with
      | Some a, Some b, Some c, Some d =>
          let h := (10 * a + b)%Z in
          let m := (10 * c + d)%Z in
          if Ascii.eqb sep ":" && (h <=? 23)%Z && (m <=? 59)%Z
          then Some (60 * h + m)%Z else None
      | _, _, _, _ => None
      end
  | _ => None
  end.

(** [a.isBefore(b)]: false as soon as one of the two moments is invalid. *)
Definition isBefore (a b : option Z) : bool :=
  match a, b with
  | Some x, Some y => (x <? y)%Z
  | _, _ => false
  end.

Inductive jsnum := Num (q : Q) | NaN.

(** [a.diff(b, 'hours', true)]: the difference in fractional hours. *)
Definition diff_hours (a b : option Z) : jsnum :=
  match a, b with
  | Some x, Some y => Num ((x - y) # 60)
  | _, _ => NaN
  end.

Definition timeOverlap (start1 end1 start2 end2 : string) : bool :=
  let time1Start := moment start1 in
  let time1End := moment end1 in
  let time2Start := moment start2 in
  let time2End := moment end2 in
  isBefore time1Start time2End && isBefore time2Start time1End.

(* ================================================================== *)
(** ** Teacher workloads: a plain object keyed by teacher id *)
(* ================================================================== *)

(** This section and the next are the evaluator over exact rationals, as
    the search driver uses it; module [Binary64] below has the same
    functions with the numbers and the object the code has. *)

(** Own properties in creation order. *)
Definition JsObject := list (string * jsnum).

Fixpoint obj_get (o : JsObject) (k : string) : option jsnum :=
  match o with
  | [] => None
  | (k', v) :: o' => if String.eqb k' k then Some v else obj_get o' k
  end.

(** [o[k] = v]: an existing property keeps its place, a new one goes last. *)
Fixpoint obj_set (o : JsObject) (k : string) (v : jsnum) : JsObject :=
  match o with
  | [] => [(k, v)]
  | (k', v') :: o' =>
      if String.eqb k' k then (k', v) :: o' else (k', v') :: obj_set o' k v
  end.

Fixpoint digits_value (s : string) (acc : Z) : option Z :=
  match s with
  | EmptyString => Some acc
  | String c s' =>
      match digit c with
      | Some d => digits_value s' (10 * acc + d)%Z
      | None => None
      end
  end.

(** A key that is a canonical array index (0 .. 2^32 - 2). *)
Definition array_index (k : string) : option Z :=
  match k with
  | EmptyString => None
  | String c rest =>
      if Ascii.eqb c "0" && negb (String.eqb rest "") then None
      else match digits_value k 0 with
           | Some n => if (n <=? 4294967294)%Z then Some n else None
           | None => None
           end
  end.

Fixpoint insert_index (e : Z * (string * jsnum)) (l : list (Z * (string * jsnum)))
  : list (Z * (string * jsnum)) :=
  match l with
  | [] => [e]
  | e' :: l' => if (fst e <=? fst e')%Z then e :: l else e' :: insert_index e l'
  end.

Definition index_entries (o : JsObject) : list (Z * (string * jsnum)) :=
  flat_map (fun kv => match array_index (fst kv) with
                      | Some n => [(n, kv)]
                      | None => []
                      end) o.

Definition is_index_key (kv : string * jsnum) : bool :=
  match array_index (fst kv) with Some _ => true | None => false end.

(** [Object.entries(o)]: array-index keys in ascending numeric order, then
    the other keys in creation order. *)
Definition Object_entries (o : JsObject) : list (string * jsnum) :=
  map snd (fold_right insert_index [] (index_entries o))
  ++ filter (fun kv => negb (is_index_key kv)) o.

Definition jsadd (a b : jsnum) : jsnum :=
  match a, b with
  | Num x, Num y => Num (x + y)
  | _, _ => NaN
  end.

Definition duration (slot : Slot) : jsnum :=
  diff_hours (moment (endTime slot)) (moment (startTime slot)).

(** Body of the loop over [slots]: only a teacher with a property is
    counted. *)
Definition add_duration (o : JsObject) (slot : Slot) : JsObject :=
  match obj_get o (teacherId slot) with
  | Some w => obj_set o (teacherId slot) (jsadd w (duration slot))
  | None => o
  end.

Definition calculateTeacherWorkloads (slots : list Slot) (teachers : list Teacher)
  : JsObject :=
  let workloads :=
    fold_left (fun o teacher => obj_set o (teacher_id teacher) (Num 0)) teachers [] in
  fold_left add_duration slots workloads.

(* ================================================================== *)
(** ** Fitness evaluation *)
(* ================================================================== *)

(** The running [fitness] and the [conflicts] array of [calculateFitness]. *)
Definition Eval := (Q * list Conflict)%type.

Definition penalize (st : Eval) (p : Q) (c : Conflict) : Eval :=
  (fst st - p, snd st ++ [c]).

Definition teacher_clash (slot1 slot2 : Slot) : bool :=
  String.eqb (teacherId slot1) (teacherId slot2)
  && (dayOfWeek slot1 =? dayOfWeek slot2)%Z
  && timeOverlap (startTime slot1) (endTime slot1) (startTime slot2) (endTime slot2).

Definition room_clash (slot1 slot2 : Slot) : bool :=
  String.eqb (roomId slot1) (roomId slot2)
  && (dayOfWeek slot1 =? dayOfWeek slot2)%Z
  && timeOverlap (startTime slot1) (endTime slot1) (startTime slot2) (endTime slot2).

Definition existing_clash (slot : Slot) (existing : Existing) : bool :=
  String.eqb (teacherId slot) (existing_teacherId existing)
  && (dayOfWeek slot =? existing_dayOfWeek existing)%Z
  && timeOverlap (startTime slot) (endTime slot)
                 (existing_startTime existing) (existing_endTime existing).

(** Body of the inner loop over [j]. *)
Definition pair_step (slot1 : Slot) (st : Eval) (slot2 : Slot) : Eval :=
  let st1 := if teacher_clash slot1 slot2
             then penalize st (3 # 10) (TEACHER_CONFLICT slot1 slot2) else st in
  if room_clash slot1 slot2
  then penalize st1 (4 # 10) (ROOM_CONFLICT slot1 slot2) else st1.

(** Body of the loop over the committed timetable. *)
Definition existing_step (slot : Slot) (st : Eval) (existing : Existing) : Eval :=
  if existing_clash slot existing
  then penalize st (2 # 10) (EXISTING_CONFLICT slot existing) else st.

(** The outer loop over [i]: slot [i] against the later slots, then against
    the committed timetable. *)
Fixpoint conflict_loop (ss : list Slot) (ex : list Existing) (st : Eval) : Eval :=
  match ss with
  | [] => st
  | slot1 :: rest =>
      let st1 := fold_left (pair_step slot1) rest st in
      let st2 := fold_left (existing_step slot1) ex st1 in
      conflict_loop rest ex st2
  end.

(** [a > b] on numbers. *)
Definition Qgtb (a b : Q) : bool := negb (Qle_bool a b).

(** [a < b] on numbers. *)
Definition Qltb (a b : Q) : bool := negb (Qle_bool b a).

(** Body of the loop over [Object.entries(teacherWorkloads)]; a [NaN]
    workload compares false. *)
Definition workload_step (ts : list Teacher) (st : Eval) (entry : string * jsnum) : Eval :=
  let (tid, workload) := entry in
  match find_teacher ts tid with
  | Some teacher =>
      match workload with
      | Num w =>
          if Qgtb w (maxWorkload teacher)
          then penalize st ((1 # 10) * (w - maxWorkload teacher))
                        (WORKLOAD_EXCEEDED tid w (maxWorkload teacher))
          else st
      | NaN => st
      end
  | None => st
  end.

Definition capacity_step (cs : list Course) (rs : list Room) (st : Eval) (slot : Slot) : Eval :=
  match find_course cs (courseId slot), find_room rs (roomId slot) with
  | Some course, Some room =>
      match maxStudents course with
      | Some m =>
          if negb (m =? 0)%Z && (capacity room <? m)%Z
          then penalize st (1 # 10) (CAPACITY_EXCEEDED slot course room) else st
      | None => st
      end
  | _, _ => st
  end.

(** The evaluator before the final clamp. *)
Definition fitness_scan (ss : list Slot) (env : Env) : Eval :=
  let st := (1, []) in
  let st := conflict_loop ss (existingTimetables env) st in
  let teacherWorkloads := calculateTeacherWorkloads ss (teachers env) in
  let st := fold_left (workload_step (teachers env)) (Object_entries teacherWorkloads) st in
  fold_left (capacity_step (courses env) (rooms env)) ss st.

(** [calculateFitness]: the returned number and the array it stores in
    [individual.conflicts]. *)
Definition calculateFitness (individual : Individual) (env : Env) : Eval :=
  let st := fitness_scan (slots individual) env in
  (Qmax 0 (fst st), snd st).

(* ================================================================== *)
(** ** Exceptions and randomness *)
(* ================================================================== *)

Inductive error :=
| Error (message : string)
| TypeError (message : string).

Definition error_message (e : error) : string :=
  match e with Error m => m | TypeError m => m end.

Inductive result (A : Type) :=
| Ok (a : A)
| Throw (e : error).
Arguments Ok {A} a.
Arguments Throw {A} e.

(** The raw 53-bit values behind successive [Math.random()] calls. *)
Definition Oracle := nat -> N.

(** A computation that may draw random numbers and may throw: it reads the
    oracle from a position and returns the next position. *)
Definition M (A : Type) := Oracle -> nat -> result (A * nat).

Definition ret {A} (a : A) : M A := fun _ k => Ok (a, k).

Definition bind {A B} (m : M A) (f : A -> M B) : M B :=
  fun g k => match m g k with
             | Ok (a, k') => f a g k'
             | Throw e => Throw e
             end.

Definition throw {A} (e : error) : M A := fun _ _ => Throw e.

Notation "x <- m ;; f" := (bind m (fun x => f))
  (at level 61, m at next level, right associativity).

(** A [for] loop over [l] threading the loop state [a]. *)
Fixpoint foldM {A B} (f : A -> B -> M A) (l : list B) (a : A) : M A :=
  match l with
  | [] => ret a
  | b :: l' => a' <- f a b ;; foldM f l' a'
  end.

(** The number behind the [k]-th call of [Math.random()]: a rational in
    [0, 1) with 53 fraction bits. *)
Definition random_value (g : Oracle) (k : nat) : Q :=
  Z.of_N (g k mod 9007199254740992) # 9007199254740992.

Definition Math_random : M Q :=
  fun g k => Ok (random_value g k, S k).

(** Rounding to binary64 of [p / 2^53] for a natural number [p], as the
    numerator over 2^53 of the rounded value: [p] keeps its 53 leading
    bits, rounded to nearest with ties to even.  (The values concerned lie
    between 2^-53 and 2^32, in the normal range.) *)
Definition round_to_53_bits (p : Z) : Z :=
  let excess := (Z.log2 p - 52)%Z in
  if (excess <=? 0)%Z then p
  else
    let q := Z.shiftr p excess in
    let rest := (p mod 2 ^ excess)%Z in
    let half := (2 ^ (excess - 1))%Z in
    let q' := if (half <? rest)%Z || ((rest =? half)%Z && Z.odd q)
              then (q + 1)%Z else q in
    (q' * 2 ^ excess)%Z.

(** [Math.floor(Math.random() * n)].  The draw is [m / 2^53] and the array
    length [n] is an integer below 2^32, both exact in binary64, so the
    product the code forms is the exact [m * n / 2^53] rounded once; the
    index is the floor of the rounded product. *)
Definition random_index (n : nat) : M nat :=
  fun g k =>
    let m := Z.of_N (g k mod 9007199254740992) in
    Ok (Z.to_nat (round_to_53_bits (m * Z.of_nat n) / 9007199254740992), S k).

(* ================================================================== *)
(** ** Population initialisation *)
(* ================================================================== *)

Definition days : list Z := [1; 2; 3; 4; 5]%Z.

Definition timeSlots : list (string * string) :=
  [("09:00", "10:30"); ("10:45", "12:15"); ("13:00", "14:30");
   ("14:45", "16:15"); ("16:30", "18:00")].

(** [generateRandomSlot]: three draws, then the object literal, which
    dereferences [room] and [timeSlot].  The index into [days] is always
    in range (lemma [random_index_lt]), so the default of [nth] is never
    returned. *)
Definition generateRandomSlot (course : Course) (teacher : Teacher) (rs : list Room)
  : M Slot :=
  d <- random_index (List.length days) ;;
  t <- random_index (List.length timeSlots) ;;
  r <- random_index (List.length rs) ;;
  match nth_error rs r, nth_error timeSlots t with
  | Some room, Some timeSlot =>
      ret {| courseId := course_id course;
             teacherId := teacher_id teacher;
             roomId := room_id room;
             dayOfWeek := nth d days 0%Z;
             startTime := fst timeSlot;
             endTime := snd timeSlot;
             creditHours := course_creditHours course |}
  | _, _ => throw (TypeError "Cannot read properties of undefined")
  end.

(** The loop over [courses] building one individual's [slots]. *)
Definition init_step (env : Env) (ss : list Slot) (course : Course) : M (list Slot) :=
  match find_teacher (teachers env) (course_teacherId course) with
  | None => ret ss                                   (* continue *)
  | Some teacher =>
      slot <- generateRandomSlot course teacher (rooms env) ;;
      ret (ss ++ [slot])
  end.

Definition init_individual (env : Env) : M Individual :=
  ss <- foldM (init_step env) (courses env) [] ;;
  ret {| slots := ss; conflicts := []; fitness := 0 |}.

Definition initializePopulation (size : nat) (env : Env) : M Population :=
  foldM (fun population _ =>
           individual <- init_individual env ;;
           ret (population ++ [individual]))
        (seq 0 size) [].

(* ================================================================== *)
(** ** Selection, crossover, mutation *)
(* ================================================================== *)

Definition pick (population : Population) : M Individual :=
  i <- random_index (List.length population) ;;
  match nth_error population i with
  | Some individual => ret individual
  | None => throw (TypeError "Cannot read properties of undefined")
  end.

(** [tournamentSelection] with the default [tournamentSize = 3]: the
    [reduce] starts from the first pick and replaces it only by a strictly
    fitter one. *)
Definition tournamentSelection (population : Population) : M Individual :=
  c1 <- pick population ;;
  c2 <- pick population ;;
  c3 <- pick population ;;
  let better (best current : Individual) :=
    if Qgtb (fitness current) (fitness best) then current else best in
  ret (better (better c1 c2) c3).

(** Body of the crossover loop at index [i]. *)
Definition crossover_step (parent1 parent2 : Individual) (child : list Slot) (i : nat)
  : M (list Slot) :=
  match nth_error (slots parent1) i, nth_error (slots parent2) i with
  | Some slot1, Some slot2 =>
      r <- Math_random ;;
      ret (child ++ [if Qltb r (1 # 2) then slot1 else slot2])
  | Some slot1, None => ret (child ++ [slot1])
  | None, Some slot2 => ret (child ++ [slot2])
  | None, None => ret child
  end.

Definition crossover (parent1 parent2 : Individual) : M Individual :=
  ss <- foldM (crossover_step parent1 parent2)
              (seq 0 (Nat.max (List.length (slots parent1)) (List.length (slots parent2)))) [] ;;
  ret {| slots := ss; conflicts := []; fitness := 0 |}.

(** Body of the mutation loop for the slot at the current index: the loop
    reads and writes only that slot. *)
Definition mutate_slot (env : Env) (slot : Slot) : M Slot :=
  r <- Math_random ;;
  if Qltb r (1 # 10) then
    match find_course (courses env) (courseId slot) with
    | None => throw (TypeError "Cannot read properties of undefined (reading 'teacherId')")
    | Some course =>
        match find_teacher (teachers env) (course_teacherId course) with
        | Some teacher => generateRandomSlot course teacher (rooms env)
        | None => ret slot
        end
    end
  else ret slot.

Fixpoint mutate_slots (env : Env) (ss : list Slot) : M (list Slot) :=
  match ss with
  | [] => ret []
  | slot :: rest =>
      slot' <- mutate_slot env slot ;;
      rest' <- mutate_slots env rest ;;
      ret (slot' :: rest')
  end.

(** [mutate]: a deep copy of the individual with its slots revisited. *)
Definition mutate (individual : Individual) (env : Env) : M Individual :=
  ss <- mutate_slots env (slots individual) ;;
  ret {| slots := ss; conflicts := conflicts individual; fitness := fitness individual |}.

(* ================================================================== *)
(** ** Suggestions and the timetable artifact *)
(* ================================================================== *)

Record Alternative := {
  alt_dayOfWeek : Z;
  alt_startTime : string;
  alt_endTime : string
}.

Inductive Suggestion :=
| ROOM_CHANGE (slot : Slot) (suggestedRoom : Room)
| TIME_CHANGE (slot : Slot) (alternatives : list Alternative).

Definition reason (s : Suggestion) : string :=
  match s with
  | ROOM_CHANGE _ _ => "Capacity exceeded"
  | TIME_CHANGE _ _ => "Conflict with another class"
  end.

(** The [allSlots.some(...)] test of [findAlternativeTimes]. *)
Definition hasConflict (slot : Slot) (allSlots : list Slot) (day : Z)
  (timeSlot : string * string) : bool :=
  existsb (fun s =>
             String.eqb (teacherId s) (teacherId slot)
             && (dayOfWeek s =? day)%Z
             && timeOverlap (startTime s) (endTime s) (fst timeSlot) (snd timeSlot))
          allSlots.

Definition findAlternativeTimes (slot : Slot) (allSlots : list Slot) : list Alternative :=
  let alternatives :=
    flat_map (fun day =>
      flat_map (fun timeSlot =>
        if hasConflict slot allSlots day timeSlot then []
        else [{| alt_dayOfWeek := day;
                 alt_startTime := fst timeSlot;
                 alt_endTime := snd timeSlot |}])
      timeSlots)
    days in
  firstn 3 alternatives.

(** The filter predicate on rooms; a comparison with an undefined
    [maxStudents] is false. *)
Definition suitable (course : Course) (r : Room) : bool :=
  match maxStudents course with
  | Some m => (m <=? capacity r)%Z && String.eqb (roomType r) "CLASSROOM"
  | None => false
  end.

Definition room_suggestion (rs : list Room) (conflict : Conflict) : list Suggestion :=
  match conflict with
  | CAPACITY_EXCEEDED slot course _ =>
      match filter (suitable course) rs with
      | suggestedRoom :: _ => [ROOM_CHANGE slot suggestedRoom]
      | [] => []
      end
  | _ => []
  end.

Definition time_suggestion (allSlots : list Slot) (conflict : Conflict) : list Suggestion :=
  match conflict with
  | TEACHER_CONFLICT slot1 _ | ROOM_CONFLICT slot1 _ =>
      [TIME_CHANGE slot1 (findAlternativeTimes slot1 allSlots)]
  | _ => []
  end.

Definition generateSuggestions (individual : Individual) (env : Env) : list Suggestion :=
  flat_map (room_suggestion (rooms env)) (conflicts individual)
  ++ flat_map (time_suggestion (slots individual)) (conflicts individual).

Record FormattedSlot := {
  fs_courseId : string;
  fs_teacherId : string;
  fs_roomId : string;
  fs_dayOfWeek : Z;
  fs_startTime : string;
  fs_endTime : string;
  fs_course : option Course;
  fs_teacher : option Teacher;
  fs_room : option Room
}.

Record Timetable := {
  tt_semester : Z;
  tt_academicYear : string;
  tt_slots : list FormattedSlot;
  tt_conflicts : list Conflict;
  tt_suggestions : list Suggestion;
  tt_fitness : Q
}.

Definition formatTimetable (individual : Individual) (env : Env)
  (semester : Z) (academicYear : string) : Timetable :=
  {| tt_semester := semester;
     tt_academicYear := academicYear;
     tt_slots :=
       map (fun slot =>
              {| fs_courseId := courseId slot;
                 fs_teacherId := teacherId slot;
                 fs_roomId := roomId slot;
                 fs_dayOfWeek := dayOfWeek slot;
                 fs_startTime := startTime slot;
                 fs_endTime := endTime slot;
                 fs_course := find_course (courses env) (courseId slot);
                 fs_teacher := find_teacher (teachers env) (teacherId slot);
                 fs_room := find_room (rooms env) (roomId slot) |})
           (slots individual);
     tt_conflicts := conflicts individual;
     tt_suggestions := generateSuggestions individual env;
     tt_fitness := fitness individual |}.

(* ================================================================== *)
(** ** The search driver *)
(* ================================================================== *)

Record Service := {
  maxIterations : Q;
  conflictThreshold : Q;
  optimizationWeight : Q
}.

(** [parsed || d]: [NaN] and [0] are falsy. *)
Definition or_default (parsed : jsnum) (d : Q) : Q :=
  match parsed with
  | Num q => if Qeq_bool q 0 then d else q
  | NaN => d
  end.

(** The constructor, given the parsed environment variables. *)
Definition constructor (AI_MAX_ITERATIONS AI_CONFLICT_THRESHOLD AI_OPTIMIZATION_WEIGHT : jsnum)
  : Service :=
  {| maxIterations := or_default AI_MAX_ITERATIONS 1000;
     conflictThreshold := or_default AI_CONFLICT_THRESHOLD (8 # 10);
     optimizationWeight := or_default AI_OPTIMIZATION_WEIGHT (5 # 10) |}.

Definition populationSize : nat := 50.
Definition generations : nat := 100.

(** [Math.floor(populationSize * 0.2)]. *)
Definition eliteCount : nat :=
  Z.to_nat (Qfloor (inject_Z (Z.of_nat populationSize) * (2 # 10))).

(** The evaluation step: [calculateFitness] stores the conflicts in the
    individual, then the spread copy receives the fitness. *)
Definition evaluate (env : Env) (individual : Individual) : Individual :=
  let (fit, cs) := calculateFitness individual env in
  {| slots := slots individual; conflicts := cs; fitness := fit |}.

(** [population.sort((a, b) => b.fitness - a.fitness)]: a stable sort by
    descending fitness. *)
Fixpoint insert_desc (x : Individual) (l : Population) : Population :=
  match l with
  | [] => [x]
  | y :: l' => if Qgtb (fitness y) (fitness x) then y :: insert_desc x l' else x :: l
  end.

Definition sort_desc (l : Population) : Population := fold_right insert_desc [] l.

(** The [while (newPopulation.length < populationSize)] loop; every
    iteration pushes one individual, so [populationSize] iterations are
    enough (lemma [offspring_loop_inv]). *)
Fixpoint offspring_loop (fuel : nat) (env : Env) (population newPopulation : Population)
  : M Population :=
  match fuel with
  | O => ret newPopulation
  | S fuel' =>
      if (List.length newPopulation <? populationSize)%nat then
        parent1 <- tournamentSelection population ;;
        parent2 <- tournamentSelection population ;;
        offspring <- crossover parent1 parent2 ;;
        mutatedOffspring <- mutate offspring env ;;
        offspring_loop fuel' env population (newPopulation ++ [mutatedOffspring])
      else ret newPopulation
  end.

Definition next_generation (env : Env) (population : Population) : M Population :=
  let newPopulation := firstn eliteCount population in
  offspring_loop populationSize env population newPopulation.

Definition evaluate_and_sort (env : Env) (population : Population) : Population :=
  sort_desc (map (evaluate env) population).

Inductive Step :=
| Break (population : Population)
| Next (newPopulation : Population).

(** One pass through the body of the generation loop. *)
Definition generation_body (this : Service) (env : Env) (population : Population) : M Step :=
  let population := evaluate_and_sort env population in
  match population with
  | [] => throw (TypeError "Cannot read properties of undefined (reading 'fitness')")
  | best :: _ =>
      if Qle_bool (conflictThreshold this) (fitness best) then ret (Break population)
      else newPopulation <- next_generation env population ;;
           ret (Next newPopulation)
  end.

Fixpoint ga_loop (n : nat) (this : Service) (env : Env) (population : Population)
  : M Population :=
  match n with
  | O => ret population
  | S n' =>
      step <- generation_body this env population ;;
      match step with
      | Break population => ret population
      | Next newPopulation => ga_loop n' this env newPopulation
      end
  end.

Definition geneticAlgorithm (this : Service) (env : Env) (semester : Z)
  (academicYear : string) : M Timetable :=
  population <- initializePopulation populationSize env ;;
  population <- ga_loop generations this env population ;;
  match population with
  | bestSolution :: _ => ret (formatTimetable bestSolution env semester academicYear)
  | [] => throw (TypeError "Cannot read properties of undefined (reading 'slots')")
  end.

(** The evaluated and sorted populations of the successive generations of
    a run of [ga_loop], oldest first. *)
Fixpoint ga_history (n : nat) (this : Service) (env : Env) (population : Population)
  : M (list Population) :=
  match n with
  | O => ret []
  | S n' =>
      step <- generation_body this env population ;;
      match step with
      | Break population => ret [population]
      | Next newPopulation =>
          rest <- ga_history n' this env newPopulation ;;
          ret (evaluate_and_sort env population :: rest)
      end
  end.

(* ================================================================== *)
(** ** The service entry point *)
(* ================================================================== *)

Definition validateInputs (ss : list Student) (ts : list Teacher) (cs : list Course)
  (rs : list Room) : M unit :=
  if (List.length ss =? 0)%nat then throw (Error "No students found")
  else if (List.length ts =? 0)%nat then throw (Error "No teachers found")
  else if (List.length cs =? 0)%nat then throw (Error "No courses found")
  else if (List.length rs =? 0)%nat then throw (Error "No rooms found")
  else ret tt.

Record AiLog := {
  operation : string;
  outputData : option Timetable;
  log_conflicts : list Conflict;
  log_suggestions : list Suggestion;
  status : string
}.

(** The record written by [logAIOperation]; [error] is the error message,
    and an empty message is falsy. *)
Definition logAIOperation (operation : string) (outputData : option Timetable)
  (error : option string) : AiLog :=
  {| operation := operation;
     outputData := outputData;
     log_conflicts := match outputData with Some t => tt_conflicts t | None => [] end;
     log_suggestions := match outputData with Some t => tt_suggestions t | None => [] end;
     status := match error with
               | Some m => if String.eqb m "" then "SUCCESS" else "FAILED"
               | None => "SUCCESS"
               end |}.

Record Response := {
  success : bool;
  timetable : Timetable;
  response_conflicts : list Conflict;
  response_suggestions : list Suggestion
}.

(** [generateTimetable] once the five database reads have returned [env]:
    its outcome and the records it writes to the operation log. *)
Definition generateTimetable (this : Service) (env : Env) (semester : Z)
  (academicYear : string) (g : Oracle) (k : nat) : result Response * list AiLog :=
  let body :=
    _ <- validateInputs (students env) (teachers env) (courses env) (rooms env) ;;
    geneticAlgorithm this env semester academicYear in
  match body g k with
  | Ok (timetable, _) =>
      (Ok {| success := true;
             timetable := timetable;
             response_conflicts := tt_conflicts timetable;
             response_suggestions := tt_suggestions timetable |},
       [logAIOperation "GENERATE" (Some timetable) None])
  | Throw e =>
      (Throw e, [logAIOperation "GENERATE" None (Some (error_message e))])
  end.

(* ================================================================== *)
(** ** Vocabulary of the specification *)
(* ================================================================== *)

(** The unordered pairs (i, j), i < j, of a gene sequence, in the order
    i-major in which the evaluator visits them. *)
Fixpoint unordered_pairs (l : list Slot) : list (Slot * Slot) :=
  match l with
  | [] => []
  | a :: rest => map (pair a) rest ++ unordered_pairs rest
  end.

(** The conflicts one visit of the evaluator's loops records. *)
Definition pair_events (slot1 slot2 : Slot) : list Conflict :=
  (if teacher_clash slot1 slot2 then [TEACHER_CONFLICT slot1 slot2] else [])
  ++ (if room_clash slot1 slot2 then [ROOM_CONFLICT slot1 slot2] else []).

Definition existing_events (slot : Slot) (existing : Existing) : list Conflict :=
  if existing_clash slot existing then [EXISTING_CONFLICT slot existing] else [].

Fixpoint scan_events (ss : list Slot) (ex : list Existing) : list Conflict :=
  match ss with
  | [] => []
  | slot1 :: rest =>
      flat_map (pair_events slot1) rest
      ++ flat_map (existing_events slot1) ex
      ++ scan_events rest ex
  end.

Definition workload_events (ts : list Teacher) (entry : string * jsnum) : list Conflict :=
  match find_teacher ts (fst entry), snd entry with
  | Some teacher, Num w =>
      if Qgtb w (maxWorkload teacher)
      then [WORKLOAD_EXCEEDED (fst entry) w (maxWorkload teacher)] else []
  | _, _ => []
  end.

Definition capacity_events (cs : list Course) (rs : list Room) (slot : Slot) : list Conflict :=
  match find_course cs (courseId slot), find_room rs (roomId slot) with
  | Some course, Some room =>
      match maxStudents course with
      | Some m => if negb (m =? 0)%Z && (capacity room <? m)%Z
                  then [CAPACITY_EXCEEDED slot course room] else []
      | None => []
      end
  | _, _ => []
  end.

(** The amount the specification subtracts for a recorded conflict. *)
Definition penalty (c : Conflict) : Q :=
  match c with
  | TEACHER_CONFLICT _ _ => 3 # 10
  | ROOM_CONFLICT _ _ => 4 # 10
  | EXISTING_CONFLICT _ _ => 2 # 10
  | WORKLOAD_EXCEEDED _ current max => (1 # 10) * (current - max)
  | CAPACITY_EXCEEDED _ _ _ => 1 # 10
  end.

Definition total_penalty (cs : list Conflict) : Q :=
  fold_right (fun c acc => penalty c + acc) 0 cs.

(** A loop body [step] records the events [ev]: it appends them and
    subtracts their penalties. *)
Definition records {B : Type} (step : Eval -> B -> Eval) (ev : B -> list Conflict) : Prop :=
  forall st b,
    snd (step st b) = snd st ++ ev b
    /\ fst (step st b) == fst st - total_penalty (ev b).

Definition is_teacher_conflict (c : Conflict) : bool :=
  match c with TEACHER_CONFLICT _ _ => true | _ => false end.

Definition is_room_conflict (c : Conflict) : bool :=
  match c with ROOM_CONFLICT _ _ => true | _ => false end.

Definition is_existing_conflict (c : Conflict) : bool :=
  match c with EXISTING_CONFLICT _ _ => true | _ => false end.

Definition is_workload_conflict (c : Conflict) : bool :=
  match c with WORKLOAD_EXCEEDED _ _ _ => true | _ => false end.

Definition is_capacity_conflict (c : Conflict) : bool :=
  match c with CAPACITY_EXCEEDED _ _ _ => true | _ => false end.

(** Hours between the start and the end of a gene with valid times. *)
Definition hours (slot : Slot) : Q :=
  match moment (endTime slot), moment (startTime slot) with
  | Some e, Some s => (e - s) # 60
  | _, _ => 0
  end.

(** Sum of the hours of the genes of teacher [tid]. *)
Definition teacher_hours (tid : string) (ss : list Slot) : Q :=
  fold_right (fun slot acc => hours slot + acc) 0
             (filter (fun slot => String.eqb (teacherId slot) tid) ss).

Definition valid_times (slot : Slot) : Prop :=
  moment (startTime slot) <> None /\ moment (endTime slot) <> None.

(** A course is kept by the initialiser when its teacher is in the
    supplied teacher set. *)
Definition resolvable (env : Env) (course : Course) : bool :=
  match find_teacher (teachers env) (course_teacherId course) with
  | Some _ => true
  | None => false
  end.

Definition candidate_courses (env : Env) : list Course :=
  filter (resolvable env) (courses env).

(** One gene per candidate course, in course order. *)
Definition one_gene_per_course (env : Env) (individual : Individual) : Prop :=
  map courseId (slots individual) = map course_id (candidate_courses env).

(** The fixed day x timeslot catalog, day-major. *)
Definition catalog : list (Z * (string * string)) := list_prod days timeSlots.

Definition alternative_of (dt : Z * (string * string)) : Alternative :=
  {| alt_dayOfWeek := fst dt;
     alt_startTime := fst (snd dt);
     alt_endTime := snd (snd dt) |}.

(** Catalog entries not excluded by [excluded], first three. *)
Definition first_three_free (excluded : Z -> string * string -> bool) : list Alternative :=
  firstn 3 (map alternative_of
                (filter (fun dt => negb (excluded (fst dt) (snd dt))) catalog)).

(** All genes but the one at index [i]. *)
Definition other_genes (i : nat) (allSlots : list Slot) : list Slot :=
  firstn i allSlots ++ skipn (S i) allSlots.

(** The alternatives as the specification words them: a combination is
    excluded when it overlaps another gene of the same teacher. *)
Definition alternatives_excluding_others (i : nat) (slot : Slot) (allSlots : list Slot)
  : list Alternative :=
  first_three_free (hasConflict slot (other_genes i allSlots)).

(** The first room, in list order, of type CLASSROOM and large enough. *)
Definition first_suitable_room (course : Course) (rs : list Room) : option Room :=
  find (suitable course) rs.

(** The suggestions per recorded conflict, in the specification's terms. *)
Definition room_change_for (rs : list Room) (conflict : Conflict) : list Suggestion :=
  match conflict with
  | CAPACITY_EXCEEDED slot course _ =>
      match first_suitable_room course rs with
      | Some r => [ROOM_CHANGE slot r]
      | None => []
      end
  | _ => []
  end.

Definition time_change_for (allSlots : list Slot) (conflict : Conflict) : list Suggestion :=
  match conflict with
  | TEACHER_CONFLICT slot1 _ | ROOM_CONFLICT slot1 _ =>
      [TIME_CHANGE slot1 (first_three_free (hasConflict slot1 allSlots))]
  | _ => []
  end.

(** Fitness of the first individual of a sorted population. *)
Definition best_fitness (population : Population) : Q :=
  match population with
  | best :: _ => fitness best
  | [] => 0
  end.

(** The fixture of the service's workload test. *)
Definition workload_test_teachers : list Teacher :=
  [ {| teacher_id := "1"; maxWorkload := 40 |};
    {| teacher_id := "2"; maxWorkload := 35 |} ].

Definition workload_test_slots : list Slot :=
  [ {| courseId := ""; teacherId := "1"; roomId := ""; dayOfWeek := 1;
       startTime := "09:00"; endTime := "10:30"; creditHours := 0 |};
    {| courseId := ""; teacherId := "1"; roomId := ""; dayOfWeek := 1;
       startTime := "11:00"; endTime := "12:30"; creditHours := 0 |};
    {| courseId := ""; teacherId := "2"; roomId := ""; dayOfWeek := 1;
       startTime := "09:00"; endTime := "10:30"; creditHours := 0 |} ].

(** Two genes of different teachers booked into the same room at the
    same time. *)
Definition room_clash_env : Env :=
  {| students := [ {| student_id := "s1" |} ];
     teachers := [ {| teacher_id := "tA"; maxWorkload := 40 |};
                   {| teacher_id := "tB"; maxWorkload := 40 |} ];
     courses := [ {| course_id := "cA"; course_teacherId := "tA";
                     course_creditHours := 3; maxStudents := Some 20%Z |};
                  {| course_id := "cB"; course_teacherId := "tB";
                     course_creditHours := 3; maxStudents := Some 20%Z |} ];
     rooms := [ {| room_id := "r1"; capacity := 30; roomType := "CLASSROOM" |} ];
     existingTimetables := [] |}.

Definition gene_A : Slot :=
  {| courseId := "cA"; teacherId := "tA"; roomId := "r1"; dayOfWeek := 1;
     startTime := "09:00"; endTime := "10:30"; creditHours := 3 |}.

Definition gene_B : Slot :=
  {| courseId := "cB"; teacherId := "tB"; roomId := "r1"; dayOfWeek := 1;
     startTime := "09:00"; endTime := "10:30"; creditHours := 3 |}.

Definition room_clash_individual : Individual :=
  {| slots := [gene_A; gene_B]; conflicts := []; fitness := 0 |}.

(** A snapshot in which course cB names a teacher that is not supplied. *)
Definition missing_teacher_env : Env :=
  {| students := [ {| student_id := "s1" |} ];
     teachers := [ {| teacher_id := "tA"; maxWorkload := 40 |} ];
     courses := [ {| course_id := "cA"; course_teacherId := "tA";
                     course_creditHours := 3; maxStudents := Some 20%Z |};
                  {| course_id := "cB"; course_teacherId := "tB";
                     course_creditHours := 3; maxStudents := Some 20%Z |} ];
     rooms := [ {| room_id := "r1"; capacity := 30; roomType := "CLASSROOM" |} ];
     existingTimetables := [] |}.

Definition missing_teacher_individual : Individual :=
  {| slots := [gene_B]; conflicts := []; fitness := 0 |}.

(** A random source whose every draw is 0. *)
Definition oracle_zero : Oracle := fun _ => 0%N.

(** A random source that walks through the 53-bit range. *)
Definition oracle_walk : Oracle :=
  fun k => (N.of_nat k * 2718281828459045 + 314159265358979)%N.

(** A gene over capacity: its course and room resolve and the course's
    maxStudents is set, non-zero and above the room's capacity. *)
Definition over_capacity (env : Env) (slot : Slot) : bool :=
  match find_course (courses env) (courseId slot), find_room (rooms env) (roomId slot) with
  | Some course, Some room =>
      match maxStudents course with
      | Some m => negb (m =? 0)%Z && (capacity room <? m)%Z
      | None => false
      end
  | _, _ => false
  end.

(** A gene as the service builds it: a weekday, a period of the catalog,
    a room of the snapshot, and a course of the snapshot with the teacher
    that course resolves to. *)
Definition gene_wf (env : Env) (slot : Slot) : Prop :=
  In (dayOfWeek slot) days
  /\ In (startTime slot, endTime slot) timeSlots
  /\ (exists room, In room (rooms env) /\ roomId slot = room_id room)
  /\ (exists course teacher,
         In course (courses env)
         /\ courseId slot = course_id course
         /\ find_teacher (teachers env) (course_teacherId course) = Some teacher
         /\ teacherId slot = teacher_id teacher).

Definition genes_wf (env : Env) (individual : Individual) : Prop :=
  Forall (gene_wf env) (slots individual).

(** The index [Math.floor(Math.random() * n)] of the [k]-th draw. *)
Definition drawn_index (g : Oracle) (k n : nat) : nat :=
  Z.to_nat (round_to_53_bits (Z.of_N (g k mod 9007199254740992) * Z.of_nat n)
            / 9007199254740992).

(** The genes of one teacher. *)
Definition teacher_genes (tid : string) (ss : list Slot) : list Slot :=
  filter (fun slot => String.eqb (teacherId slot) tid) ss.

Definition is_time_change (s : Suggestion) : bool :=
  match s with TIME_CHANGE _ _ => true | ROOM_CHANGE _ _ => false end.

Definition is_room_change (s : Suggestion) : bool :=
  match s with ROOM_CHANGE _ _ => true | TIME_CHANGE _ _ => false end.

(** A random source whose every draw is 0.5. *)
Definition oracle_half : Oracle := fun _ => 4503599627370496%N.

(** Whether an individual's fitness is the number [q]. *)
Definition has_fitness (q : Q) (x : Individual) : bool := Qeq_bool (fitness x) q.

(** The catalog entry a gene occupies. *)
Definition gene_entry (s : Slot) : Z * (string * string) :=
  (dayOfWeek s, (startTime s, endTime s)).

(** A course of twenty students booked into a laboratory of ten seats,
    with a larger classroom available. *)
Definition crowded_env : Env :=
  {| students := [ {| student_id := "s1" |} ];
     teachers := [ {| teacher_id := "tA"; maxWorkload := 40 |} ];
     courses := [ {| course_id := "cA"; course_teacherId := "tA";
                     course_creditHours := 3; maxStudents := Some 20%Z |} ];
     rooms := [ {| room_id := "r1"; capacity := 10; roomType := "LAB" |};
                {| room_id := "r2"; capacity := 40; roomType := "CLASSROOM" |} ];
     existingTimetables := [] |}.

Definition crowded_individual : Individual :=
  {| slots := [gene_A]; conflicts := []; fitness := 0 |}.

(** Whether a run of the service returned a response. *)
Definition returned {A : Type} (r : result A) : bool :=
  match r with Ok _ => true | Throw _ => false end.

(* ================================================================== *)
(** ** The evaluator and the workloads in binary64 *)
(* ================================================================== *)

(** [calculateTeacherWorkloads] and [calculateFitness] once more, with the
    numbers the code computes: binary64 values and the machine's
    operations on them, and a workloads object that inherits from
    Object.prototype.  What the specification says about the values of
    workload and fitness is stated on these functions; the search driver
    above only compares and bounds fitness values. *)
Module Binary64.

Record Teacher := {
  teacher_id : string;
  maxWorkload : float
}.

Inductive Conflict :=
| TEACHER_CONFLICT (slot1 slot2 : Slot)
| ROOM_CONFLICT (slot1 slot2 : Slot)
| EXISTING_CONFLICT (slot : Slot) (existing : Existing)
| WORKLOAD_EXCEEDED (tid : string) (current max : float)
| CAPACITY_EXCEEDED (slot : Slot) (course : Course) (room : Room).

Record Individual := {
  slots : list Slot;
  conflicts : list Conflict;
  fitness : float
}.

Record Env := {
  students : list Student;
  teachers : list Teacher;
  courses : list Course;
  rooms : list Room;
  existingTimetables : list Existing
}.

Definition find_teacher (ts : list Teacher) (id : string) : option Teacher :=
  find (fun t => String.eqb (teacher_id t) id) ts.

(** An integer of magnitude below 2^53 as a binary64 number. *)
Definition of_Z (z : Z) : float :=
  if (z <? 0)%Z then PrimFloat.opp (PrimFloat.of_uint63 (Uint63.of_Z (- z)))
  else PrimFloat.of_uint63 (Uint63.of_Z z).

(** [a.diff(b, 'hours', true)]: the difference of the two instants in
    milliseconds, divided by 36e5; [NaN] when a moment is invalid. *)
Definition diff_hours (a b : option Z) : float :=
  match a, b with
  | Some x, Some y => PrimFloat.div (of_Z (60000 * (x - y))) 3600000
  | _, _ => PrimFloat.nan
  end.

Definition duration (slot : Slot) : float :=
  diff_hours (moment (endTime slot)) (moment (startTime slot)).

(** A property value of the workloads object: a number, or the string
    that [+=] makes of an inherited function or object. *)
Inductive jsval := Num (x : float) | Str.

(** Own properties in creation order. *)
Definition JsObject := list (string * jsval).

(** The property names a plain object inherits from Object.prototype. *)
Definition Object_prototype : list string :=
  ["constructor"; "__defineGetter__"; "__defineSetter__"; "hasOwnProperty";
   "__lookupGetter__"; "__lookupSetter__"; "isPrototypeOf";
   "propertyIsEnumerable"; "toString"; "valueOf"; "__proto__"; "toLocaleString"].

Definition inherited (k : string) : bool := existsb (String.eqb k) Object_prototype.

Fixpoint own (o : JsObject) (k : string) : option jsval :=
  match o with
  | [] => None
  | (k', v) :: o' => if String.eqb k' k then Some v else own o' k
  end.

Inductive Lookup :=
| Own (v : jsval)
| Inherited
| Undefined.

(** [o[k]]. *)
Definition obj_get (o : JsObject) (k : string) : Lookup :=
  match own o k with
  | Some v => Own v
  | None => if inherited k then Inherited else Undefined
  end.

Fixpoint define (o : JsObject) (k : string) (v : jsval) : JsObject :=
  match o with
  | [] => [(k, v)]
  | (k', v') :: o' =>
      if String.eqb k' k then (k', v) :: o' else (k', v') :: define o' k v
  end.

(** [o[k] = v] for a number or a string [v]: an existing property keeps
    its place, a new one goes last; the inherited setter of [__proto__]
    ignores such a value and no property is created. *)
Definition obj_set (o : JsObject) (k : string) (v : jsval) : JsObject :=
  if String.eqb k "__proto__" then o else define o k v.

(** [v + d] for a number [d]: a number is added to, anything else is
    concatenated with it into a string. *)
Definition plus (v : Lookup) (d : float) : jsval :=
  match v with
  | Own (Num x) => Num (PrimFloat.add x d)
  | _ => Str
  end.

(** Body of the loop over [slots]: any value but [undefined] passes the
    test. *)
Definition add_duration (o : JsObject) (slot : Slot) : JsObject :=
  match obj_get o (teacherId slot) with
  | Undefined => o
  | v => obj_set o (teacherId slot) (plus v (duration slot))
  end.

Definition calculateTeacherWorkloads (slots : list Slot) (teachers : list Teacher)
  : JsObject :=
  let workloads :=
    fold_left (fun o teacher => obj_set o (teacher_id teacher) (Num 0)) teachers [] in
  fold_left add_duration slots workloads.

Fixpoint insert_index (e : Z * (string * jsval)) (l : list (Z * (string * jsval)))
  : list (Z * (string * jsval)) :=
  match l with
  | [] => [e]
  | e' :: l' => if (fst e <=? fst e')%Z then e :: l else e' :: insert_index e l'
  end.

Definition index_entries (o : JsObject) : list (Z * (string * jsval)) :=
  flat_map (fun kv => match array_index (fst kv) with
                      | Some n => [(n, kv)]
                      | None => []
                      end) o.

Definition is_index_key (kv : string * jsval) : bool :=
  match array_index (fst kv) with Some _ => true | None => false end.

(** [Object.entries(o)]: array-index keys in ascending numeric order, then
    the other keys in creation order. *)
Definition Object_entries (o : JsObject) : list (string * jsval) :=
  map snd (fold_right insert_index [] (index_entries o))
  ++ filter (fun kv => negb (is_index_key kv)) o.

(** The running [fitness] and the [conflicts] array of [calculateFitness]. *)
Definition Eval := (float * list Conflict)%type.

(** [conflicts.push(c); fitness -= p]. *)
Definition penalize (st : Eval) (p : float) (c : Conflict) : Eval :=
  (PrimFloat.sub (fst st) p, snd st ++ [c]).

Definition pair_step (slot1 : Slot) (st : Eval) (slot2 : Slot) : Eval :=
  let st1 := if teacher_clash slot1 slot2
             then penalize st 0.3 (TEACHER_CONFLICT slot1 slot2) else st in
  if room_clash slot1 slot2
  then penalize st1 0.4 (ROOM_CONFLICT slot1 slot2) else st1.

Definition existing_step (slot : Slot) (st : Eval) (existing : Existing) : Eval :=
  if existing_clash slot existing
  then penalize st 0.2 (EXISTING_CONFLICT slot existing) else st.

Fixpoint conflict_loop (ss : list Slot) (ex : list Existing) (st : Eval) : Eval :=
  match ss with
  | [] => st
  | slot1 :: rest =>
      let st1 := fold_left (pair_step slot1) rest st in
      let st2 := fold_left (existing_step slot1) ex st1 in
      conflict_loop rest ex st2
  end.

(** Body of the loop over [Object.entries(teacherWorkloads)]:
    [workload > teacher.maxWorkload] is false for [NaN] and for a string
    that is not a numeral. *)
Definition workload_step (ts : list Teacher) (st : Eval) (entry : string * jsval) : Eval :=
  let (tid, workload) := entry in
  match find_teacher ts tid with
  | Some teacher =>
      match workload with
      | Num w =>
          if PrimFloat.ltb (maxWorkload teacher) w
          then penalize st (PrimFloat.mul 0.1 (PrimFloat.sub w (maxWorkload teacher)))
                        (WORKLOAD_EXCEEDED tid w (maxWorkload teacher))
          else st
      | Str => st
      end
  | None => st
  end.

Definition capacity_step (cs : list Course) (rs : list Room) (st : Eval) (slot : Slot) : Eval :=
  match find_course cs (courseId slot), find_room rs (roomId slot) with
  | Some course, Some room =>
      match maxStudents course with
      | Some m =>
          if negb (m =? 0)%Z && (capacity room <? m)%Z
          then penalize st 0.1 (CAPACITY_EXCEEDED slot course room) else st
      | None => st
      end
  | _, _ => st
  end.

(** The evaluator before the final clamp. *)
Definition fitness_scan (ss : list Slot) (env : Env) : Eval :=
  let st := (1%float, []) in
  let st := conflict_loop ss (existingTimetables env) st in
  let teacherWorkloads := calculateTeacherWorkloads ss (teachers env) in
  let st := fold_left (workload_step (teachers env)) (Object_entries teacherWorkloads) st in
  fold_left (capacity_step (courses env) (rooms env)) ss st.

(** [Math.max(0, x)]. *)
Definition Math_max_0 (x : float) : float :=
  if PrimFloat.ltb 0 x then x
  else if PrimFloat.is_nan x then PrimFloat.nan else 0%float.

(** [calculateFitness]: the returned number and the array it stores in
    [individual.conflicts]. *)
Definition calculateFitness (individual : Individual) (env : Env) : Eval :=
  let st := fitness_scan (slots individual) env in
  (Math_max_0 (fst st), snd st).

(** *** Vocabulary *)

Definition is_teacher_conflict (c : Conflict) : bool :=
  match c with TEACHER_CONFLICT _ _ => true | _ => false end.

Definition is_room_conflict (c : Conflict) : bool :=
  match c with ROOM_CONFLICT _ _ => true | _ => false end.

Definition is_existing_conflict (c : Conflict) : bool :=
  match c with EXISTING_CONFLICT _ _ => true | _ => false end.

Definition is_workload_conflict (c : Conflict) : bool :=
  match c with WORKLOAD_EXCEEDED _ _ _ => true | _ => false end.

Definition is_capacity_conflict (c : Conflict) : bool :=
  match c with CAPACITY_EXCEEDED _ _ _ => true | _ => false end.

(** What a recorded conflict costs. *)
Definition penalty (c : Conflict) : float :=
  match c with
  | TEACHER_CONFLICT _ _ => 0.3
  | ROOM_CONFLICT _ _ => 0.4
  | EXISTING_CONFLICT _ _ => 0.2
  | WORKLOAD_EXCEEDED _ current max => PrimFloat.mul 0.1 (PrimFloat.sub current max)
  | CAPACITY_EXCEEDED _ _ _ => 0.1
  end.

(** The fitness after the conflicts [cs] have been charged, one after the
    other, to the fitness [f]. *)
Definition charge (cs : list Conflict) (f : float) : float :=
  fold_left (fun f c => PrimFloat.sub f (penalty c)) cs f.

(** The sum, accumulated in gene order from 0, of the durations of a
    teacher's genes. *)
Definition teacher_hours (tid : string) (ss : list Slot) : float :=
  fold_left (fun w slot => PrimFloat.add w (duration slot)) (teacher_genes tid ss) 0%float.

(** The conflicts one visit of the evaluator's loops records. *)
Definition pair_events (slot1 slot2 : Slot) : list Conflict :=
  (if teacher_clash slot1 slot2 then [TEACHER_CONFLICT slot1 slot2] else [])
  ++ (if room_clash slot1 slot2 then [ROOM_CONFLICT slot1 slot2] else []).

Definition existing_events (slot : Slot) (existing : Existing) : list Conflict :=
  if existing_clash slot existing then [EXISTING_CONFLICT slot existing] else [].

Fixpoint scan_events (ss : list Slot) (ex : list Existing) : list Conflict :=
  match ss with
  | [] => []
  | slot1 :: rest =>
      flat_map (pair_events slot1) rest ++ flat_map (existing_events slot1) ex
      ++ scan_events rest ex
  end.

Definition workload_events (ts : list Teacher) (entry : string * jsval) : list Conflict :=
  match find_teacher ts (fst entry), snd entry with
  | Some teacher, Num w =>
      if PrimFloat.ltb (maxWorkload teacher) w
      then [WORKLOAD_EXCEEDED (fst entry) w (maxWorkload teacher)] else []
  | _, _ => []
  end.

Definition capacity_events (cs : list Course) (rs : list Room) (slot : Slot) : list Conflict :=
  match find_course cs (courseId slot), find_room rs (roomId slot) with
  | Some course, Some room =>
      match maxStudents course with
      | Some m =>
          if negb (m =? 0)%Z && (capacity room <? m)%Z
          then [CAPACITY_EXCEEDED slot course room] else []
      | None => []
      end
  | _, _ => []
  end.

(** A step of a loop of the evaluator that records the conflicts [ev b]
    and charges them. *)
Definition records {B : Type} (step : Eval -> B -> Eval) (ev : B -> list Conflict) : Prop :=
  forall st b,
    snd (step st b) = snd st ++ ev b
    /\ fst (step st b) = charge (ev b) (fst st).

(** A slot whose teacher id the workloads loop lets through. *)
Definition counted (ts : list Teacher) (slot : Slot) : bool :=
  existsb (fun t => String.eqb (teacher_id t) (teacherId slot)) ts
  || inherited (teacherId slot).

(** The state of the workloads object during the second loop: every
    teacher id but [__proto__] has a property, the properties of teacher
    ids hold numbers and the others hold strings. *)
Definition teachers_hold_numbers (ts : list Teacher) (o : JsObject) : Prop :=
  (forall k, In k (map teacher_id ts) -> k <> "__proto__" -> own o k <> None)
  /\ (forall k v, own o k = Some v ->
                  (In k (map teacher_id ts) <-> exists x, v = Num x)).

(** The fixture of the service's workload test. *)
Definition workload_test_teachers : list Teacher :=
  [ {| teacher_id := "1"; maxWorkload := 40 |};
    {| teacher_id := "2"; maxWorkload := 35 |} ].

(** The fixture of the service's conflict test: two genes with the same
    teacher, room, day and time. *)
Definition conflict_test_env : Env :=
  {| students := [ {| student_id := "1" |} ];
     teachers := [ {| teacher_id := "1"; maxWorkload := 40 |} ];
     courses := [ {| course_id := "1"; course_teacherId := "1";
                     course_creditHours := 0; maxStudents := Some 25%Z |} ];
     rooms := [ {| room_id := "1"; capacity := 30; roomType := "" |} ];
     existingTimetables := [] |}.

Definition conflict_test_slot (course : string) : Slot :=
  {| courseId := course; teacherId := "1"; roomId := "1"; dayOfWeek := 1;
     startTime := "09:00"; endTime := "10:30"; creditHours := 3 |}.

Definition conflict_test_individual : Individual :=
  {| slots := [conflict_test_slot "1"; conflict_test_slot "2"];
     conflicts := []; fitness := 0 |}.

(** Three genes of 12, 46 and 2 minutes for a teacher allowed one hour. *)
Definition one_hour_teacher : list Teacher :=
  [ {| teacher_id := "tA"; maxWorkload := 1 |} ].

Definition short_gene (finish : string) (start : string) : Slot :=
  {| courseId := "cA"; teacherId := "tA"; roomId := "r1"; dayOfWeek := 1;
     startTime := start; endTime := finish; creditHours := 3 |}.

Definition one_hour_genes : list Slot :=
  [ short_gene "09:12" "09:00"; short_gene "10:46" "10:00"; short_gene "11:02" "11:00" ].

End Binary64.

(** A recorded conflict without the numbers it may carry: the view on
    which the two embeddings of the evaluator are compared. *)
Inductive Clash :=
| Teacher_clash (slot1 slot2 : Slot)
| Room_clash (slot1 slot2 : Slot)
| Existing_clash (slot : Slot) (existing : Existing)
| Capacity_clash (slot : Slot) (course : Course) (room : Room).

Definition clash_of (c : Conflict) : list Clash :=
  match c with
  | TEACHER_CONFLICT s1 s2 => [Teacher_clash s1 s2]
  | ROOM_CONFLICT s1 s2 => [Room_clash s1 s2]
  | EXISTING_CONFLICT s e => [Existing_clash s e]
  | WORKLOAD_EXCEEDED _ _ _ => []
  | CAPACITY_EXCEEDED s c r => [Capacity_clash s c r]
  end.

Definition binary64_clash_of (c : Binary64.Conflict) : list Clash :=
  match c with
  | Binary64.TEACHER_CONFLICT s1 s2 => [Teacher_clash s1 s2]
  | Binary64.ROOM_CONFLICT s1 s2 => [Room_clash s1 s2]
  | Binary64.EXISTING_CONFLICT s e => [Existing_clash s e]
  | Binary64.WORKLOAD_EXCEEDED _ _ _ => []
  | Binary64.CAPACITY_EXCEEDED s c r => [Capacity_clash s c r]
  end.

(** [Math.floor((m / 2^53) * n)] evaluated with the machine's binary64
    division and multiplication, for a raw draw [m]. *)
Definition machine_index (m : N) (n : nat) : Z :=
  match Prim2SF (PrimFloat.mul
                   (PrimFloat.div (Binary64.of_Z (Z.of_N m)) 9007199254740992)
                   (Binary64.of_Z (Z.of_nat n))) with
  | S754_finite false mantissa e => Z.shiftl (Zpos mantissa) e
  | _ => 0%Z
  end.

(** Raw draws on which the index is compared with the machine's: the
    extremes, values around one half, and values whose product with a
    small length falls next to an integer. *)
Definition sample_draws : list N :=
  [0; 1; 2; 3; 4503599627370495; 4503599627370496; 4503599627370497;
   9007199254740990; 9007199254740991; 5404319552844595; 6124895493223874;
   3002399751580331; 6004799503160661; 1801439850948198; 7205759403792794;
   1286742750677284; 2573485501354569; 3860228252031853; 5146971002709138;
   6433713753386422; 7720456504063707; 900719925474099; 8106479329266893;
   314159265358979; 2718281828459045; 1414213562373095; 1732050807568877;
   8999999999999999; 4999999999999999; 7000000000000001]%N.

(** A run of pseudo-random raw draws. *)
Fixpoint pseudo_draws (count : nat) (x : N) : list N :=
  match count with
  | O => []
  | S count' =>
      (x mod 9007199254740992)%N
      :: pseudo_draws count'
           ((x * 6364136223846793005 + 1442695040888963407) mod 18446744073709551616)%N
  end.

Definition sample_lengths : list nat := [1; 2; 3; 5; 6; 7; 10; 25; 49; 50; 51; 1000]%nat.

(* ================================================================== *)
(** * Properties *)
(* ================================================================== *)

(** ** Times *)

Lemma isBefore_lt (x y : Z) : isBefore (Some x) (Some y) = true <-> (x < y)%Z.
Proof. simpl. apply Z.ltb_lt. Qed.

(** The cases of the service's own overlap test. *)
Example timeOverlap_test_cases :
  timeOverlap "09:00" "10:30" "10:00" "11:30" = true
  /\ timeOverlap "09:00" "10:30" "09:30" "10:00" = true
  /\ timeOverlap "09:00" "10:30" "08:30" "09:30" = true
  /\ timeOverlap "09:00" "10:30" "11:00" "12:30" = false
  /\ timeOverlap "09:00" "10:30" "08:00" "09:00" = false.
Proof. repeat split; reflexivity. Qed.

Example moment_examples :
  moment "09:00" = Some 540%Z /\ moment "18:00" = Some 1080%Z
  /\ moment "10:60" = None /\ moment "" = None.
Proof. repeat split; reflexivity. Qed.

(** C2: on valid times the overlap test is exactly [s1 < e2 /\ s2 < e1],
    both strict; ranges that touch at an endpoint do not overlap, as
    09:00-10:30 against 10:30-11:30, while 09:00-10:30 against
    10:00-11:30 do. *)
Theorem C2_timeOverlap_strict :
  forall (start1 end1 start2 end2 : string) (s1 e1 s2 e2 : Z),
    moment start1 = Some s1 -> moment end1 = Some e1 ->
    moment start2 = Some s2 -> moment end2 = Some e2 ->
    (timeOverlap start1 end1 start2 end2 = true <-> (s1 < e2 /\ s2 < e1)%Z)
    /\ (e1 = s2 -> timeOverlap start1 end1 start2 end2 = false)
    /\ (e2 = s1 -> timeOverlap start1 end1 start2 end2 = false)
    /\ timeOverlap "09:00" "10:30" "10:30" "11:30" = false
    /\ timeOverlap "09:00" "10:30" "10:00" "11:30" = true.
Proof.
  intros start1 end1 start2 end2 s1 e1 s2 e2 H1 H2 H3 H4.
  assert (Hiff : timeOverlap start1 end1 start2 end2 = true <-> (s1 < e2 /\ s2 < e1)%Z).
  { unfold timeOverlap. rewrite H1, H2, H3, H4.
    rewrite andb_true_iff, !isBefore_lt. tauto. }
  split; [exact Hiff|].
  split.
  { intros ->. apply not_true_is_false. rewrite Hiff. lia. }
  split.
  { intros ->. apply not_true_is_false. rewrite Hiff. lia. }
  split; reflexivity.
Qed.

Lemma C2_timeOverlap_strict_witness :
  (timeOverlap "09:00" "10:30" "10:00" "11:30" = true <-> (540 < 690 /\ 600 < 630)%Z)
  /\ (630 = 600 -> timeOverlap "09:00" "10:30" "10:00" "11:30" = false)%Z
  /\ (690 = 540 -> timeOverlap "09:00" "10:30" "10:00" "11:30" = false)%Z
  /\ timeOverlap "09:00" "10:30" "10:30" "11:30" = false
  /\ timeOverlap "09:00" "10:30" "10:00" "11:30" = true.
Proof.
  apply (C2_timeOverlap_strict "09:00" "10:30" "10:00" "11:30" 540 630 600 690);
    reflexivity.
Defined.

(** ** The evaluator's loops as a record of events *)

Lemma total_penalty_app (a b : list Conflict) :
  total_penalty (a ++ b) == total_penalty a + total_penalty b.
Proof.
  induction a as [|c a IH]; simpl.
  - ring.
  - unfold total_penalty in *. simpl. rewrite IH. ring.
Qed.

Lemma fold_left_records {B : Type} (step : Eval -> B -> Eval) (ev : B -> list Conflict) :
  records step ev ->
  forall l st,
    snd (fold_left step l st) = snd st ++ flat_map ev l
    /\ fst (fold_left step l st) == fst st - total_penalty (flat_map ev l).
Proof.
  intros Hrec l. induction l as [|b l IH]; intros st; simpl.
  - rewrite app_nil_r. split; [reflexivity|]. unfold total_penalty; simpl. ring.
  - destruct (IH (step st b)) as [Hs Hf]. destruct (Hrec st b) as [Hs1 Hf1].
    split.
    + rewrite Hs, Hs1, app_assoc. reflexivity.
    + rewrite Hf, Hf1, total_penalty_app. ring.
Qed.

Lemma pair_step_records (slot1 : Slot) : records (pair_step slot1) (pair_events slot1).
Proof.
  intros st slot2. unfold pair_step, pair_events, penalize.
  destruct (teacher_clash slot1 slot2), (room_clash slot1 slot2);
    cbn [fst snd app]; unfold total_penalty; simpl;
    rewrite <- ?app_assoc, ?app_nil_r; split; try reflexivity; ring.
Qed.

Lemma existing_step_records (slot : Slot) :
  records (existing_step slot) (existing_events slot).
Proof.
  intros st ex. unfold existing_step, existing_events, penalize.
  destruct (existing_clash slot ex);
    cbn [fst snd app]; unfold total_penalty; simpl;
    rewrite ?app_nil_r; split; try reflexivity; ring.
Qed.

Lemma workload_step_records (ts : list Teacher) :
  records (workload_step ts) (workload_events ts).
Proof.
  intros st [tid w]. unfold workload_step, workload_events, penalize. cbn [fst snd].
  destruct (find_teacher ts tid) as [teacher|]; [destruct w as [w|]|];
    try (destruct (Qgtb w (maxWorkload teacher)));
    cbn [fst snd app]; unfold total_penalty; simpl;
    rewrite ?app_nil_r; split; try reflexivity; ring.
Qed.

Lemma capacity_step_records (cs : list Course) (rs : list Room) :
  records (capacity_step cs rs) (capacity_events cs rs).
Proof.
  intros st slot. unfold capacity_step, capacity_events, penalize.
  destruct (find_course cs (courseId slot)) as [course|];
    [destruct (find_room rs (roomId slot)) as [room|];
     [destruct (maxStudents course) as [m|];
      [destruct (negb (m =? 0)%Z && (capacity room <? m)%Z)|]|]|];
    cbn [fst snd app]; unfold total_penalty; simpl;
    rewrite ?app_nil_r; split; try reflexivity; ring.
Qed.

Lemma conflict_loop_records (ex : list Existing) :
  forall ss st,
    snd (conflict_loop ss ex st) = snd st ++ scan_events ss ex
    /\ fst (conflict_loop ss ex st) == fst st - total_penalty (scan_events ss ex).
Proof.
  induction ss as [|slot1 rest IH]; intros st; simpl.
  - rewrite app_nil_r. split; [reflexivity|]. unfold total_penalty; simpl. ring.
  - destruct (fold_left_records _ _ (pair_step_records slot1) rest st) as [Hs1 Hf1].
    destruct (fold_left_records _ _ (existing_step_records slot1) ex
                (fold_left (pair_step slot1) rest st)) as [Hs2 Hf2].
    destruct (IH (fold_left (existing_step slot1) ex
                    (fold_left (pair_step slot1) rest st))) as [Hs3 Hf3].
    split.
    + rewrite Hs3, Hs2, Hs1, <- !app_assoc. reflexivity.
    + rewrite Hf3, Hf2, Hf1, !total_penalty_app. ring.
Qed.

(** The conflicts recorded by the whole scan, in the order of recording. *)
Lemma fitness_scan_events (ss : list Slot) (env : Env) :
  snd (fitness_scan ss env)
  = scan_events ss (existingTimetables env)
    ++ flat_map (workload_events (teachers env))
                (Object_entries (calculateTeacherWorkloads ss (teachers env)))
    ++ flat_map (capacity_events (courses env) (rooms env)) ss.
Proof.
  unfold fitness_scan.
  destruct (conflict_loop_records (existingTimetables env) ss (1, [])) as [H1 _].
  destruct (fold_left_records _ _ (workload_step_records (teachers env))
              (Object_entries (calculateTeacherWorkloads ss (teachers env)))
              (conflict_loop ss (existingTimetables env) (1, []))) as [H2 _].
  destruct (fold_left_records _ _ (capacity_step_records (courses env) (rooms env)) ss
              (fold_left (workload_step (teachers env))
                 (Object_entries (calculateTeacherWorkloads ss (teachers env)))
                 (conflict_loop ss (existingTimetables env) (1, [])))) as [H3 _].
  rewrite H3, H2, H1. simpl. rewrite <- app_assoc. reflexivity.
Qed.

(** The running fitness is the baseline minus the penalties of the
    recorded conflicts. *)
Lemma fitness_scan_total (ss : list Slot) (env : Env) :
  fst (fitness_scan ss env) == 1 - total_penalty (snd (fitness_scan ss env)).
Proof.
  rewrite fitness_scan_events. unfold fitness_scan.
  destruct (conflict_loop_records (existingTimetables env) ss (1, [])) as [_ H1].
  destruct (fold_left_records _ _ (workload_step_records (teachers env))
              (Object_entries (calculateTeacherWorkloads ss (teachers env)))
              (conflict_loop ss (existingTimetables env) (1, []))) as [_ H2].
  destruct (fold_left_records _ _ (capacity_step_records (courses env) (rooms env)) ss
              (fold_left (workload_step (teachers env))
                 (Object_entries (calculateTeacherWorkloads ss (teachers env)))
                 (conflict_loop ss (existingTimetables env) (1, [])))) as [_ H3].
  rewrite H3, H2, H1, !total_penalty_app. simpl. ring.
Qed.

(** ** Conflicts by kind *)

Lemma filter_flat_map_nil {B : Type} (kind : Conflict -> bool) (ev : B -> list Conflict)
  (l : list B) :
  (forall b, filter kind (ev b) = []) -> filter kind (flat_map ev l) = [].
Proof.
  intros H. induction l as [|b l IH]; simpl; [reflexivity|].
  rewrite filter_app, H, IH. reflexivity.
Qed.

Lemma filter_teacher_pair_events (s : Slot) (rest : list Slot) :
  filter is_teacher_conflict (flat_map (pair_events s) rest)
  = map (fun p => TEACHER_CONFLICT (fst p) (snd p))
        (filter (fun p => teacher_clash (fst p) (snd p)) (map (pair s) rest)).
Proof.
  induction rest as [|s2 rest IH]; simpl; [reflexivity|].
  rewrite filter_app, IH. unfold pair_events.
  destruct (teacher_clash s s2), (room_clash s s2); reflexivity.
Qed.

Lemma filter_room_pair_events (s : Slot) (rest : list Slot) :
  filter is_room_conflict (flat_map (pair_events s) rest)
  = map (fun p => ROOM_CONFLICT (fst p) (snd p))
        (filter (fun p => room_clash (fst p) (snd p)) (map (pair s) rest)).
Proof.
  induction rest as [|s2 rest IH]; simpl; [reflexivity|].
  rewrite filter_app, IH. unfold pair_events.
  destruct (teacher_clash s s2), (room_clash s s2); reflexivity.
Qed.

Lemma pair_events_kinds (s s2 : Slot) :
  filter is_existing_conflict (pair_events s s2) = []
  /\ filter is_workload_conflict (pair_events s s2) = []
  /\ filter is_capacity_conflict (pair_events s s2) = [].
Proof.
  unfold pair_events. destruct (teacher_clash s s2), (room_clash s s2); auto.
Qed.

Lemma existing_events_kinds (s : Slot) (e : Existing) :
  filter is_teacher_conflict (existing_events s e) = []
  /\ filter is_room_conflict (existing_events s e) = []
  /\ filter is_workload_conflict (existing_events s e) = []
  /\ filter is_capacity_conflict (existing_events s e) = [].
Proof.
  unfold existing_events. destruct (existing_clash s e); auto.
Qed.

Lemma workload_events_kinds (ts : list Teacher) (entry : string * jsnum) :
  filter is_teacher_conflict (workload_events ts entry) = []
  /\ filter is_room_conflict (workload_events ts entry) = []
  /\ filter is_existing_conflict (workload_events ts entry) = []
  /\ filter is_capacity_conflict (workload_events ts entry) = []
  /\ filter is_workload_conflict (workload_events ts entry) = workload_events ts entry.
Proof.
  unfold workload_events.
  destruct (find_teacher ts (fst entry)) as [t|]; [destruct (snd entry) as [w|]|];
    try destruct (Qgtb w (maxWorkload t)); auto 6.
Qed.

Lemma capacity_events_kinds (cs : list Course) (rs : list Room) (s : Slot) :
  filter is_teacher_conflict (capacity_events cs rs s) = []
  /\ filter is_room_conflict (capacity_events cs rs s) = []
  /\ filter is_existing_conflict (capacity_events cs rs s) = []
  /\ filter is_workload_conflict (capacity_events cs rs s) = [].
Proof.
  unfold capacity_events.
  destruct (find_course cs (courseId s)) as [c|];
    [destruct (find_room rs (roomId s)) as [r|];
     [destruct (maxStudents c) as [m|];
      [destruct (negb (m =? 0)%Z && (capacity r <? m)%Z)|]|]|]; auto.
Qed.

Lemma filter_teacher_scan (ss : list Slot) (ex : list Existing) :
  filter is_teacher_conflict (scan_events ss ex)
  = map (fun p => TEACHER_CONFLICT (fst p) (snd p))
        (filter (fun p => teacher_clash (fst p) (snd p)) (unordered_pairs ss)).
Proof.
  induction ss as [|s rest IH]; simpl; [reflexivity|].
  rewrite !filter_app, IH, filter_teacher_pair_events.
  rewrite (filter_flat_map_nil _ _ ex (fun e => proj1 (existing_events_kinds s e))).
  rewrite map_app. reflexivity.
Qed.

Lemma filter_room_scan (ss : list Slot) (ex : list Existing) :
  filter is_room_conflict (scan_events ss ex)
  = map (fun p => ROOM_CONFLICT (fst p) (snd p))
        (filter (fun p => room_clash (fst p) (snd p)) (unordered_pairs ss)).
Proof.
  induction ss as [|s rest IH]; simpl; [reflexivity|].
  rewrite !filter_app, IH, filter_room_pair_events.
  rewrite (filter_flat_map_nil _ _ ex
             (fun e => proj1 (proj2 (existing_events_kinds s e)))).
  rewrite map_app. reflexivity.
Qed.


Lemma filter_flat_map_id {B : Type} (kind : Conflict -> bool) (ev : B -> list Conflict)
  (l : list B) :
  (forall b, filter kind (ev b) = ev b) -> filter kind (flat_map ev l) = flat_map ev l.
Proof.
  intros H. induction l as [|b l IH]; simpl; [reflexivity|].
  rewrite filter_app, H, IH. reflexivity.
Qed.

(** ** The fitness value *)

Lemma Qgtb_lt (a b : Q) : Qgtb a b = true <-> b < a.
Proof.
  unfold Qgtb. rewrite negb_true_iff, <- not_true_iff_false, Qle_bool_iff.
  split; [apply Qnot_le_lt | apply Qlt_not_le].
Qed.

Lemma Qltb_lt (a b : Q) : Qltb a b = true <-> a < b.
Proof. unfold Qltb. apply (Qgtb_lt b a). Qed.

Lemma teacher_clash_iff (s1 s2 : Slot) :
  teacher_clash s1 s2 = true
  <-> teacherId s1 = teacherId s2 /\ dayOfWeek s1 = dayOfWeek s2
      /\ timeOverlap (startTime s1) (endTime s1) (startTime s2) (endTime s2) = true.
Proof.
  unfold teacher_clash. rewrite !andb_true_iff, String.eqb_eq, Z.eqb_eq. tauto.
Qed.

Lemma room_clash_iff (s1 s2 : Slot) :
  room_clash s1 s2 = true
  <-> roomId s1 = roomId s2 /\ dayOfWeek s1 = dayOfWeek s2
      /\ timeOverlap (startTime s1) (endTime s1) (startTime s2) (endTime s2) = true.
Proof.
  unfold room_clash. rewrite !andb_true_iff, String.eqb_eq, Z.eqb_eq. tauto.
Qed.

Lemma existing_clash_iff (s : Slot) (e : Existing) :
  existing_clash s e = true
  <-> teacherId s = existing_teacherId e /\ dayOfWeek s = existing_dayOfWeek e
      /\ timeOverlap (startTime s) (endTime s)
                     (existing_startTime e) (existing_endTime e) = true.
Proof.
  unfold existing_clash. rewrite !andb_true_iff, String.eqb_eq, Z.eqb_eq. tauto.
Qed.

(** Every adjustment is a penalty: a recorded conflict costs a positive
    amount. *)
Lemma recorded_penalty_pos (ss : list Slot) (env : Env) (c : Conflict) :
  In c (snd (fitness_scan ss env)) -> 0 < penalty c.
Proof.
  rewrite fitness_scan_events, !in_app_iff.
  intros [H | [H | H]].
  - revert H. induction ss as [|s rest IH]; simpl; [tauto|].
    rewrite !in_app_iff, !in_flat_map.
    intros [[s2 [_ H]] | [[e [_ H]] | H]]; [| |auto].
    + unfold pair_events in H.
      destruct (teacher_clash s s2), (room_clash s s2); simpl in H;
        intuition (subst; reflexivity).
    + unfold existing_events in H.
      destruct (existing_clash s e); simpl in H; intuition (subst; reflexivity).
  - apply in_flat_map in H. destruct H as [entry [_ H]].
    unfold workload_events in H.
    destruct (find_teacher (teachers env) (fst entry)) as [t|]; [|destruct H].
    destruct (snd entry) as [w|]; [|destruct H].
    destruct (Qgtb w (maxWorkload t)) eqn:E; [|destruct H].
    destruct H as [<- | []]. apply Qgtb_lt in E. cbn [penalty].
    apply Qmult_lt_0_compat; [reflexivity|]. lra.
  - apply in_flat_map in H. destruct H as [s [_ H]].
    unfold capacity_events in H.
    destruct (find_course (courses env) (courseId s)) as [co|]; [|destruct H].
    destruct (find_room (rooms env) (roomId s)) as [r|]; [|destruct H].
    destruct (maxStudents co) as [m|]; [|destruct H].
    destruct (negb (m =? 0)%Z && (capacity r <? m)%Z); [|destruct H].
    destruct H as [<- | []]. reflexivity.
Qed.

Lemma total_penalty_nonneg (cs : list Conflict) :
  (forall c, In c cs -> 0 < penalty c) -> 0 <= total_penalty cs.
Proof.
  induction cs as [|c cs IH]; intros H.
  - apply Qle_refl.
  - change (total_penalty (c :: cs)) with (penalty c + total_penalty cs).
    assert (0 < penalty c) by (apply H; left; reflexivity).
    assert (0 <= total_penalty cs) by (apply IH; intros; apply H; right; assumption).
    lra.
Qed.

(** ** The workloads object *)













(** ** Object.entries is a rearrangement of the properties *)




Lemma filter_split_perm {A : Type} (p : A -> bool) (l : list A) :
  Permutation (filter p l ++ filter (fun x => negb (p x)) l) l.
Proof.
  induction l as [|x l IH]; simpl; [reflexivity|].
  destruct (p x); simpl.
  - rewrite IH. reflexivity.
  - rewrite <- Permutation_middle, IH. reflexivity.
Qed.


(** ** WORKLOAD_EXCEEDED records *)



(** ** Computations: sequencing and randomness *)

Lemma bind_ok {A B} (m : M A) (f : A -> M B) (g : Oracle) (k k1 : nat) (a : A) :
  m g k = Ok (a, k1) -> bind m f g k = f a g k1.
Proof. intros H. unfold bind. rewrite H. reflexivity. Qed.

Lemma bind_throw {A B} (m : M A) (f : A -> M B) (g : Oracle) (k : nat) (e : error) :
  m g k = Throw e -> bind m f g k = Throw e.
Proof. intros H. unfold bind. rewrite H. reflexivity. Qed.

Lemma bind_inv_ok {A B} (m : M A) (f : A -> M B) (g : Oracle) (k k2 : nat) (b : B) :
  bind m f g k = Ok (b, k2) ->
  exists a k1, m g k = Ok (a, k1) /\ f a g k1 = Ok (b, k2).
Proof.
  unfold bind. destruct (m g k) as [[a k1]|e]; [|discriminate].
  intros H. exists a, k1. split; [reflexivity | exact H].
Qed.

(** Half of the raw values fall below 0.5. *)
Lemma random_value_half (g : Oracle) (k : nat) :
  Qltb (random_value g k) (1 # 2) = true <-> (g k mod 9007199254740992 < 4503599627370496)%N.
Proof.
  rewrite Qltb_lt. unfold random_value, Qlt. cbn [Qnum Qden].
  set (x := (g k mod 9007199254740992)%N). clearbody x. lia.
Qed.

(** The rounded product of a draw and a length stays below the length. *)
Lemma round_to_53_bits_lt (m n : Z) :
  (0 <= m < 9007199254740992)%Z -> (0 < n)%Z ->
  (0 <= round_to_53_bits (m * n) < n * 9007199254740992)%Z.
Proof.
  intros Hm Hn. unfold round_to_53_bits.
  assert (Hp : (0 <= m * n <= n * 9007199254740992 - n)%Z).
  { split; [apply Z.mul_nonneg_nonneg; lia|].
    assert (m * n <= 9007199254740991 * n)%Z by (apply Z.mul_le_mono_nonneg_r; lia).
    lia. }
  set (p := (m * n)%Z) in *. clearbody p.
  destruct (Z.leb_spec (Z.log2 p - 52) 0) as [Hs|Hs]; [lia|].
  set (s := (Z.log2 p - 52)%Z) in *.
  assert (Hpos : (0 < p)%Z).
  { destruct (Z.lt_ge_cases 0 p) as [H|H]; [exact H|].
    pose proof (Z.log2_nonpos p H). lia. }
  destruct (Z.log2_spec p Hpos) as [Hlo Hhi].
  replace (Z.log2 p) with (s - 1 + 53)%Z in Hlo by lia.
  rewrite Z.pow_add_r in Hlo by lia. change (2 ^ 53)%Z with 9007199254740992%Z in Hlo.
  assert (Hpow : (2 ^ s = 2 * 2 ^ (s - 1))%Z).
  { replace s with (1 + (s - 1))%Z at 1 by lia. rewrite Z.pow_add_r by lia. reflexivity. }
  assert (Hh : (0 < 2 ^ (s - 1))%Z) by (apply Z.pow_pos_nonneg; lia).
  rewrite Z.shiftr_div_pow2 by lia.
  pose proof (Z.div_mod p (2 ^ s) ltac:(lia)) as Hdm.
  pose proof (Z.mod_pos_bound p (2 ^ s) ltac:(lia)) as Hmod.
  assert (Hq : (0 <= p / 2 ^ s)%Z) by (apply Z.div_pos; lia).
  set (q := (p / 2 ^ s)%Z) in *. set (rest := (p mod 2 ^ s)%Z) in *.
  set (h := (2 ^ (s - 1))%Z) in *. clearbody q rest h.
  destruct ((h <? rest)%Z || ((rest =? h)%Z && Z.odd q)) eqn:E.
  - assert (h <= rest)%Z.
    { apply orb_true_iff in E. destruct E as [E|E].
      - apply Z.ltb_lt in E. lia.
      - apply andb_true_iff in E. destruct E as [E _]. apply Z.eqb_eq in E. lia. }
    nia.
  - nia.
Qed.

Lemma random_index_lt (n : nat) (g : Oracle) (k : nat) :
  (0 < n)%nat ->
  exists i, random_index n g k = Ok (i, S k) /\ (i < n)%nat.
Proof.
  intros Hn. unfold random_index.
  eexists. split; [reflexivity|].
  pose proof (N.mod_upper_bound (g k) 9007199254740992 ltac:(discriminate)) as Hm.
  set (m := (g k mod 9007199254740992)%N) in *. clearbody m.
  destruct (round_to_53_bits_lt (Z.of_N m) (Z.of_nat n) ltac:(lia) ltac:(lia)) as [H0 H1].
  set (R := round_to_53_bits (Z.of_N m * Z.of_nat n)) in *. clearbody R.
  assert (0 <= R / 9007199254740992 < Z.of_nat n)%Z.
  { split; [apply Z.div_pos; lia | apply Z.div_lt_upper_bound; lia]. }
  lia.
Qed.

(** ** Crossover *)

Lemma nth_error_lt {A : Type} (l : list A) (i : nat) (x : A) :
  nth_error l i = Some x -> (i < List.length l)%nat.
Proof. intros H. apply nth_error_Some. rewrite H. discriminate. Qed.

Lemma nth_error_ge {A : Type} (l : list A) (i : nat) :
  nth_error l i = None -> (List.length l <= i)%nat.
Proof. apply nth_error_None. Qed.

Lemma nth_error_snoc {A : Type} (l : list A) (x : A) :
  nth_error (l ++ [x]) (List.length l) = Some x.
Proof. rewrite nth_error_app2, Nat.sub_diag by lia. reflexivity. Qed.

(** The crossover loop from index [a], with [a] genes already pushed. *)
Lemma crossover_loop (parent1 parent2 : Individual) (g : Oracle) :
  forall (n a : nat) (child : list Slot) (k : nat),
    (a + n <= Nat.max (List.length (slots parent1)) (List.length (slots parent2)))%nat ->
    List.length child = a ->
    exists child',
      foldM (crossover_step parent1 parent2) (seq a n) child g k
      = Ok (child',
            (k + (Nat.min (a + n) (Nat.min (List.length (slots parent1))
                                           (List.length (slots parent2)))
                  - Nat.min a (Nat.min (List.length (slots parent1))
                                       (List.length (slots parent2)))))%nat)
      /\ List.length child' = (a + n)%nat
      /\ (forall i, (i < a)%nat -> nth_error child' i = nth_error child i)
      /\ (forall i, (a <= i < a + n)%nat ->
            nth_error child' i
            = match nth_error (slots parent1) i, nth_error (slots parent2) i with
              | Some x, Some y =>
                  Some (if Qltb (random_value g (k + (i - a))) (1 # 2) then x else y)
              | Some x, None => Some x
              | None, Some y => Some y
              | None, None => None
              end).
Proof.
  set (s1 := slots parent1). set (s2 := slots parent2).
  induction n as [|n IH]; intros a child k Hmax Hlen.
  - exists child. simpl. unfold ret.
    split; [f_equal; f_equal; lia|]. split; [lia|]. split; [reflexivity|]. intros i Hi. lia.
  - simpl seq. cbn [foldM]. unfold crossover_step at 1. fold s1 s2.
    destruct (nth_error s1 a) as [x|] eqn:E1; destruct (nth_error s2 a) as [y|] eqn:E2.
    + (* both parents have a gene at [a] *)
      pose proof (nth_error_lt _ _ _ E1) as L1. pose proof (nth_error_lt _ _ _ E2) as L2.
      set (c := if Qltb (random_value g k) (1 # 2) then x else y).
      destruct (IH (S a) (child ++ [c]) (S k)) as [child' [Hrun [Hl [Hpre Hnew]]]];
        [lia | rewrite length_app; simpl; lia |].
      exists child'. split.
      { unfold bind at 1. unfold bind at 1. unfold Math_random, ret at 1.
        fold c. rewrite Hrun. f_equal. f_equal. lia. }
      split; [lia|]. split.
      { intros i Hi. rewrite Hpre by lia. apply nth_error_app1. lia. }
      intros i Hi. destruct (Nat.eq_dec i a) as [->|Hne].
      * rewrite Hpre by lia. rewrite <- Hlen at 1. rewrite nth_error_snoc.
        fold s1 s2. rewrite E1, E2, Nat.sub_diag, Nat.add_0_r. reflexivity.
      * rewrite Hnew by lia.
        replace (S k + (i - S a))%nat with (k + (i - a))%nat by lia. reflexivity.
    + (* only parent1 *)
      pose proof (nth_error_lt _ _ _ E1) as L1. pose proof (nth_error_ge _ _ E2) as L2.
      destruct (IH (S a) (child ++ [x]) k) as [child' [Hrun [Hl [Hpre Hnew]]]];
        [lia | rewrite length_app; simpl; lia |].
      exists child'. split.
      { unfold bind at 1. unfold ret at 1. rewrite Hrun. f_equal. f_equal. lia. }
      split; [lia|]. split.
      { intros i Hi. rewrite Hpre by lia. apply nth_error_app1. lia. }
      intros i Hi. destruct (Nat.eq_dec i a) as [->|Hne].
      * rewrite Hpre by lia. rewrite <- Hlen at 1. rewrite nth_error_snoc.
        fold s1 s2. rewrite E1, E2. reflexivity.
      * rewrite Hnew by lia. fold s1 s2.
        destruct (nth_error s2 i) as [y|] eqn:E2i; [|reflexivity].
        apply nth_error_lt in E2i. lia.
    + (* only parent2 *)
      pose proof (nth_error_ge _ _ E1) as L1. pose proof (nth_error_lt _ _ _ E2) as L2.
      destruct (IH (S a) (child ++ [y]) k) as [child' [Hrun [Hl [Hpre Hnew]]]];
        [lia | rewrite length_app; simpl; lia |].
      exists child'. split.
      { unfold bind at 1. unfold ret at 1. rewrite Hrun. f_equal. f_equal. lia. }
      split; [lia|]. split.
      { intros i Hi. rewrite Hpre by lia. apply nth_error_app1. lia. }
      intros i Hi. destruct (Nat.eq_dec i a) as [->|Hne].
      * rewrite Hpre by lia. rewrite <- Hlen at 1. rewrite nth_error_snoc.
        fold s1 s2. rewrite E1, E2. reflexivity.
      * rewrite Hnew by lia. fold s1 s2.
        destruct (nth_error s1 i) as [x|] eqn:E1i; [|reflexivity].
        apply nth_error_lt in E1i. lia.
    + (* no parent has a gene at [a]: outside the loop bounds *)
      pose proof (nth_error_ge _ _ E1) as L1. pose proof (nth_error_ge _ _ E2) as L2.
      fold s1 s2 in Hmax. lia.
Qed.

(** Outcome of [crossover]: it never throws, draws once per index the
    parents share, and builds the child index by index. *)
Lemma crossover_shape (parent1 parent2 : Individual) (g : Oracle) (k : nat) :
  exists child,
    crossover parent1 parent2 g k
    = Ok (child, (k + Nat.min (List.length (slots parent1))
                              (List.length (slots parent2)))%nat)
    /\ List.length (slots child)
       = Nat.max (List.length (slots parent1)) (List.length (slots parent2))
    /\ (forall i,
           nth_error (slots child) i
           = match nth_error (slots parent1) i, nth_error (slots parent2) i with
             | Some slot1, Some slot2 =>
                 Some (if Qltb (random_value g (k + i)) (1 # 2) then slot1 else slot2)
             | Some slot1, None => Some slot1
             | None, Some slot2 => Some slot2
             | None, None => None
             end).
Proof.
  destruct (crossover_loop parent1 parent2 g
              (Nat.max (List.length (slots parent1)) (List.length (slots parent2)))
              0 [] k) as [ss [Hrun [Hl [_ Hnew]]]]; [simpl; lia | reflexivity|].
  exists {| slots := ss; conflicts := []; fitness := 0 |}. cbn [slots].
  split.
  { unfold crossover. unfold bind. rewrite Hrun. unfold ret. f_equal. f_equal. lia. }
  split; [exact Hl|].
  intros i.
  destruct (Nat.lt_ge_cases i
              (Nat.max (List.length (slots parent1)) (List.length (slots parent2))))
    as [Hi|Hi].
  - rewrite Hnew by lia. rewrite Nat.sub_0_r. reflexivity.
  - assert (E : nth_error ss i = None) by (apply nth_error_None; simpl in Hl; lia).
    assert (E1 : nth_error (slots parent1) i = None) by (apply nth_error_None; lia).
    assert (E2 : nth_error (slots parent2) i = None) by (apply nth_error_None; lia).
    rewrite E, E1, E2. reflexivity.
Qed.

(** C5: the child has max(len parent1, len parent2) genes; where both
    parents have a gene the child takes the one selected by a fresh random
    draw against 0.5 (each gene for half of the equally likely draws),
    where only one has a gene the child takes it; a 5-gene parent crossed
    with a 3-gene parent gives a 5-gene child. *)
Theorem C5_crossover :
  forall (parent1 parent2 : Individual) (g : Oracle) (k : nat),
  exists child,
    crossover parent1 parent2 g k
    = Ok (child, (k + Nat.min (List.length (slots parent1))
                              (List.length (slots parent2)))%nat)
    /\ List.length (slots child)
       = Nat.max (List.length (slots parent1)) (List.length (slots parent2))
    /\ (forall i,
           nth_error (slots child) i
           = match nth_error (slots parent1) i, nth_error (slots parent2) i with
             | Some slot1, Some slot2 =>
                 Some (if Qltb (random_value g (k + i)) (1 # 2) then slot1 else slot2)
             | Some slot1, None => Some slot1
             | None, Some slot2 => Some slot2
             | None, None => None
             end)
    /\ (forall j, Qltb (random_value g j) (1 # 2) = true
                  <-> (g j mod 9007199254740992 < 4503599627370496)%N)
    /\ (List.length (slots parent1) = 5%nat -> List.length (slots parent2) = 3%nat ->
        List.length (slots child) = 5%nat).
Proof.
  intros parent1 parent2 g k.
  destruct (crossover_shape parent1 parent2 g k) as [child [Hrun [Hl Hnth]]].
  exists child. split; [exact Hrun|]. split; [exact Hl|]. split; [exact Hnth|].
  split; [intros j; apply random_value_half|].
  intros H5 H3. rewrite Hl, H5, H3. reflexivity.
Qed.

(** ** Random slots and mutation *)

Lemma generateRandomSlot_ok (course : Course) (teacher : Teacher) (rs : list Room)
  (g : Oracle) (k : nat) :
  rs <> [] ->
  exists slot,
    generateRandomSlot course teacher rs g k = Ok (slot, S (S (S k)))
    /\ courseId slot = course_id course
    /\ teacherId slot = teacher_id teacher
    /\ In (dayOfWeek slot) days
    /\ In (startTime slot, endTime slot) timeSlots
    /\ (exists room, In room rs /\ roomId slot = room_id room).
Proof.
  intros Hrs. unfold generateRandomSlot.
  destruct (random_index_lt (List.length days) g k) as [d [Hd Ld]]; [simpl; lia|].
  destruct (random_index_lt (List.length timeSlots) g (S k)) as [t [Ht Lt]]; [simpl; lia|].
  destruct (random_index_lt (List.length rs) g (S (S k))) as [r [Hr Lr]];
    [destruct rs; [congruence | simpl; lia]|].
  rewrite (bind_ok _ _ _ _ _ _ Hd), (bind_ok _ _ _ _ _ _ Ht), (bind_ok _ _ _ _ _ _ Hr).
  destruct (nth_error rs r) as [room|] eqn:Er;
    [|apply nth_error_None in Er; lia].
  destruct (nth_error timeSlots t) as [timeSlot|] eqn:Et;
    [|apply nth_error_None in Et; lia].
  eexists. split; [reflexivity|]. cbn [courseId teacherId dayOfWeek startTime endTime roomId].
  split; [reflexivity|]. split; [reflexivity|].
  split; [apply nth_In; exact Ld|].
  split; [rewrite <- surjective_pairing; apply (nth_error_In _ _ Et)|].
  exists room. split; [apply (nth_error_In _ _ Er) | reflexivity].
Qed.

Lemma generateRandomSlot_courseId (course : Course) (teacher : Teacher) (rs : list Room)
  (g : Oracle) (k k' : nat) (slot : Slot) :
  generateRandomSlot course teacher rs g k = Ok (slot, k') ->
  courseId slot = course_id course.
Proof.
  unfold generateRandomSlot. intros H.
  apply bind_inv_ok in H. destruct H as [d [k1 [_ H]]].
  apply bind_inv_ok in H. destruct H as [t [k2 [_ H]]].
  apply bind_inv_ok in H. destruct H as [r [k3 [_ H]]].
  destruct (nth_error rs r); [|discriminate].
  destruct (nth_error timeSlots t); [|discriminate].
  inversion H. reflexivity.
Qed.

Lemma find_course_id (cs : list Course) (id : string) (course : Course) :
  find_course cs id = Some course -> course_id course = id.
Proof.
  unfold find_course. intros H. apply find_some in H. apply String.eqb_eq. apply H.
Qed.

(** A mutated gene keeps its courseId. *)
Lemma mutate_slot_courseId (env : Env) (slot slot' : Slot) (g : Oracle) (k k' : nat) :
  mutate_slot env slot g k = Ok (slot', k') -> courseId slot' = courseId slot.
Proof.
  unfold mutate_slot. unfold bind, Math_random.
  destruct (Qltb (random_value g k) (1 # 10)).
  - destruct (find_course (courses env) (courseId slot)) as [course|] eqn:Ec;
      [|discriminate].
    destruct (find_teacher (teachers env) (course_teacherId course)).
    + intros H. apply generateRandomSlot_courseId in H. rewrite H.
      apply (find_course_id _ _ _ Ec).
    + intros H. inversion H. reflexivity.
  - intros H. inversion H. reflexivity.
Qed.

Lemma mutate_slots_courseIds (env : Env) (g : Oracle) :
  forall (ss ss' : list Slot) (k k' : nat),
    mutate_slots env ss g k = Ok (ss', k') -> map courseId ss' = map courseId ss.
Proof.
  induction ss as [|s ss IH]; intros ss' k k' H; simpl in H.
  - inversion H. reflexivity.
  - apply bind_inv_ok in H. destruct H as [s' [k1 [Hs H]]].
    apply bind_inv_ok in H. destruct H as [rest' [k2 [Hr H]]].
    inversion H; subst. simpl. f_equal.
    + apply (mutate_slot_courseId _ _ _ _ _ _ Hs).
    + apply (IH _ _ _ Hr).
Qed.

Lemma mutate_slots_app (env : Env) (g : Oracle) :
  forall (pre rest : list Slot) (k : nat),
    mutate_slots env (pre ++ rest) g k
    = match mutate_slots env pre g k with
      | Ok (pre', k1) =>
          match mutate_slots env rest g k1 with
          | Ok (rest', k2) => Ok (pre' ++ rest', k2)
          | Throw e => Throw e
          end
      | Throw e => Throw e
      end.
Proof.
  induction pre as [|s pre IH]; intros rest k; simpl.
  - unfold ret. destruct (mutate_slots env rest g k) as [[rest' k2]|e]; reflexivity.
  - unfold bind, ret. destruct (mutate_slot env s g k) as [[s' k1]|e]; [|reflexivity].
    rewrite IH.
    destruct (mutate_slots env pre g k1) as [[pre' k2]|e]; [|reflexivity].
    destruct (mutate_slots env rest g k2) as [[rest' k3]|e]; reflexivity.
Qed.

Lemma mutate_slots_length (env : Env) (g : Oracle) (ss ss' : list Slot) (k k' : nat) :
  mutate_slots env ss g k = Ok (ss', k') -> List.length ss' = List.length ss.
Proof.
  intros H. apply mutate_slots_courseIds in H.
  apply (f_equal (@List.length string)) in H. rewrite !length_map in H. exact H.
Qed.

(** C9, as the code has it: when a gene is selected for mutation and its
    course cannot be resolved, the whole mutation faults with a TypeError;
    when the course resolves but its teacher does not, the guard skips the
    gene, which stays as it was. *)
Theorem C9_mutation_unresolved :
  forall (env : Env) (individual : Individual) (pre post pre' : list Slot) (slot : Slot)
         (g : Oracle) (k0 k : nat),
    slots individual = pre ++ slot :: post ->
    mutate_slots env pre g k0 = Ok (pre', k) ->
    Qltb (random_value g k) (1 # 10) = true ->
    (find_course (courses env) (courseId slot) = None ->
     exists msg, mutate individual env g k0 = Throw (TypeError msg))
    /\ (forall course,
           find_course (courses env) (courseId slot) = Some course ->
           find_teacher (teachers env) (course_teacherId course) = None ->
           mutate_slot env slot g k = Ok (slot, S k)
           /\ forall mutated k',
               mutate individual env g k0 = Ok (mutated, k') ->
               nth_error (slots mutated) (List.length pre) = Some slot).
Proof.
  intros env individual pre post pre' slot g k0 k Hs Hpre Hsel.
  split.
  - intros Hc. eexists. unfold mutate. rewrite Hs. apply bind_throw.
    rewrite mutate_slots_app, Hpre. simpl.
    assert (Hslot : mutate_slot env slot g k
                    = Throw (TypeError "Cannot read properties of undefined (reading 'teacherId')")).
    { unfold mutate_slot, bind, Math_random. rewrite Hsel, Hc. reflexivity. }
    rewrite (bind_throw _ _ _ _ _ Hslot). reflexivity.
  - intros course Hc Ht.
    assert (Hslot : mutate_slot env slot g k = Ok (slot, S k)).
    { unfold mutate_slot, bind, Math_random. rewrite Hsel, Hc, Ht. reflexivity. }
    split; [exact Hslot|].
    intros mutated k' Hm. unfold mutate in Hm.
    apply bind_inv_ok in Hm. destruct Hm as [ss [k1 [Hss Hm]]].
    inversion Hm; subst mutated. cbn [slots].
    rewrite Hs, mutate_slots_app, Hpre in Hss. simpl in Hss.
    rewrite (bind_ok _ _ _ _ _ _ Hslot) in Hss.
    destruct ((rest' <- mutate_slots env post ;; ret (slot :: rest')) g (S k))
      as [[r k2]|e] eqn:E; [|discriminate].
    apply bind_inv_ok in E. destruct E as [rest' [k3 [_ E]]].
    inversion E; subst r. inversion Hss; subst ss.
    rewrite <- (mutate_slots_length _ _ _ _ _ _ Hpre).
    rewrite nth_error_app2, Nat.sub_diag by lia. reflexivity.
Qed.

(** ** One gene per candidate course *)

Lemma init_loop_courseIds (env : Env) (g : Oracle) :
  forall (cs : list Course) (ss ss' : list Slot) (k k' : nat),
    foldM (init_step env) cs ss g k = Ok (ss', k') ->
    map courseId ss' = map courseId ss ++ map course_id (filter (resolvable env) cs).
Proof.
  induction cs as [|c cs IH]; intros ss ss' k k' H; simpl in H.
  - inversion H. simpl. rewrite app_nil_r. reflexivity.
  - apply bind_inv_ok in H. destruct H as [ss1 [k1 [Hstep H]]].
    apply IH in H. rewrite H. simpl. unfold init_step in Hstep. unfold resolvable at 2.
    destruct (find_teacher (teachers env) (course_teacherId c)) as [t|].
    + apply bind_inv_ok in Hstep. destruct Hstep as [slot [k2 [Hslot Hret]]].
      inversion Hret; subst ss1. apply generateRandomSlot_courseId in Hslot.
      rewrite map_app. simpl. rewrite Hslot, <- app_assoc. reflexivity.
    + inversion Hstep. reflexivity.
Qed.

Lemma init_loop_ok (env : Env) (g : Oracle) :
  rooms env <> [] ->
  forall (cs : list Course) (ss : list Slot) (k : nat),
    exists ss' k', foldM (init_step env) cs ss g k = Ok (ss', k').
Proof.
  intros Hrs. induction cs as [|c cs IH]; intros ss k; simpl.
  - exists ss, k. reflexivity.
  - unfold init_step at 1.
    destruct (find_teacher (teachers env) (course_teacherId c)) as [t|].
    + destruct (generateRandomSlot_ok c t (rooms env) g k Hrs) as [slot [Hslot _]].
      destruct (IH (ss ++ [slot]) (S (S (S k)))) as [ss' [k' H]].
      exists ss', k'. unfold bind at 1. unfold bind at 1. rewrite Hslot. exact H.
    + destruct (IH ss k) as [ss' [k' H]]. exists ss', k'. exact H.
Qed.

Lemma init_individual_inv (env : Env) (g : Oracle) (k k' : nat) (individual : Individual) :
  init_individual env g k = Ok (individual, k') -> one_gene_per_course env individual.
Proof.
  unfold init_individual. intros H.
  apply bind_inv_ok in H. destruct H as [ss [k1 [Hss H]]].
  inversion H; subst. apply init_loop_courseIds in Hss. exact Hss.
Qed.

Lemma init_individual_ok (env : Env) (g : Oracle) (k : nat) :
  rooms env <> [] -> exists individual k', init_individual env g k = Ok (individual, k').
Proof.
  intros Hrs. destruct (init_loop_ok env g Hrs (courses env) [] k) as [ss [k' H]].
  eexists _, k'. unfold init_individual. rewrite (bind_ok _ _ _ _ _ _ H). reflexivity.
Qed.

Lemma init_population_loop (env : Env) (g : Oracle) :
  forall (l : list nat) (population population' : Population) (k k' : nat),
    foldM (fun population _ =>
             individual <- init_individual env ;;
             ret (population ++ [individual])) l population g k
    = Ok (population', k') ->
    Forall (one_gene_per_course env) population ->
    Forall (one_gene_per_course env) population'
    /\ List.length population' = (List.length population + List.length l)%nat.
Proof.
  induction l as [|x l IH]; intros population population' k k' H Hinv; simpl in H.
  - inversion H; subst. split; [exact Hinv | simpl; lia].
  - apply bind_inv_ok in H. destruct H as [p1 [k1 [Hstep H]]].
    apply bind_inv_ok in Hstep. destruct Hstep as [ind [k2 [Hind Hret]]].
    inversion Hret; subst p1. apply init_individual_inv in Hind.
    apply IH in H.
    + destruct H as [Ha Hb]. split; [exact Ha|]. rewrite Hb, length_app. simpl. lia.
    + apply Forall_app. split; [exact Hinv|]. constructor; [exact Hind | constructor].
Qed.

Lemma init_population_loop_ok (env : Env) (g : Oracle) :
  rooms env <> [] ->
  forall (l : list nat) (population : Population) (k : nat),
    exists population' k',
      foldM (fun population _ =>
               individual <- init_individual env ;;
               ret (population ++ [individual])) l population g k
      = Ok (population', k').
Proof.
  intros Hrs. induction l as [|x l IH]; intros population k; simpl.
  - exists population, k. reflexivity.
  - destruct (init_individual_ok env g k Hrs) as [ind [k1 Hind]].
    destruct (IH (population ++ [ind]) k1) as [p' [k' H]].
    exists p', k'. unfold bind at 1. unfold bind at 1. rewrite Hind. exact H.
Qed.

(** The initial population: [size] individuals, each with one gene per
    candidate course. *)
Lemma initializePopulation_inv (size : nat) (env : Env) (g : Oracle) (k k' : nat)
  (population : Population) :
  initializePopulation size env g k = Ok (population, k') ->
  Forall (one_gene_per_course env) population /\ List.length population = size.
Proof.
  unfold initializePopulation. intros H.
  apply init_population_loop in H; [|constructor].
  rewrite length_seq in H. exact H.
Qed.

Lemma initializePopulation_ok (size : nat) (env : Env) (g : Oracle) (k : nat) :
  rooms env <> [] ->
  exists population k', initializePopulation size env g k = Ok (population, k').
Proof. intros Hrs. apply init_population_loop_ok. exact Hrs. Qed.

(** Crossover of two parents built in the same course order. *)
Lemma crossover_courseIds (parent1 parent2 child : Individual) (g : Oracle) (k k' : nat)
  (ids : list string) :
  map courseId (slots parent1) = ids ->
  map courseId (slots parent2) = ids ->
  crossover parent1 parent2 g k = Ok (child, k') ->
  map courseId (slots child) = ids.
Proof.
  intros H1 H2 H.
  destruct (crossover_shape parent1 parent2 g k) as [c [Hrun [Hl Hnth]]].
  rewrite Hrun in H. inversion H; subst c k'. clear H Hrun.
  apply nth_error_ext. intros i.
  rewrite nth_error_map, Hnth.
  rewrite <- H1 at 1. rewrite nth_error_map.
  assert (E : option_map courseId (nth_error (slots parent1) i)
              = option_map courseId (nth_error (slots parent2) i))
    by (rewrite <- !nth_error_map; congruence).
  destruct (nth_error (slots parent1) i) as [x|], (nth_error (slots parent2) i) as [y|];
    simpl in *; try discriminate; try reflexivity.
  destruct (Qltb (random_value g (k + i)) (1 # 2)); [reflexivity | congruence].
Qed.

Lemma mutate_courseIds (individual mutated : Individual) (env : Env) (g : Oracle)
  (k k' : nat) :
  mutate individual env g k = Ok (mutated, k') ->
  map courseId (slots mutated) = map courseId (slots individual).
Proof.
  unfold mutate. intros H. apply bind_inv_ok in H. destruct H as [ss [k1 [Hss H]]].
  inversion H; subst. apply (mutate_slots_courseIds _ _ _ _ _ _ Hss).
Qed.

(** ** Sorting by descending fitness *)

Lemma insert_desc_perm (x : Individual) (l : Population) :
  Permutation (insert_desc x l) (x :: l).
Proof.
  induction l as [|y l IH]; simpl; [reflexivity|].
  destruct (Qgtb (fitness y) (fitness x)); [|reflexivity].
  rewrite IH. apply perm_swap.
Qed.

Lemma sort_desc_perm (l : Population) : Permutation (sort_desc l) l.
Proof.
  induction l as [|x l IH]; simpl; [reflexivity|].
  rewrite insert_desc_perm, IH. reflexivity.
Qed.

Lemma insert_desc_sorted (x : Individual) (l : Population) :
  StronglySorted (fun a b => fitness b <= fitness a) l ->
  StronglySorted (fun a b => fitness b <= fitness a) (insert_desc x l).
Proof.
  induction l as [|y l IH]; simpl; intros Hs.
  - constructor; constructor.
  - inversion Hs as [|? ? Hs' Hall]; subst.
    destruct (Qgtb (fitness y) (fitness x)) eqn:E.
    + apply Qgtb_lt in E. constructor; [apply IH; exact Hs'|].
      apply (Permutation_Forall (Permutation_sym (insert_desc_perm x l))).
      constructor; [apply Qlt_le_weak; exact E | exact Hall].
    + assert (Hle : fitness y <= fitness x).
      { apply Qnot_lt_le. intros Hlt. apply Qgtb_lt in Hlt. congruence. }
      constructor; [exact Hs|]. constructor; [exact Hle|].
      apply (Forall_impl _ (fun z Hz => Qle_trans _ _ _ Hz Hle) Hall).
Qed.

Lemma sort_desc_sorted (l : Population) :
  StronglySorted (fun a b => fitness b <= fitness a) (sort_desc l).
Proof.
  induction l as [|x l IH]; simpl; [constructor|].
  apply insert_desc_sorted. exact IH.
Qed.

(** After the sort, the first individual is a fittest one. *)
Lemma sort_desc_best (l : Population) (x : Individual) :
  In x l -> fitness x <= best_fitness (sort_desc l).
Proof.
  intros Hin. apply (Permutation_in _ (Permutation_sym (sort_desc_perm l))) in Hin.
  pose proof (sort_desc_sorted l) as Hs.
  destruct (sort_desc l) as [|b rest]; [destruct Hin|].
  simpl. inversion Hs as [|? ? _ Hall]; subst.
  destruct Hin as [->|Hin]; [apply Qle_refl|].
  rewrite Forall_forall in Hall. apply Hall. exact Hin.
Qed.

(** ** Evaluation *)

Lemma evaluate_slots (env : Env) (x : Individual) : slots (evaluate env x) = slots x.
Proof. reflexivity. Qed.

(** Re-evaluating an evaluated individual against the same snapshot
    changes nothing. *)
Lemma evaluate_idem (env : Env) (x : Individual) :
  evaluate env (evaluate env x) = evaluate env x.
Proof. reflexivity. Qed.

Lemma evaluate_fitness (env : Env) (x : Individual) :
  fitness (evaluate env x) = fst (calculateFitness x env)
  /\ conflicts (evaluate env x) = snd (calculateFitness x env)
  /\ 0 <= fitness (evaluate env x).
Proof.
  split; [reflexivity|]. split; [reflexivity|].
  unfold evaluate, calculateFitness. cbn [fitness]. apply Q.le_max_l.
Qed.

Lemma evaluate_and_sort_perm (env : Env) (population : Population) :
  Permutation (evaluate_and_sort env population) (map (evaluate env) population).
Proof. apply sort_desc_perm. Qed.

Lemma evaluate_and_sort_In (env : Env) (population : Population) (x : Individual) :
  In x (evaluate_and_sort env population)
  <-> exists y, In y population /\ x = evaluate env y.
Proof.
  split.
  - intros H. apply (Permutation_in _ (evaluate_and_sort_perm env population)) in H.
    apply in_map_iff in H. destruct H as [y [<- Hy]]. exists y. auto.
  - intros [y [Hy ->]].
    apply (Permutation_in _ (Permutation_sym (evaluate_and_sort_perm env population))).
    apply in_map. exact Hy.
Qed.

Lemma evaluate_and_sort_fixed (env : Env) (population : Population) (x : Individual) :
  In x (evaluate_and_sort env population) -> evaluate env x = x.
Proof.
  intros H. apply evaluate_and_sort_In in H. destruct H as [y [_ ->]].
  apply evaluate_idem.
Qed.

Lemma evaluate_and_sort_length (env : Env) (population : Population) :
  List.length (evaluate_and_sort env population) = List.length population.
Proof.
  rewrite (Permutation_length (evaluate_and_sort_perm env population)).
  apply length_map.
Qed.

Lemma evaluate_and_sort_best (env : Env) (population : Population) (x : Individual) :
  In x (evaluate_and_sort env population) ->
  fitness x <= best_fitness (evaluate_and_sort env population).
Proof.
  intros H. unfold evaluate_and_sort. apply sort_desc_best.
  apply (Permutation_in _ (evaluate_and_sort_perm env population)). exact H.
Qed.

Lemma evaluate_and_sort_inv (env : Env) (population : Population) :
  Forall (one_gene_per_course env) population ->
  Forall (one_gene_per_course env) (evaluate_and_sort env population).
Proof.
  intros H. rewrite Forall_forall in *. intros x Hx.
  apply evaluate_and_sort_In in Hx. destruct Hx as [y [Hy ->]].
  unfold one_gene_per_course. rewrite evaluate_slots. apply H. exact Hy.
Qed.

(** ** Selection and the offspring loop *)

Lemma pick_inv (population : Population) (g : Oracle) (k k' : nat) (x : Individual) :
  pick population g k = Ok (x, k') -> In x population.
Proof.
  unfold pick. intros H. apply bind_inv_ok in H. destruct H as [i [k1 [_ H]]].
  destruct (nth_error population i) as [y|] eqn:E; [|discriminate].
  inversion H; subst. apply (nth_error_In _ _ E).
Qed.

Lemma pick_ok (population : Population) (g : Oracle) (k : nat) :
  population <> [] -> exists x, pick population g k = Ok (x, S k).
Proof.
  intros Hne. unfold pick.
  destruct (random_index_lt (List.length population) g k) as [i [Hi Li]];
    [destruct population; [congruence | simpl; lia]|].
  rewrite (bind_ok _ _ _ _ _ _ Hi).
  destruct (nth_error population i) as [x|] eqn:E;
    [|apply nth_error_None in E; lia].
  exists x. reflexivity.
Qed.

Lemma tournamentSelection_inv (population : Population) (g : Oracle) (k k' : nat)
  (x : Individual) :
  tournamentSelection population g k = Ok (x, k') -> In x population.
Proof.
  unfold tournamentSelection. intros H.
  apply bind_inv_ok in H. destruct H as [c1 [k1 [H1 H]]].
  apply bind_inv_ok in H. destruct H as [c2 [k2 [H2 H]]].
  apply bind_inv_ok in H. destruct H as [c3 [k3 [H3 H]]].
  apply pick_inv in H1, H2, H3. inversion H; subst.
  destruct (Qgtb (fitness c2) (fitness c1));
    match goal with |- In (if ?b then _ else _) _ => destruct b end; assumption.
Qed.

Lemma tournamentSelection_ok (population : Population) (g : Oracle) (k : nat) :
  population <> [] ->
  exists x, tournamentSelection population g k = Ok (x, S (S (S k))).
Proof.
  intros Hne. unfold tournamentSelection.
  destruct (pick_ok population g k Hne) as [c1 H1].
  destruct (pick_ok population g (S k) Hne) as [c2 H2].
  destruct (pick_ok population g (S (S k)) Hne) as [c3 H3].
  rewrite (bind_ok _ _ _ _ _ _ H1), (bind_ok _ _ _ _ _ _ H2), (bind_ok _ _ _ _ _ _ H3).
  eexists. reflexivity.
Qed.

Lemma find_course_In (cs : list Course) (id : string) :
  In id (map course_id cs) -> find_course cs id <> None.
Proof.
  intros Hin Hnone. apply in_map_iff in Hin. destruct Hin as [c [Hid Hc]].
  unfold find_course in Hnone. apply (find_none _ _ Hnone) in Hc.
  simpl in Hc. rewrite Hid, String.eqb_refl in Hc. discriminate.
Qed.

(** Under the invariant every gene names a course of the snapshot. *)
Lemma inv_genes_resolve (env : Env) (x : Individual) (s : Slot) :
  one_gene_per_course env x -> In s (slots x) ->
  find_course (courses env) (courseId s) <> None.
Proof.
  intros Hinv Hs. apply find_course_In.
  apply (in_map courseId) in Hs. rewrite Hinv in Hs.
  apply in_map_iff in Hs. destruct Hs as [c [Hid Hc]].
  apply filter_In in Hc. rewrite <- Hid. apply in_map. apply Hc.
Qed.

Lemma mutate_slot_ok (env : Env) (slot : Slot) (g : Oracle) (k : nat) :
  rooms env <> [] ->
  find_course (courses env) (courseId slot) <> None ->
  exists slot' k', mutate_slot env slot g k = Ok (slot', k').
Proof.
  intros Hrs Hc. unfold mutate_slot, bind, Math_random.
  destruct (Qltb (random_value g k) (1 # 10)); [|eexists _, _; reflexivity].
  destruct (find_course (courses env) (courseId slot)) as [course|]; [|congruence].
  destruct (find_teacher (teachers env) (course_teacherId course)) as [teacher|];
    [|eexists _, _; reflexivity].
  destruct (generateRandomSlot_ok course teacher (rooms env) g (S k) Hrs) as [s' [H _]].
  eexists _, _. exact H.
Qed.

Lemma mutate_slots_ok (env : Env) (g : Oracle) :
  rooms env <> [] ->
  forall (ss : list Slot) (k : nat),
    (forall s, In s ss -> find_course (courses env) (courseId s) <> None) ->
    exists ss' k', mutate_slots env ss g k = Ok (ss', k').
Proof.
  intros Hrs. induction ss as [|s ss IH]; intros k Hc; simpl.
  - eexists _, _. reflexivity.
  - destruct (mutate_slot_ok env s g k Hrs) as [s' [k1 Hs]];
      [apply Hc; left; reflexivity|].
    destruct (IH k1) as [ss' [k2 Hss]]; [intros; apply Hc; right; assumption|].
    rewrite (bind_ok _ _ _ _ _ _ Hs), (bind_ok _ _ _ _ _ _ Hss).
    eexists _, _. reflexivity.
Qed.

Lemma mutate_ok (individual : Individual) (env : Env) (g : Oracle) (k : nat) :
  rooms env <> [] -> one_gene_per_course env individual ->
  exists mutated k', mutate individual env g k = Ok (mutated, k').
Proof.
  intros Hrs Hinv. unfold mutate.
  destruct (mutate_slots_ok env g Hrs (slots individual) k) as [ss [k' H]];
    [intros s Hs; apply (inv_genes_resolve env individual s Hinv Hs)|].
  rewrite (bind_ok _ _ _ _ _ _ H). eexists _, _. reflexivity.
Qed.

(** What a finished offspring loop has produced. *)
Lemma offspring_loop_inv (env : Env) (population : Population) (g : Oracle) :
  forall (fuel : nat) (newPopulation result : Population) (k k' : nat),
    offspring_loop fuel env population newPopulation g k = Ok (result, k') ->
    (exists offspring, result = newPopulation ++ offspring)
    /\ (Forall (one_gene_per_course env) population ->
        Forall (one_gene_per_course env) newPopulation ->
        Forall (one_gene_per_course env) result)
    /\ ((populationSize - List.length newPopulation <= fuel)%nat ->
        (List.length newPopulation <= populationSize)%nat ->
        List.length result = populationSize).
Proof.
  induction fuel as [|fuel IH]; intros newPopulation result k k' H; simpl in H.
  - inversion H; subst. split; [exists []; rewrite app_nil_r; reflexivity|].
    split; [auto|]. intros. lia.
  - destruct (List.length newPopulation <? populationSize)%nat eqn:E.
    + apply Nat.ltb_lt in E.
      apply bind_inv_ok in H. destruct H as [p1 [k1 [H1 H]]].
      apply bind_inv_ok in H. destruct H as [p2 [k2 [H2 H]]].
      apply bind_inv_ok in H. destruct H as [o [k3 [Ho H]]].
      apply bind_inv_ok in H. destruct H as [m [k4 [Hm H]]].
      apply IH in H. destruct H as [[offspring Hres] [Hinv Hlen]].
      split; [exists (m :: offspring); rewrite Hres, <- app_assoc; reflexivity|].
      split.
      * intros Hpop Hnew. apply Hinv; [exact Hpop|].
        apply Forall_app. split; [exact Hnew|]. constructor; [|constructor].
        apply tournamentSelection_inv in H1, H2.
        rewrite Forall_forall in Hpop.
        unfold one_gene_per_course.
        rewrite (mutate_courseIds _ _ _ _ _ _ Hm).
        apply (crossover_courseIds p1 p2 o g k2 k3); [apply Hpop | apply Hpop |]; assumption.
      * intros Hf Hl. apply Hlen; rewrite length_app; cbn [List.length]; lia.
    + apply Nat.ltb_ge in E. inversion H; subst.
      split; [exists []; rewrite app_nil_r; reflexivity|].
      split; [auto|]. intros. lia.
Qed.

(** With resolvable genes and at least one room the offspring loop runs
    to completion. *)
Lemma offspring_loop_ok (env : Env) (population : Population) (g : Oracle) :
  rooms env <> [] -> population <> [] ->
  Forall (one_gene_per_course env) population ->
  forall (fuel : nat) (newPopulation : Population) (k : nat),
    exists result k', offspring_loop fuel env population newPopulation g k = Ok (result, k').
Proof.
  intros Hrs Hne Hpop. induction fuel as [|fuel IH]; intros newPopulation k; simpl.
  - eexists _, _. reflexivity.
  - destruct (List.length newPopulation <? populationSize)%nat;
      [|eexists _, _; reflexivity].
    destruct (tournamentSelection_ok population g k Hne) as [p1 H1].
    destruct (tournamentSelection_ok population g (S (S (S k))) Hne) as [p2 H2].
    destruct (crossover_shape p1 p2 g (S (S (S (S (S (S k))))))) as [o [Ho _]].
    assert (Hoinv : one_gene_per_course env o).
    { rewrite Forall_forall in Hpop.
      apply (crossover_courseIds p1 p2 o g _ _ _
               (Hpop _ (tournamentSelection_inv _ _ _ _ _ H1))
               (Hpop _ (tournamentSelection_inv _ _ _ _ _ H2)) Ho). }
    destruct (mutate_ok o env g
                (S (S (S (S (S (S k)))))
                 + Nat.min (List.length (slots p1)) (List.length (slots p2)))%nat
                Hrs Hoinv) as [m [k4 Hm]].
    destruct (IH (newPopulation ++ [m]) k4) as [result [k' H]].
    rewrite (bind_ok _ _ _ _ _ _ H1), (bind_ok _ _ _ _ _ _ H2),
      (bind_ok _ _ _ _ _ _ Ho), (bind_ok _ _ _ _ _ _ Hm).
    eexists _, _. exact H.
Qed.

Lemma eliteCount_10 : eliteCount = 10%nat.
Proof. reflexivity. Qed.

(** ** One generation *)

Lemma firstn_In {A : Type} (n : nat) (l : list A) (x : A) :
  In x (firstn n l) -> In x l.
Proof.
  intros H. rewrite <- (firstn_skipn n l). apply in_or_app. left. exact H.
Qed.

Lemma elites_length (population : Population) :
  (List.length (firstn eliteCount population) <= populationSize)%nat.
Proof.
  rewrite length_firstn, eliteCount_10. unfold populationSize. lia.
Qed.

(** What one pass through the loop body has done. *)
Lemma generation_body_inv (this : Service) (env : Env) (population : Population)
  (g : Oracle) (k k' : nat) (step : Step) :
  generation_body this env population g k = Ok (step, k') ->
  evaluate_and_sort env population <> []
  /\ match step with
     | Break result =>
         result = evaluate_and_sort env population
         /\ Qle_bool (conflictThreshold this)
                     (best_fitness (evaluate_and_sort env population)) = true
     | Next newPopulation =>
         Qle_bool (conflictThreshold this)
                  (best_fitness (evaluate_and_sort env population)) = false
         /\ (exists offspring,
                newPopulation
                = firstn eliteCount (evaluate_and_sort env population) ++ offspring)
         /\ (Forall (one_gene_per_course env) population ->
             Forall (one_gene_per_course env) newPopulation)
         /\ List.length newPopulation = populationSize
     end.
Proof.
  unfold generation_body.
  destruct (evaluate_and_sort env population) as [|best rest] eqn:EP; [discriminate|].
  intros H. split; [discriminate|]. cbn [best_fitness].
  destruct (Qle_bool (conflictThreshold this) (fitness best)) eqn:Et.
  - inversion H; subst. split; reflexivity.
  - apply bind_inv_ok in H. destruct H as [newPop [k1 [Hnext H]]].
    inversion H; subst. unfold next_generation in Hnext.
    apply offspring_loop_inv in Hnext. destruct Hnext as [Hpre [Hinv Hlen]].
    split; [reflexivity|]. split; [exact Hpre|]. split.
    + intros Hpop.
      assert (HP : Forall (one_gene_per_course env) (best :: rest))
        by (rewrite <- EP; apply evaluate_and_sort_inv; exact Hpop).
      apply Hinv; [exact HP|].
      apply Forall_forall. intros x Hx.
      apply (proj1 (Forall_forall _ _) HP). apply (firstn_In _ _ _ Hx).
    + apply Hlen; [lia | apply elites_length].
Qed.

Lemma generation_body_ok (this : Service) (env : Env) (population : Population)
  (g : Oracle) (k : nat) :
  rooms env <> [] -> population <> [] ->
  Forall (one_gene_per_course env) population ->
  exists step k', generation_body this env population g k = Ok (step, k').
Proof.
  intros Hrs Hne Hpop. unfold generation_body.
  pose proof (evaluate_and_sort_length env population) as Hlen.
  pose proof (evaluate_and_sort_inv env population Hpop) as HP.
  destruct (evaluate_and_sort env population) as [|best rest];
    [destruct population; [congruence | discriminate]|].
  destruct (Qle_bool (conflictThreshold this) (fitness best));
    [eexists _, _; reflexivity|].
  unfold next_generation.
  destruct (offspring_loop_ok env (best :: rest) g Hrs ltac:(discriminate) HP
              populationSize (firstn eliteCount (best :: rest)) k) as [res [k' H]].
  rewrite (bind_ok _ _ _ _ _ _ H). eexists _, _. reflexivity.
Qed.

(** The fittest individual of a generation is carried into the next one,
    where it scores the same. *)
Lemma generation_best_kept (this : Service) (env : Env)
  (population newPopulation : Population) (g : Oracle) (k k' : nat) :
  generation_body this env population g k = Ok (Next newPopulation, k') ->
  best_fitness (evaluate_and_sort env population)
  <= best_fitness (evaluate_and_sort env newPopulation).
Proof.
  intros H. apply generation_body_inv in H.
  destruct H as [Hne [_ [[offspring Hnew] _]]].
  destruct (evaluate_and_sort env population) as [|best rest] eqn:EP; [congruence|].
  cbn [best_fitness].
  assert (Hfix : evaluate env best = best).
  { apply (evaluate_and_sort_fixed env population). rewrite EP. left. reflexivity. }
  apply evaluate_and_sort_best. apply evaluate_and_sort_In.
  exists best. split; [|symmetry; exact Hfix].
  rewrite Hnew, eliteCount_10. simpl. left. reflexivity.
Qed.

(** ** The run: successive generations *)

Lemma ga_history_head (this : Service) (env : Env) (g : Oracle) (n : nat)
  (population first : Population) (rest : list Population) (k k' : nat) :
  ga_history n this env population g k = Ok (first :: rest, k') ->
  first = evaluate_and_sort env population.
Proof.
  destruct n as [|n]; simpl; [discriminate|]. intros H.
  apply bind_inv_ok in H. destruct H as [step [k1 [Hstep H]]].
  destruct step as [p|newPop].
  - inversion H; subst. apply generation_body_inv in Hstep. apply Hstep.
  - apply bind_inv_ok in H. destruct H as [r [k2 [_ H]]]. inversion H. reflexivity.
Qed.

(** Two consecutive entries of the history are linked by one pass of the
    loop body that did not break. *)
Lemma ga_history_consecutive (this : Service) (env : Env) (g : Oracle) :
  forall (n : nat) (population : Population) (k k' : nat) (hist : list Population)
         (i : nat) (P P' : Population),
    ga_history n this env population g k = Ok (hist, k') ->
    nth_error hist i = Some P -> nth_error hist (S i) = Some P' ->
    exists pop newPop ka kb,
      P = evaluate_and_sort env pop /\ P' = evaluate_and_sort env newPop
      /\ generation_body this env pop g ka = Ok (Next newPop, kb).
Proof.
  induction n as [|n IH]; intros population k k' hist i P P' H Hi HSi; simpl in H.
  - inversion H; subst. destruct i; discriminate.
  - apply bind_inv_ok in H. destruct H as [step [k1 [Hstep H]]].
    destruct step as [p|newPop].
    + inversion H; subst. destruct i; discriminate.
    + apply bind_inv_ok in H. destruct H as [rest [k2 [Hrest H]]].
      inversion H; subst. destruct i as [|i].
      * simpl in Hi, HSi. inversion Hi; subst.
        destruct rest as [|first rest']; [discriminate|]. simpl in HSi.
        inversion HSi; subst.
        exists population, newPop, k, k1. split; [reflexivity|].
        split; [apply (ga_history_head _ _ _ _ _ _ _ _ _ Hrest) | exact Hstep].
      * simpl in Hi, HSi. apply (IH _ _ _ _ _ _ _ Hrest Hi HSi).
Qed.

(** C10: from one evaluated generation to the next the best fitness never
    decreases: the floor(50 x 0.2) = 10 fittest individuals open the next
    population unchanged, re-evaluating them against the same snapshot
    gives them back unchanged, and the first individual of each sorted
    generation is a fittest one. *)
Theorem C10_best_fitness_monotone :
  forall (this : Service) (env : Env) (g : Oracle) (n : nat) (population : Population)
         (k k' : nat) (hist : list Population) (i : nat) (P P' : Population),
    ga_history n this env population g k = Ok (hist, k') ->
    nth_error hist i = Some P -> nth_error hist (S i) = Some P' ->
    eliteCount = 10%nat
    /\ (exists offspring,
           P' = evaluate_and_sort env (firstn 10 P ++ offspring)
           /\ List.length (firstn 10 P ++ offspring) = 50%nat)
    /\ (forall e, In e (firstn 10 P) -> evaluate env e = e /\ In e P')
    /\ (forall x, In x P -> fitness x <= best_fitness P)
    /\ (forall x, In x P' -> fitness x <= best_fitness P')
    /\ best_fitness P <= best_fitness P'.
Proof.
  intros this env g n population k k' hist i P P' H Hi HSi.
  destruct (ga_history_consecutive this env g n population k k' hist i P P' H Hi HSi)
    as [pop [newPop [ka [kb [HP [HP' Hstep]]]]]].
  pose proof (generation_best_kept _ _ _ _ _ _ _ Hstep) as Hbest.
  pose proof (generation_body_inv _ _ _ _ _ _ _ Hstep) as [Hne [_ [[offspring Hnew] [_ Hlen]]]].
  rewrite eliteCount_10 in Hnew. subst P P'.
  split; [reflexivity|].
  split; [exists offspring; split; [rewrite Hnew; reflexivity | rewrite <- Hnew; exact Hlen]|].
  split.
  { intros e He.
    assert (Hfix : evaluate env e = e)
      by (apply (evaluate_and_sort_fixed env pop); apply (firstn_In _ _ _ He)).
    split; [exact Hfix|]. apply evaluate_and_sort_In. exists e.
    split; [rewrite Hnew; apply in_or_app; left; exact He | symmetry; exact Hfix]. }
  split; [intros x; apply evaluate_and_sort_best|].
  split; [intros x; apply evaluate_and_sort_best|].
  exact Hbest.
Qed.

(** ** The run as a whole *)

Lemma ga_history_sorted (this : Service) (env : Env) (g : Oracle) :
  forall (n : nat) (population : Population) (k k' : nat) (hist : list Population),
    ga_history n this env population g k = Ok (hist, k') ->
    forall P, In P hist -> exists pop, P = evaluate_and_sort env pop.
Proof.
  induction n as [|n IH]; intros population k k' hist H P HP; simpl in H.
  - inversion H; subst. destruct HP.
  - apply bind_inv_ok in H. destruct H as [step [k1 [Hstep H]]].
    destruct step as [p|newPop].
    + inversion H; subst. destruct HP as [<-|[]].
      exists population. apply generation_body_inv in Hstep. apply Hstep.
    + apply bind_inv_ok in H. destruct H as [rest [k2 [Hrest H]]].
      inversion H; subst. destruct HP as [<-|HP]; [exists population; reflexivity|].
      apply (IH _ _ _ _ Hrest _ HP).
Qed.

Lemma ga_history_length (this : Service) (env : Env) (g : Oracle) :
  forall (n : nat) (population : Population) (k k' : nat) (hist : list Population),
    ga_history n this env population g k = Ok (hist, k') ->
    (List.length hist <= n)%nat
    /\ (0 < n -> 0 < List.length hist)%nat
    /\ ((List.length hist < n)%nat ->
        Qle_bool (conflictThreshold this) (best_fitness (last hist [])) = true).
Proof.
  induction n as [|n IH]; intros population k k' hist H; simpl in H.
  - inversion H; subst. simpl. repeat split; lia.
  - apply bind_inv_ok in H. destruct H as [step [k1 [Hstep H]]].
    destruct step as [p|newPop].
    + inversion H; subst. apply generation_body_inv in Hstep.
      destruct Hstep as [_ [-> Hthr]]. simpl. repeat split; try lia. intros _. exact Hthr.
    + apply bind_inv_ok in H. destruct H as [rest [k2 [Hrest H]]].
      inversion H; subst. destruct (IH _ _ _ _ Hrest) as [H1 [H2 H3]].
      cbn [List.length]. repeat split; try lia.
      intros Hlt. destruct rest as [|first rest']; [simpl in *; lia|].
      change (last (evaluate_and_sort env population :: first :: rest') [])
        with (last (first :: rest') []).
      apply H3. lia.
Qed.

(** The population [ga_loop] returns starts with the first individual of
    the last evaluated generation. *)
Lemma ga_loop_final (this : Service) (env : Env) (g : Oracle) :
  forall (n : nat) (population final : Population) (k k1 k2 : nat)
         (hist : list Population),
    ga_loop n this env population g k = Ok (final, k1) ->
    ga_history n this env population g k = Ok (hist, k2) ->
    (0 < n)%nat ->
    k1 = k2 /\ hd_error final = hd_error (last hist []) /\ last hist [] <> [].
Proof.
  induction n as [|n IH]; intros population final k k1 k2 hist HL HH Hn; [lia|].
  simpl in HL, HH.
  apply bind_inv_ok in HL. destruct HL as [step [ka [Hstep HL]]].
  rewrite (bind_ok _ _ _ _ _ _ Hstep) in HH.
  pose proof (generation_body_inv _ _ _ _ _ _ _ Hstep) as [Hne Hs].
  destruct step as [p|newPop].
  - inversion HL; inversion HH; subst. destruct Hs as [-> _].
    simpl. auto.
  - apply bind_inv_ok in HH. destruct HH as [rest [kb [Hrest HH]]].
    inversion HH; subst. destruct Hs as [_ [[offspring Hnew] _]].
    destruct n as [|n].
    + simpl in HL, Hrest. inversion HL; inversion Hrest; subst.
      split; [reflexivity|]. simpl. split; [|exact Hne].
      destruct (evaluate_and_sort env population) as [|b r]; [congruence|].
      rewrite ?eliteCount_10. reflexivity.
    + destruct (IH _ _ _ _ _ _ HL Hrest ltac:(lia)) as [Hk [Hhd Hl]].
      pose proof (ga_history_length _ _ _ _ _ _ _ _ Hrest) as [_ [Hpos _]].
      destruct rest as [|first rest']; [simpl in Hpos; lia|].
      change (last (evaluate_and_sort env population :: first :: rest') [])
        with (last (first :: rest') []).
      auto.
Qed.

(** The run neither throws nor gets stuck when every gene resolves and
    there is a room. *)
Lemma ga_run_ok (this : Service) (env : Env) (g : Oracle) :
  rooms env <> [] ->
  forall (n : nat) (population : Population) (k : nat),
    population <> [] -> Forall (one_gene_per_course env) population ->
    exists final hist k1,
      ga_loop n this env population g k = Ok (final, k1)
      /\ ga_history n this env population g k = Ok (hist, k1)
      /\ Forall (one_gene_per_course env) final
      /\ Forall (Forall (one_gene_per_course env)) hist.
Proof.
  intros Hrs. induction n as [|n IH]; intros population k Hne Hinv; simpl.
  - exists population, [], k. repeat split; [exact Hinv | constructor].
  - destruct (generation_body_ok this env population g k Hrs Hne Hinv) as [step [k1 Hstep]].
    rewrite !(bind_ok _ _ _ _ _ _ Hstep).
    pose proof (generation_body_inv _ _ _ _ _ _ _ Hstep) as [_ Hs].
    pose proof (evaluate_and_sort_inv env population Hinv) as HP.
    destruct step as [p|newPop].
    + destruct Hs as [-> _]. eexists _, _, _. repeat split; [exact HP|].
      constructor; [exact HP | constructor].
    + destruct Hs as [_ [_ [Hnew Hlen]]].
      destruct (IH newPop k1) as [final [hist [k2 [HL [HH [Hf Hh]]]]]];
        [intros ->; discriminate | apply Hnew; exact Hinv|].
      exists final, (evaluate_and_sort env population :: hist), k2.
      split; [exact HL|]. split; [rewrite (bind_ok _ _ _ _ _ _ HH); reflexivity|].
      split; [exact Hf|]. constructor; assumption.
Qed.

(** Best fitness along the history is non-decreasing. *)
Lemma ga_history_monotone (this : Service) (env : Env) (g : Oracle) (n : nat)
  (population : Population) (k k' : nat) (hist : list Population) :
  ga_history n this env population g k = Ok (hist, k') ->
  forall (d i : nat) (P P' : Population),
    nth_error hist i = Some P -> nth_error hist (i + d) = Some P' ->
    best_fitness P <= best_fitness P'.
Proof.
  intros H. induction d as [|d IH]; intros i P P' Hi Hj.
  - rewrite Nat.add_0_r in Hj. rewrite Hi in Hj. inversion Hj. apply Qle_refl.
  - destruct (nth_error hist (i + d)) as [Pm|] eqn:Em.
    + apply Qle_trans with (best_fitness Pm); [apply (IH i P Pm Hi Em)|].
      replace (i + S d)%nat with (S (i + d)) in Hj by lia.
      destruct (ga_history_consecutive this env g n population k k' hist (i + d) Pm P'
                  H Em Hj) as [pop [newPop [ka [kb [-> [-> Hstep]]]]]].
      apply (generation_best_kept _ _ _ _ _ _ _ Hstep).
    + apply nth_error_None in Em. apply nth_error_lt in Hj. lia.
Qed.

Lemma nth_error_last {A : Type} (l : list A) (d : A) :
  l <> [] -> nth_error l (List.length l - 1) = Some (last l d).
Proof.
  induction l as [|x l IH]; intros Hne; [congruence|].
  destruct l as [|y l]; [reflexivity|].
  change (last (x :: y :: l) d) with (last (y :: l) d).
  rewrite <- IH by discriminate. simpl. rewrite Nat.sub_0_r. reflexivity.
Qed.

(** Nobody evaluated during the run beats the first individual of the
    last evaluated generation. *)
Lemma ga_history_best (this : Service) (env : Env) (g : Oracle) (n : nat)
  (population : Population) (k k' : nat) (hist : list Population) :
  ga_history n this env population g k = Ok (hist, k') ->
  forall P x, In P hist -> In x P -> fitness x <= best_fitness (last hist []).
Proof.
  intros H P x HP Hx.
  destruct (ga_history_sorted _ _ _ _ _ _ _ _ H P HP) as [pop ->].
  apply Qle_trans with (best_fitness (evaluate_and_sort env pop));
    [apply evaluate_and_sort_best; exact Hx|].
  destruct (In_nth_error _ _ HP) as [i Hi].
  assert (Hne : hist <> []) by (intros ->; destruct HP).
  pose proof (nth_error_last hist [] Hne) as Hlast.
  pose proof (nth_error_lt _ _ _ Hi) as Hlt.
  apply (ga_history_monotone _ _ _ _ _ _ _ _ H (List.length hist - 1 - i) i _ _ Hi).
  replace (i + (List.length hist - 1 - i))%nat with (List.length hist - 1)%nat by lia.
  exact Hlast.
Qed.

(** The driver on a snapshot with at least one room: the run, its
    history and the individual it returns. *)
Lemma geneticAlgorithm_run :
  forall (this : Service) (env : Env) (semester : Z) (academicYear : string)
         (g : Oracle) (k : nat),
    rooms env <> [] ->
    exists population k0 hist k1 best,
      initializePopulation populationSize env g k = Ok (population, k0)
      /\ ga_history generations this env population g k0 = Ok (hist, k1)
      /\ geneticAlgorithm this env semester academicYear g k
         = Ok (formatTimetable best env semester academicYear, k1)
      /\ generations = 100%nat
      /\ (1 <= List.length hist <= 100)%nat
      /\ hd_error (last hist []) = Some best
      /\ (forall P x, In P hist -> In x P -> fitness x <= fitness best)
      /\ (forall i P, nth_error hist i = Some P ->
            Qle_bool (conflictThreshold this) (best_fitness P) = true ->
            S i = List.length hist /\ hd_error P = Some best)
      /\ ((List.length hist < 100)%nat ->
          Qle_bool (conflictThreshold this) (fitness best) = true)
      /\ tt_fitness (formatTimetable best env semester academicYear)
         = fst (calculateFitness best env)
      /\ tt_conflicts (formatTimetable best env semester academicYear)
         = snd (calculateFitness best env)
      /\ (forall a b, conflictThreshold (constructor a NaN b) = 8 # 10).
Proof.
  intros this env semester academicYear g k Hrs.
  destruct (initializePopulation_ok populationSize env g k Hrs) as [population [k0 Hinit]].
  destruct (initializePopulation_inv _ _ _ _ _ _ Hinit) as [Hinv Hlen].
  assert (Hne : population <> []) by (intros ->; discriminate).
  destruct (ga_run_ok this env g Hrs generations population k0 Hne Hinv)
    as [final [hist [k1 [HL [HH _]]]]].
  destruct (ga_loop_final _ _ _ _ _ _ _ _ _ _ HL HH ltac:(unfold generations; lia))
    as [_ [Hhd Hlast]].
  destruct (ga_history_length _ _ _ _ _ _ _ _ HH) as [Hle [Hpos Hstop]].
  destruct (last hist []) as [|best rest] eqn:Elast; [congruence|].
  destruct final as [|best' final']; [discriminate|].
  simpl in Hhd. inversion Hhd; subst best'.
  assert (Hhist : hist <> []) by (intros ->; simpl in Hpos; unfold generations in Hpos; lia).
  assert (Hin : In (best :: rest) hist).
  { rewrite <- Elast. apply (nth_error_In _ _ (nth_error_last hist [] Hhist)). }
  assert (Hfix : evaluate env best = best).
  { destruct (ga_history_sorted _ _ _ _ _ _ _ _ HH _ Hin) as [pop Hpop].
    apply (evaluate_and_sort_fixed env pop). rewrite <- Hpop. left. reflexivity. }
  exists population, k0, hist, k1, best.
  split; [exact Hinit|]. split; [exact HH|].
  split.
  { unfold geneticAlgorithm.
    rewrite (bind_ok _ _ _ _ _ _ Hinit), (bind_ok _ _ _ _ _ _ HL). reflexivity. }
  split; [reflexivity|].
  split; [unfold generations in *; lia|].
  split; [rewrite Elast; reflexivity|].
  split.
  { intros P x HP Hx.
    pose proof (ga_history_best _ _ _ _ _ _ _ _ HH P x HP Hx) as Hb.
    rewrite Elast in Hb. exact Hb. }
  split.
  { intros i P Hi Hthr.
    assert (HS : S i = List.length hist).
    { destruct (nth_error hist (S i)) as [P'|] eqn:ES.
      - destruct (ga_history_consecutive _ _ _ _ _ _ _ _ _ _ _ HH Hi ES)
          as [pop [newPop [ka [kb [-> [_ Hstep]]]]]].
        apply generation_body_inv in Hstep. destruct Hstep as [_ [Hf _]]. congruence.
      - apply nth_error_None in ES. apply nth_error_lt in Hi. lia. }
    split; [exact HS|].
    pose proof (nth_error_last hist [] Hhist) as Hl.
    replace (List.length hist - 1)%nat with i in Hl by lia.
    rewrite Hi in Hl. inversion Hl. rewrite Elast. reflexivity. }
  split; [intros Hlt; apply Hstop; unfold generations; exact Hlt|].
  split.
  { cbn [formatTimetable tt_fitness]. rewrite <- Hfix at 1. reflexivity. }
  split.
  { cbn [formatTimetable tt_conflicts]. rewrite <- Hfix at 1. reflexivity. }
  intros a b. reflexivity.
Qed.

(** C4: with at least one room the driver returns, after at least one and
    at most 100 evaluated generations, the formatted first individual of
    the last evaluated generation, with the conflicts recorded for it; a
    generation whose first individual reaches the threshold (0.8 unless
    configured) is the last one and its first individual is returned; a
    run that stops before 100 generations has reached the threshold; in
    both cases nobody evaluated during the run is fitter than the
    individual returned. *)
Theorem C4_search_driver :
  forall (this : Service) (env : Env) (semester : Z) (academicYear : string)
         (g : Oracle) (k : nat),
    rooms env <> [] ->
    exists population k0 hist k1 best,
      initializePopulation populationSize env g k = Ok (population, k0)
      /\ ga_history generations this env population g k0 = Ok (hist, k1)
      /\ geneticAlgorithm this env semester academicYear g k
         = Ok (formatTimetable best env semester academicYear, k1)
      /\ generations = 100%nat
      /\ (1 <= List.length hist <= 100)%nat
      /\ hd_error (last hist []) = Some best
      /\ (forall P x, In P hist -> In x P -> fitness x <= fitness best)
      /\ (forall i P, nth_error hist i = Some P ->
            Qle_bool (conflictThreshold this) (best_fitness P) = true ->
            S i = List.length hist /\ hd_error P = Some best)
      /\ ((List.length hist < 100)%nat ->
          Qle_bool (conflictThreshold this) (fitness best) = true)
      /\ tt_fitness (formatTimetable best env semester academicYear)
         = fst (calculateFitness best env)
      /\ tt_conflicts (formatTimetable best env semester academicYear)
         = snd (calculateFitness best env)
      /\ (forall a b, conflictThreshold (constructor a NaN b) = 8 # 10).
Proof. exact geneticAlgorithm_run. Qed.

(** ** The invariant along a run *)

Lemma ga_run_inv (this : Service) (env : Env) (g : Oracle) :
  forall (n : nat) (population : Population) (k : nat),
    Forall (one_gene_per_course env) population ->
    (forall hist k1, ga_history n this env population g k = Ok (hist, k1) ->
                     Forall (Forall (one_gene_per_course env)) hist)
    /\ (forall final k2, ga_loop n this env population g k = Ok (final, k2) ->
                         Forall (one_gene_per_course env) final).
Proof.
  induction n as [|n IH]; intros population k Hinv; simpl.
  - split; intros x k1 H; inversion H; subst; [constructor | exact Hinv].
  - pose proof (evaluate_and_sort_inv env population Hinv) as HP.
    split.
    + intros hist k1 H.
      apply bind_inv_ok in H. destruct H as [step [ka [Hstep H]]].
      pose proof (generation_body_inv _ _ _ _ _ _ _ Hstep) as [_ Hs].
      destruct step as [p|newPop].
      * inversion H; subst. destruct Hs as [-> _]. constructor; [exact HP | constructor].
      * apply bind_inv_ok in H. destruct H as [rest [kb [Hrest H]]].
        inversion H; subst. destruct Hs as [_ [_ [Hnew _]]].
        constructor; [exact HP|].
        apply (proj1 (IH newPop ka (Hnew Hinv)) _ _ Hrest).
    + intros final k2 H.
      apply bind_inv_ok in H. destruct H as [step [ka [Hstep H]]].
      pose proof (generation_body_inv _ _ _ _ _ _ _ Hstep) as [_ Hs].
      destruct step as [p|newPop].
      * inversion H; subst. destruct Hs as [-> _]. exact HP.
      * destruct Hs as [_ [_ [Hnew _]]].
        apply (proj2 (IH newPop ka (Hnew Hinv)) _ _ H).
Qed.

(** Distinct course ids stay distinct among the kept courses. *)
Lemma kept_ids_distinct (keep : Course -> bool) (cs : list Course) :
  NoDup (map course_id cs) -> NoDup (map course_id (filter keep cs)).
Proof.
  induction cs as [|c cs IH]; simpl; intros Hnd; [constructor|].
  inversion Hnd as [|? ? Hfresh Hrest]; subst.
  destruct (keep c); [|exact (IH Hrest)].
  simpl. constructor; [|exact (IH Hrest)].
  intros Hin. apply Hfresh. apply in_map_iff in Hin. destruct Hin as [c' [Hid Hc']].
  rewrite <- Hid. apply in_map. apply filter_In in Hc'. apply Hc'.
Qed.

(** With distinct ids a course is determined by its id. *)
Lemma course_by_id (cs : list Course) (c c' : Course) :
  NoDup (map course_id cs) -> In c cs -> In c' cs -> course_id c' = course_id c -> c' = c.
Proof.
  induction cs as [|x cs IH]; simpl; intros Hnd Hc Hc' Hid; [destruct Hc|].
  inversion Hnd as [|? ? Hfresh Hrest]; subst.
  destruct Hc as [->|Hc], Hc' as [->|Hc']; [reflexivity | | |auto].
  - exfalso. apply Hfresh. rewrite <- Hid. apply in_map. exact Hc'.
  - exfalso. apply Hfresh. rewrite Hid. apply in_map. exact Hc.
Qed.

(** With distinct course ids the invariant counts genes per course. *)
Lemma one_gene_count (env : Env) (individual : Individual) (c : Course) :
  one_gene_per_course env individual ->
  NoDup (map course_id (courses env)) -> In c (courses env) ->
  count_occ string_dec (map courseId (slots individual)) (course_id c)
  = if resolvable env c then 1%nat else 0%nat.
Proof.
  intros Hinv Hnd Hc. rewrite Hinv. unfold candidate_courses.
  destruct (resolvable env c) eqn:E.
  - apply NoDup_count_occ'; [apply kept_ids_distinct; exact Hnd|].
    apply in_map. apply filter_In. auto.
  - apply count_occ_not_In. intros Hin.
    apply in_map_iff in Hin. destruct Hin as [c' [Hid Hc']].
    apply filter_In in Hc'. destruct Hc' as [Hc' Hres].
    assert (c' = c) by (apply (course_by_id (courses env)); assumption).
    subst c'. congruence.
Qed.

(** C3: each individual holds one gene per course of the candidate set,
    in course order, a course whose teacher is not in the supplied teacher
    set being left out.  Initialisation builds every individual so,
    crossover of two such parents gives such a child, a mutated individual
    keeps the courseId of every gene, and so every individual of every
    generation of a run has the property; when course ids are distinct
    this is one gene for each kept course and none for a dropped one. *)
Theorem C3_one_gene_per_course :
  forall (this : Service) (env : Env) (g : Oracle),
    (forall size k population k',
        initializePopulation size env g k = Ok (population, k') ->
        List.length population = size
        /\ Forall (one_gene_per_course env) population)
    /\ (forall parent1 parent2 k child k',
           one_gene_per_course env parent1 -> one_gene_per_course env parent2 ->
           crossover parent1 parent2 g k = Ok (child, k') ->
           one_gene_per_course env child)
    /\ (forall individual k mutated k',
           mutate individual env g k = Ok (mutated, k') ->
           map courseId (slots mutated) = map courseId (slots individual)
           /\ (one_gene_per_course env individual -> one_gene_per_course env mutated))
    /\ (forall n k population k0,
           initializePopulation populationSize env g k = Ok (population, k0) ->
           (forall hist k1,
               ga_history n this env population g k0 = Ok (hist, k1) ->
               Forall (Forall (one_gene_per_course env)) hist)
           /\ (forall final k2,
                  ga_loop n this env population g k0 = Ok (final, k2) ->
                  Forall (one_gene_per_course env) final))
    /\ (forall individual c,
           one_gene_per_course env individual ->
           NoDup (map course_id (courses env)) -> In c (courses env) ->
           count_occ string_dec (map courseId (slots individual)) (course_id c)
           = if resolvable env c then 1%nat else 0%nat)
    /\ (forall k, rooms env <> [] ->
           exists population k0 hist k1,
             initializePopulation populationSize env g k = Ok (population, k0)
             /\ ga_history generations this env population g k0 = Ok (hist, k1)
             /\ hist <> []
             /\ Forall (Forall (one_gene_per_course env)) hist).
Proof.
  intros this env g.
  split.
  { intros size k population k' H. apply initializePopulation_inv in H. tauto. }
  split.
  { intros parent1 parent2 k child k' H1 H2 H.
    apply (crossover_courseIds parent1 parent2 child g k k' _ H1 H2 H). }
  split.
  { intros individual k mutated k' H. apply mutate_courseIds in H.
    split; [exact H|]. unfold one_gene_per_course. rewrite H. auto. }
  split.
  { intros n k population k0 H. apply initializePopulation_inv in H.
    apply ga_run_inv. apply H. }
  split; [intros individual c; apply one_gene_count|].
  intros k Hrs.
  destruct (initializePopulation_ok populationSize env g k Hrs) as [population [k0 Hinit]].
  destruct (initializePopulation_inv _ _ _ _ _ _ Hinit) as [Hinv Hlen].
  assert (Hne : population <> []) by (intros ->; discriminate).
  destruct (ga_run_ok this env g Hrs generations population k0 Hne Hinv)
    as [final [hist [k1 [_ [HH [_ Hh]]]]]].
  exists population, k0, hist, k1. repeat split; try assumption.
  destruct (ga_history_length _ _ _ _ _ _ _ _ HH) as [_ [Hpos _]].
  intros ->. simpl in Hpos. unfold generations in Hpos. lia.
Qed.

(** ** Input validation *)

Lemma validateInputs_ok (ss : list Student) (ts : list Teacher) (cs : list Course)
  (rs : list Room) (g : Oracle) (k : nat) :
  ss <> [] -> ts <> [] -> cs <> [] -> rs <> [] ->
  validateInputs ss ts cs rs g k = Ok (tt, k).
Proof.
  intros H1 H2 H3 H4. unfold validateInputs.
  destruct ss; [congruence|]. destruct ts; [congruence|].
  destruct cs; [congruence|]. destruct rs; [congruence|]. reflexivity.
Qed.

(** The first empty collection, in the order students, teachers, courses,
    rooms, names the error. *)
Lemma validateInputs_empty (ss : list Student) (ts : list Teacher) (cs : list Course)
  (rs : list Room) (g : Oracle) (k : nat) :
  ss = [] \/ ts = [] \/ cs = [] \/ rs = [] ->
  exists msg,
    validateInputs ss ts cs rs g k = Throw (Error msg)
    /\ ((msg = "No students found" /\ ss = [])
        \/ (msg = "No teachers found" /\ ts = [])
        \/ (msg = "No courses found" /\ cs = [])
        \/ (msg = "No rooms found" /\ rs = [])).
Proof.
  intros H. unfold validateInputs.
  destruct ss as [|s ss]; [eexists; split; [reflexivity | auto]|].
  destruct ts as [|t ts]; [eexists; split; [reflexivity | auto]|].
  destruct cs as [|c cs]; [eexists; split; [reflexivity | auto 6]|].
  destruct rs as [|r rs]; [eexists; split; [reflexivity | auto 6]|].
  destruct H as [H | [H | [H | H]]]; discriminate.
Qed.

(** C7: when one of students, teachers, courses, rooms is empty the
    validator throws an error naming an empty category, nothing of the
    search runs (the outcome does not depend on the random source), no
    timetable is returned and the one log record has status FAILED and no
    output; with the four collections non-empty an empty existing
    timetable is accepted and the run succeeds. *)
Theorem C7_empty_input :
  forall (this : Service) (env : Env) (semester : Z) (academicYear : string)
         (g : Oracle) (k : nat),
    students env = [] \/ teachers env = [] \/ courses env = [] \/ rooms env = [] ->
    exists msg,
      validateInputs (students env) (teachers env) (courses env) (rooms env) g k
      = Throw (Error msg)
      /\ ((msg = "No students found" /\ students env = [])
          \/ (msg = "No teachers found" /\ teachers env = [])
          \/ (msg = "No courses found" /\ courses env = [])
          \/ (msg = "No rooms found" /\ rooms env = []))
      /\ (forall g' k',
             generateTimetable this env semester academicYear g' k'
             = (Throw (Error msg), [logAIOperation "GENERATE" None (Some msg)]))
      /\ status (logAIOperation "GENERATE" None (Some msg)) = "FAILED"
      /\ outputData (logAIOperation "GENERATE" None (Some msg)) = None
      /\ (forall env',
             students env' <> [] -> teachers env' <> [] ->
             courses env' <> [] -> rooms env' <> [] ->
             existingTimetables env' = [] ->
             exists response,
               generateTimetable this env' semester academicYear g k
               = (Ok response,
                  [logAIOperation "GENERATE" (Some (timetable response)) None])
               /\ success response = true
               /\ status (logAIOperation "GENERATE" (Some (timetable response)) None)
                  = "SUCCESS").
Proof.
  intros this env semester academicYear g k Hempty.
  destruct (validateInputs_empty _ _ _ _ g k Hempty) as [msg [Hv Hmsg]].
  exists msg. split; [exact Hv|]. split; [exact Hmsg|].
  split.
  { intros g' k'. destruct (validateInputs_empty _ _ _ _ g' k' Hempty) as [msg' [Hv' _]].
    assert (msg' = msg).
    { unfold validateInputs in Hv, Hv'.
      destruct (students env); [inversion Hv; inversion Hv'; congruence|].
      destruct (teachers env); [inversion Hv; inversion Hv'; congruence|].
      destruct (courses env); [inversion Hv; inversion Hv'; congruence|].
      destruct (rooms env); [inversion Hv; inversion Hv'; congruence|].
      discriminate. }
    subst msg'. unfold generateTimetable. rewrite (bind_throw _ _ _ _ _ Hv'). reflexivity. }
  split.
  { destruct Hmsg as [[-> _] | [[-> _] | [[-> _] | [-> _]]]]; reflexivity. }
  split; [reflexivity|].
  intros env' H1 H2 H3 H4 _.
  destruct (geneticAlgorithm_run this env' semester academicYear g k H4)
    as [population [k0 [hist [k1 [best [_ [_ [Hga _]]]]]]]].
  exists {| success := true;
            timetable := formatTimetable best env' semester academicYear;
            response_conflicts :=
              tt_conflicts (formatTimetable best env' semester academicYear);
            response_suggestions :=
              tt_suggestions (formatTimetable best env' semester academicYear) |}.
  unfold generateTimetable.
  rewrite (bind_ok _ _ _ _ _ _ (validateInputs_ok _ _ _ _ g k H1 H2 H3 H4)), Hga.
  split; [reflexivity|]. split; reflexivity.
Qed.

(** ** Suggestions *)

Lemma filter_head_find {A : Type} (p : A -> bool) (l : list A) :
  match filter p l with x :: _ => Some x | [] => None end = find p l.
Proof.
  induction l as [|a l IH]; simpl; [reflexivity|].
  destruct (p a); [reflexivity | exact IH].
Qed.

Lemma room_suggestion_spec (rs : list Room) (c : Conflict) :
  room_suggestion rs c = room_change_for rs c.
Proof.
  destruct c; try reflexivity. simpl. unfold first_suitable_room.
  rewrite <- filter_head_find. destruct (filter (suitable course) rs); reflexivity.
Qed.

Lemma alternatives_row (excluded : Z -> string * string -> bool) (day : Z)
  (ts : list (string * string)) :
  flat_map (fun timeSlot =>
              if excluded day timeSlot then []
              else [{| alt_dayOfWeek := day;
                       alt_startTime := fst timeSlot;
                       alt_endTime := snd timeSlot |}]) ts
  = map alternative_of
        (filter (fun dt => negb (excluded (fst dt) (snd dt))) (map (pair day) ts)).
Proof.
  induction ts as [|t ts IH]; simpl; [reflexivity|].
  rewrite IH. destruct (excluded day t); reflexivity.
Qed.

Lemma alternatives_grid (excluded : Z -> string * string -> bool) (ds : list Z)
  (ts : list (string * string)) :
  flat_map (fun day =>
              flat_map (fun timeSlot =>
                          if excluded day timeSlot then []
                          else [{| alt_dayOfWeek := day;
                                   alt_startTime := fst timeSlot;
                                   alt_endTime := snd timeSlot |}]) ts) ds
  = map alternative_of
        (filter (fun dt => negb (excluded (fst dt) (snd dt))) (list_prod ds ts)).
Proof.
  induction ds as [|d ds IH]; simpl; [reflexivity|].
  rewrite IH, alternatives_row, filter_app, map_app. reflexivity.
Qed.

Lemma findAlternativeTimes_spec (slot : Slot) (allSlots : list Slot) :
  findAlternativeTimes slot allSlots = first_three_free (hasConflict slot allSlots).
Proof.
  unfold findAlternativeTimes, first_three_free, catalog.
  rewrite alternatives_grid. reflexivity.
Qed.

Lemma time_suggestion_spec (allSlots : list Slot) (c : Conflict) :
  time_suggestion allSlots c = time_change_for allSlots c.
Proof.
  destruct c; try reflexivity; simpl; rewrite findAlternativeTimes_spec; reflexivity.
Qed.

Lemma hasConflict_iff (slot : Slot) (allSlots : list Slot) (day : Z)
  (timeSlot : string * string) :
  hasConflict slot allSlots day timeSlot = true
  <-> exists s, In s allSlots /\ teacherId s = teacherId slot /\ dayOfWeek s = day
                /\ timeOverlap (startTime s) (endTime s) (fst timeSlot) (snd timeSlot)
                   = true.
Proof.
  unfold hasConflict. rewrite existsb_exists. split.
  - intros [s [Hs H]]. rewrite !andb_true_iff, String.eqb_eq, Z.eqb_eq in H.
    exists s. tauto.
  - intros [s [Hs [H1 [H2 H3]]]]. exists s. split; [exact Hs|].
    rewrite !andb_true_iff, String.eqb_eq, Z.eqb_eq. tauto.
Qed.

Lemma suitable_iff (course : Course) (r : Room) :
  suitable course r = true
  <-> exists m, maxStudents course = Some m /\ (m <= capacity r)%Z
                /\ roomType r = "CLASSROOM".
Proof.
  unfold suitable. destruct (maxStudents course) as [m|].
  - rewrite andb_true_iff, Z.leb_le, String.eqb_eq. split.
    + intros [H1 H2]. exists m. auto.
    + intros [m' [Hm [H1 H2]]]. inversion Hm; subst. auto.
  - split; [discriminate | intros [m [Hm _]]; discriminate].
Qed.

Lemma find_first {A : Type} (p : A -> bool) (l : list A) (x : A) :
  find p l = Some x
  <-> exists pre post, l = pre ++ x :: post /\ p x = true
                       /\ forall y, In y pre -> p y = false.
Proof.
  induction l as [|a l IH]; simpl.
  - split; [discriminate|]. intros [pre [post [H _]]]. destruct pre; discriminate.
  - destruct (p a) eqn:E.
    + split.
      * intros H. inversion H; subst. exists [], l. simpl. repeat split; tauto.
      * intros [pre [post [Hl [Hx Hpre]]]]. destruct pre as [|b pre].
        -- simpl in Hl. inversion Hl. reflexivity.
        -- simpl in Hl. inversion Hl; subst.
           rewrite (Hpre b (or_introl eq_refl)) in E. discriminate.
    + rewrite IH. split.
      * intros [pre [post [Hl [Hx Hpre]]]]. exists (a :: pre), post.
        subst l. repeat split; [exact Hx|]. intros y [<-|Hy]; auto.
      * intros [pre [post [Hl [Hx Hpre]]]]. destruct pre as [|b pre].
        -- simpl in Hl. inversion Hl; subst. congruence.
        -- simpl in Hl. inversion Hl; subst. exists pre, post.
           repeat split; [exact Hx|]. intros y Hy. apply Hpre. right. exact Hy.
Qed.

(** C8, as the code has it: each CAPACITY_EXCEEDED record yields a
    ROOM_CHANGE to the first room in list order that is a CLASSROOM with
    capacity at least the course's maxStudents, and nothing when there is
    none; each TEACHER_CONFLICT or ROOM_CONFLICT record yields a
    TIME_CHANGE for the first gene of the pair with at most three
    alternatives, the first catalog entries in day-major order that
    overlap no gene of that gene's teacher in the individual, the gene
    itself included, so that the gene's present position is never
    proposed. *)
Theorem C8_suggestions :
  forall (individual : Individual) (env : Env),
    generateSuggestions individual env
    = flat_map (room_change_for (rooms env)) (conflicts individual)
      ++ flat_map (time_change_for (slots individual)) (conflicts individual)
    /\ (forall course r,
           first_suitable_room course (rooms env) = Some r
           <-> exists pre post,
                 rooms env = pre ++ r :: post
                 /\ suitable course r = true
                 /\ forall r', In r' pre -> suitable course r' = false)
    /\ (forall course,
           first_suitable_room course (rooms env) = None
           <-> forall r, In r (rooms env) -> suitable course r = false)
    /\ (forall course r,
           suitable course r = true
           <-> exists m, maxStudents course = Some m /\ (m <= capacity r)%Z
                         /\ roomType r = "CLASSROOM")
    /\ (forall slot allSlots,
           findAlternativeTimes slot allSlots
           = first_three_free (hasConflict slot allSlots)
           /\ (List.length (findAlternativeTimes slot allSlots) <= 3)%nat)
    /\ (forall slot allSlots day timeSlot,
           hasConflict slot allSlots day timeSlot = true
           <-> exists s, In s allSlots /\ teacherId s = teacherId slot
                         /\ dayOfWeek s = day
                         /\ timeOverlap (startTime s) (endTime s)
                                        (fst timeSlot) (snd timeSlot) = true)
    /\ (forall slot allSlots,
           In slot allSlots ->
           timeOverlap (startTime slot) (endTime slot) (startTime slot) (endTime slot)
           = true ->
           hasConflict slot allSlots (dayOfWeek slot) (startTime slot, endTime slot)
           = true).
Proof.
  intros individual env.
  split.
  { unfold generateSuggestions. f_equal; apply flat_map_ext; intros c;
      [apply room_suggestion_spec | apply time_suggestion_spec]. }
  split; [intros course r; apply find_first|].
  split.
  { intros course. unfold first_suitable_room. split.
    - intros H r Hr. apply (find_none _ _ H r Hr).
    - intros H. destruct (find (suitable course) (rooms env)) as [r|] eqn:E;
        [|reflexivity].
      apply find_some in E. destruct E as [Hr Hs]. rewrite (H r Hr) in Hs. discriminate. }
  split; [apply suitable_iff|].
  split.
  { intros slot allSlots. split; [apply findAlternativeTimes_spec|].
    unfold findAlternativeTimes. rewrite length_firstn. lia. }
  split; [apply hasConflict_iff|].
  intros slot allSlots Hin Hov. apply hasConflict_iff.
  exists slot. auto.
Qed.

(* ================================================================== *)
(** * Instances and counterexamples *)
(* ================================================================== *)

(** A 5-gene parent and a 3-gene parent. *)
Lemma C5_crossover_witness :
  exists child,
    crossover {| slots := [gene_A; gene_B; gene_A; gene_B; gene_A];
                 conflicts := []; fitness := 0 |}
              {| slots := [gene_B; gene_A; gene_B]; conflicts := []; fitness := 0 |}
              oracle_walk 0%nat
    = Ok (child, 3%nat)
    /\ List.length (slots child) = 5%nat.
Proof.
  destruct (C5_crossover
              {| slots := [gene_A; gene_B; gene_A; gene_B; gene_A];
                 conflicts := []; fitness := 0 |}
              {| slots := [gene_B; gene_A; gene_B]; conflicts := []; fitness := 0 |}
              oracle_walk 0%nat)
    as [child (Hrun & _ & _ & _ & H53)].
  exists child. split; [exact Hrun | apply H53; reflexivity].
Defined.

Lemma C3_one_gene_per_course_witness :
  exists population k0 hist k1,
    initializePopulation populationSize missing_teacher_env oracle_walk 0%nat
    = Ok (population, k0)
    /\ ga_history generations (constructor NaN NaN NaN) missing_teacher_env
                  population oracle_walk k0 = Ok (hist, k1)
    /\ hist <> []
    /\ Forall (Forall (one_gene_per_course missing_teacher_env)) hist.
Proof.
  destruct (C3_one_gene_per_course (constructor NaN NaN NaN) missing_teacher_env oracle_walk)
    as (_ & _ & _ & _ & _ & Hrun).
  apply Hrun. discriminate.
Defined.

Lemma C4_search_driver_witness :
  exists best k1,
    geneticAlgorithm (constructor NaN NaN NaN) room_clash_env 3 "2024-25" oracle_walk 0%nat
    = Ok (formatTimetable best room_clash_env 3 "2024-25", k1).
Proof.
  destruct (C4_search_driver (constructor NaN NaN NaN) room_clash_env 3 "2024-25"
              oracle_walk 0%nat)
    as (population & k0 & hist & k1 & best & _ & _ & Hga & _); [discriminate|].
  exists best, k1. exact Hga.
Defined.

Lemma C7_empty_input_witness :
  exists msg,
    generateTimetable (constructor NaN NaN NaN)
      {| students := []; teachers := teachers room_clash_env;
         courses := courses room_clash_env; rooms := rooms room_clash_env;
         existingTimetables := [] |}
      3 "2024-25" oracle_walk 0%nat
    = (Throw (Error msg), [logAIOperation "GENERATE" None (Some msg)])
    /\ status (logAIOperation "GENERATE" None (Some msg)) = "FAILED".
Proof.
  destruct (C7_empty_input (constructor NaN NaN NaN)
              {| students := []; teachers := teachers room_clash_env;
                 courses := courses room_clash_env; rooms := rooms room_clash_env;
                 existingTimetables := [] |}
              3 "2024-25" oracle_walk 0%nat)
    as (msg & _ & _ & Hrun & Hst & _); [left; reflexivity|].
  exists msg. split; [apply Hrun | exact Hst].
Defined.

Lemma C8_suggestions_witness :
  hasConflict gene_A [gene_A; gene_B] 1 ("09:00", "10:30") = true.
Proof.
  destruct (C8_suggestions room_clash_individual room_clash_env)
    as (_ & _ & _ & _ & _ & _ & Hself).
  apply (Hself gene_A [gene_A; gene_B]); [left; reflexivity | reflexivity].
Defined.

(** The specification's wording excludes only the combinations that
    overlap another gene of the same teacher.  Here the only other gene
    belongs to another teacher, so Monday 09:00-10:30 would be the first
    alternative; the code leaves it out. *)
Lemma C8_counterexample :
  conflicts (evaluate room_clash_env room_clash_individual)
  = [ROOM_CONFLICT gene_A gene_B]
  /\ generateSuggestions (evaluate room_clash_env room_clash_individual) room_clash_env
     = [TIME_CHANGE gene_A
          [ {| alt_dayOfWeek := 1; alt_startTime := "10:45"; alt_endTime := "12:15" |};
            {| alt_dayOfWeek := 1; alt_startTime := "13:00"; alt_endTime := "14:30" |};
            {| alt_dayOfWeek := 1; alt_startTime := "14:45"; alt_endTime := "16:15" |} ]]
  /\ nth_error (slots room_clash_individual) 0 = Some gene_A
  /\ hasConflict gene_A (other_genes 0 (slots room_clash_individual)) 1 ("09:00", "10:30")
     = false
  /\ alternatives_excluding_others 0 gene_A (slots room_clash_individual)
     = [ {| alt_dayOfWeek := 1; alt_startTime := "09:00"; alt_endTime := "10:30" |};
         {| alt_dayOfWeek := 1; alt_startTime := "10:45"; alt_endTime := "12:15" |};
         {| alt_dayOfWeek := 1; alt_startTime := "13:00"; alt_endTime := "14:30" |} ]
  /\ findAlternativeTimes gene_A (slots room_clash_individual)
     <> alternatives_excluding_others 0 gene_A (slots room_clash_individual).
Proof.
  repeat split; try reflexivity. vm_compute. discriminate.
Qed.

Lemma C9_mutation_unresolved_witness :
  mutate_slot missing_teacher_env gene_B oracle_zero 0%nat = Ok (gene_B, 1%nat)
  /\ nth_error (slots missing_teacher_individual) 0 = Some gene_B.
Proof.
  destruct (C9_mutation_unresolved missing_teacher_env missing_teacher_individual
              [] [] [] gene_B oracle_zero 0%nat 0%nat eq_refl eq_refl eq_refl)
    as [_ Hskip].
  destruct (Hskip {| course_id := "cB"; course_teacherId := "tB";
                     course_creditHours := 3; maxStudents := Some 20%Z |}
                  eq_refl eq_refl) as [Hslot _].
  split; [exact Hslot | reflexivity].
Defined.

(** The specification has a selected gene whose course names an absent
    teacher make the mutation fault.  Here the gene is selected (the draw is 0),
    its course resolves, the course's teacher does not, and the mutation
    returns the individual unchanged. *)
Lemma C9_counterexample :
  Qltb (random_value oracle_zero 0%nat) (1 # 10) = true
  /\ (exists course,
         find_course (courses missing_teacher_env) (courseId gene_B) = Some course
         /\ find_teacher (teachers missing_teacher_env) (course_teacherId course) = None)
  /\ mutate missing_teacher_individual missing_teacher_env oracle_zero 0%nat
     = Ok (missing_teacher_individual, 1%nat)
  /\ ~ (exists e, mutate missing_teacher_individual missing_teacher_env oracle_zero 0%nat
                  = Throw e).
Proof.
  split; [reflexivity|].
  split; [eexists; split; reflexivity|].
  split; [reflexivity|].
  intros [e H]. vm_compute in H. discriminate.
Qed.

(** Two generations from a one-individual population, with a threshold
    that is never reached. *)
Lemma C10_best_fitness_monotone_witness :
  exists P P',
    best_fitness P <= best_fitness P'
    /\ (forall x, In x P' -> fitness x <= best_fitness P').
Proof.
  assert (H : exists hist k' P P',
             ga_history 2 (constructor NaN (Num 2) NaN) room_clash_env
                        [room_clash_individual] oracle_walk 0%nat = Ok (hist, k')
             /\ nth_error hist 0 = Some P /\ nth_error hist 1 = Some P').
  { vm_compute. eexists _, _, _, _. split; [reflexivity|]. split; reflexivity. }
  destruct H as (hist & k' & P & P' & Hh & H0 & H1).
  destruct (C10_best_fitness_monotone _ _ _ _ _ _ _ _ _ _ _ Hh H0 H1)
    as (_ & _ & _ & _ & Hmax & Hle).
  exists P, P'. split; [exact Hle | exact Hmax].
Defined.

(* ================================================================== *)
(** * Further properties of the service *)
(* ================================================================== *)

(** ** Capacity records and the range of the fitness *)

Lemma filter_capacity_recorded (ss : list Slot) (env : Env) :
  filter is_capacity_conflict (snd (fitness_scan ss env))
  = flat_map (capacity_events (courses env) (rooms env)) ss.
Proof.
  rewrite fitness_scan_events, !filter_app.
  assert (Hscan : filter is_capacity_conflict (scan_events ss (existingTimetables env)) = []).
  { induction ss as [|s rest IH]; simpl; [reflexivity|].
    rewrite !filter_app, IH.
    rewrite (filter_flat_map_nil _ _ rest
               (fun s2 => proj2 (proj2 (pair_events_kinds s s2)))).
    rewrite (filter_flat_map_nil _ _ (existingTimetables env)
               (fun e => proj2 (proj2 (proj2 (existing_events_kinds s e))))).
    reflexivity. }
  rewrite Hscan.
  rewrite (filter_flat_map_nil _ _ _
             (fun e => proj1 (proj2 (proj2 (proj2
                (workload_events_kinds (teachers env) e)))))).
  simpl. apply filter_flat_map_id. intros s. unfold capacity_events.
  destruct (find_course (courses env) (courseId s)) as [c|];
    [destruct (find_room (rooms env) (roomId s)) as [r|];
     [destruct (maxStudents c) as [m|];
      [destruct (negb (m =? 0)%Z && (capacity r <? m)%Z)|]|]|]; reflexivity.
Qed.

Lemma capacity_events_length (env : Env) (ss : list Slot) :
  List.length (flat_map (capacity_events (courses env) (rooms env)) ss)
  = List.length (filter (over_capacity env) ss).
Proof.
  induction ss as [|s ss IH]; simpl; [reflexivity|].
  rewrite length_app, IH. unfold capacity_events, over_capacity.
  destruct (find_course (courses env) (courseId s)) as [c|];
    [destruct (find_room (rooms env) (roomId s)) as [r|];
     [destruct (maxStudents c) as [m|];
      [destruct (negb (m =? 0)%Z && (capacity r <? m)%Z)|]|]|]; reflexivity.
Qed.

(** What a recorded CAPACITY_EXCEEDED says about its gene. *)
Lemma capacity_recorded_iff (individual : Individual) (env : Env) (s : Slot)
  (c : Course) (r : Room) :
  In (CAPACITY_EXCEEDED s c r) (snd (calculateFitness individual env))
  <-> In s (slots individual)
      /\ find_course (courses env) (courseId s) = Some c
      /\ find_room (rooms env) (roomId s) = Some r
      /\ exists m, maxStudents c = Some m /\ m <> 0%Z /\ (capacity r < m)%Z.
Proof.
  change (snd (calculateFitness individual env))
    with (snd (fitness_scan (slots individual) env)).
  split.
  - intros H.
    assert (H' : In (CAPACITY_EXCEEDED s c r)
                    (filter is_capacity_conflict
                            (snd (fitness_scan (slots individual) env))))
      by (apply filter_In; split; [exact H | reflexivity]).
    rewrite filter_capacity_recorded in H'. apply in_flat_map in H'.
    destruct H' as [s0 [Hs0 Hev]]. unfold capacity_events in Hev.
    destruct (find_course (courses env) (courseId s0)) as [c0|] eqn:Ec; [|destruct Hev].
    destruct (find_room (rooms env) (roomId s0)) as [r0|] eqn:Er; [|destruct Hev].
    destruct (maxStudents c0) as [m|] eqn:Em; [|destruct Hev].
    destruct (negb (m =? 0)%Z && (capacity r0 <? m)%Z) eqn:Eb; [|destruct Hev].
    destruct Hev as [Heq|[]]. inversion Heq; subst.
    apply andb_true_iff in Eb. destruct Eb as [E0 E1].
    apply negb_true_iff, Z.eqb_neq in E0. apply Z.ltb_lt in E1.
    repeat split; try assumption. exists m. auto.
  - intros [Hs [Ec [Er [m [Em [E0 E1]]]]]].
    assert (H' : In (CAPACITY_EXCEEDED s c r)
                    (filter is_capacity_conflict
                            (snd (fitness_scan (slots individual) env)))).
    { rewrite filter_capacity_recorded. apply in_flat_map. exists s.
      split; [exact Hs|]. unfold capacity_events. rewrite Ec, Er, Em.
      apply Z.eqb_neq in E0. apply Z.ltb_lt in E1. rewrite E0, E1.
      left. reflexivity. }
    apply filter_In in H'. apply H'.
Qed.

(** X1: a CAPACITY_EXCEEDED record exists exactly for a gene whose course
    and room resolve and whose course has a maxStudents that is set,
    non-zero and greater than the room's capacity; there is one record per
    such gene, so a course without maxStudents never produces one. *)
Theorem X1_capacity_records :
  forall (individual : Individual) (env : Env),
    (forall s c r,
        In (CAPACITY_EXCEEDED s c r) (snd (calculateFitness individual env))
        <-> In s (slots individual)
            /\ find_course (courses env) (courseId s) = Some c
            /\ find_room (rooms env) (roomId s) = Some r
            /\ exists m, maxStudents c = Some m /\ m <> 0%Z /\ (capacity r < m)%Z)
    /\ List.length (filter is_capacity_conflict (snd (calculateFitness individual env)))
       = List.length (filter (over_capacity env) (slots individual))
    /\ (forall s c r,
           In (CAPACITY_EXCEEDED s c r) (snd (calculateFitness individual env)) ->
           maxStudents c <> None).
Proof.
  intros individual env.
  pose proof (capacity_recorded_iff individual env) as Hiff.
  split; [exact Hiff|]. split.
  - change (snd (calculateFitness individual env))
      with (snd (fitness_scan (slots individual) env)).
    rewrite filter_capacity_recorded. apply capacity_events_length.
  - intros s c r H. apply Hiff in H. destruct H as [_ [_ [_ [m [Em _]]]]]. congruence.
Qed.

Lemma calculateFitness_le_1 (individual : Individual) (env : Env) :
  fst (calculateFitness individual env) <= 1.
Proof.
  unfold calculateFitness. cbn [fst]. apply Q.max_lub; [discriminate|].
  rewrite fitness_scan_total.
  assert (0 <= total_penalty (snd (fitness_scan (slots individual) env))).
  { apply total_penalty_nonneg. intros c. apply recorded_penalty_pos. }
  lra.
Qed.

Lemma member_penalty_le (cs : list Conflict) (c : Conflict) :
  (forall x, In x cs -> 0 < penalty x) -> In c cs -> penalty c <= total_penalty cs.
Proof.
  intros Hpos Hin. apply in_split in Hin. destruct Hin as [l1 [l2 ->]].
  rewrite total_penalty_app.
  change (total_penalty (c :: l2)) with (penalty c + total_penalty l2).
  assert (0 <= total_penalty l1)
    by (apply total_penalty_nonneg; intros x Hx; apply Hpos; apply in_or_app; auto).
  assert (0 <= total_penalty l2)
    by (apply total_penalty_nonneg; intros x Hx; apply Hpos; apply in_or_app;
        right; right; exact Hx).
  lra.
Qed.

Lemma two_members_penalty_le (cs : list Conflict) (c1 c2 : Conflict) :
  (forall x, In x cs -> 0 < penalty x) -> In c1 cs -> In c2 cs -> c1 <> c2 ->
  penalty c1 + penalty c2 <= total_penalty cs.
Proof.
  intros Hpos H1 H2 Hne. apply in_split in H1. destruct H1 as [l1 [l2 ->]].
  assert (H2' : In c2 (l1 ++ l2)).
  { apply in_app_or in H2. apply in_or_app.
    destruct H2 as [H2|[H2|H2]]; [auto | congruence | auto]. }
  assert (Hpos' : forall x, In x (l1 ++ l2) -> 0 < penalty x).
  { intros x Hx. apply Hpos. apply in_app_or in Hx. apply in_or_app.
    destruct Hx; [left | right; right]; assumption. }
  pose proof (member_penalty_le (l1 ++ l2) c2 Hpos' H2') as Hle.
  rewrite total_penalty_app in *.
  change (total_penalty (c1 :: l2)) with (penalty c1 + total_penalty l2). lra.
Qed.

(** The range of the fitness and when it is 1. *)
Lemma calculateFitness_range :
  forall (individual : Individual) (env : Env),
    0 <= fst (calculateFitness individual env)
    /\ fst (calculateFitness individual env) <= 1
    /\ (snd (calculateFitness individual env) = []
        <-> fst (calculateFitness individual env) == 1).
Proof.
  intros individual env.
  split; [unfold calculateFitness; cbn [fst]; apply Q.le_max_l|].
  split; [apply calculateFitness_le_1|].
  change (snd (calculateFitness individual env))
    with (snd (fitness_scan (slots individual) env)).
  change (fst (calculateFitness individual env))
    with (Qmax 0 (fst (fitness_scan (slots individual) env))).
  pose proof (fitness_scan_total (slots individual) env) as Htot.
  pose proof (recorded_penalty_pos (slots individual) env) as Hpos.
  destruct (snd (fitness_scan (slots individual) env)) as [|c cs] eqn:E.
  - split; [intros _|reflexivity].
    rewrite Htot. unfold total_penalty. simpl. reflexivity.
  - split; [discriminate|]. intros H1. exfalso.
    assert (Hc : 0 < penalty c) by (apply Hpos; left; reflexivity).
    assert (Hcs : 0 <= total_penalty cs)
      by (apply total_penalty_nonneg; intros x Hx; apply Hpos; right; exact Hx).
    change (total_penalty (c :: cs)) with (penalty c + total_penalty cs) in Htot.
    assert (Hlt : fst (fitness_scan (slots individual) env) < 1) by lra.
    assert (Hmax : Qmax 0 (fst (fitness_scan (slots individual) env)) < 1)
      by (apply Q.max_lub_lt; [reflexivity | exact Hlt]).
    rewrite H1 in Hmax. apply (Qlt_irrefl 1 Hmax).
Qed.

(** X2: the fitness lies between 0 and 1; it is 1 when no conflict was
    recorded, and a recorded teacher, room, existing-timetable or capacity
    conflict puts it strictly below 1.  (Nothing is said of a recorded
    WORKLOAD_EXCEEDED, whose penalty can be arbitrarily small.) *)
Theorem X2_fitness_range :
  forall (individual : Individual) (env : Env),
    0 <= fst (calculateFitness individual env)
    /\ fst (calculateFitness individual env) <= 1
    /\ (snd (calculateFitness individual env) = [] ->
        fst (calculateFitness individual env) == 1)
    /\ (forall c, In c (snd (calculateFitness individual env)) ->
                  is_workload_conflict c = false ->
                  fst (calculateFitness individual env) < 1).
Proof.
  intros individual env.
  destruct (calculateFitness_range individual env) as [H0 [H1 Hiff]].
  split; [exact H0|]. split; [exact H1|]. split; [apply Hiff|].
  intros c Hc _. apply Qle_lteq in H1. destruct H1 as [Hlt|Heq]; [exact Hlt|].
  apply Hiff in Heq. rewrite Heq in Hc. destruct Hc.
Qed.

Lemma X2_fitness_range_witness :
  fst (calculateFitness room_clash_individual room_clash_env) < 1.
Proof.
  destruct (X2_fitness_range room_clash_individual room_clash_env) as (_ & _ & _ & H).
  apply (H (ROOM_CONFLICT gene_A gene_B)); [vm_compute; left; reflexivity | reflexivity].
Defined.

Lemma unordered_pairs_nth (ss : list Slot) :
  forall i j s1 s2,
    (i < j)%nat -> nth_error ss i = Some s1 -> nth_error ss j = Some s2 ->
    In (s1, s2) (unordered_pairs ss).
Proof.
  induction ss as [|a rest IH]; intros i j s1 s2 Hij Hi Hj.
  - destruct i; discriminate.
  - simpl. apply in_or_app. destruct j as [|j]; [lia|]. simpl in Hj.
    destruct i as [|i].
    + left. simpl in Hi. inversion Hi; subst. apply in_map.
      apply (nth_error_In _ _ Hj).
    + right. simpl in Hi. apply (IH i j); [lia | assumption | assumption].
Qed.

(** X3: two genes of an individual that share a teacher (or a room) on
    the same day with overlapping times are recorded as a conflict and cap
    the fitness at 0.7 (at 0.6); a pair that shares both caps it at 0.3. *)
Theorem X3_clash_lowers_fitness :
  forall (individual : Individual) (env : Env) (i j : nat) (s1 s2 : Slot),
    (i < j)%nat ->
    nth_error (slots individual) i = Some s1 ->
    nth_error (slots individual) j = Some s2 ->
    (teacher_clash s1 s2 = true ->
     In (TEACHER_CONFLICT s1 s2) (snd (calculateFitness individual env))
     /\ fst (calculateFitness individual env) <= 7 # 10)
    /\ (room_clash s1 s2 = true ->
        In (ROOM_CONFLICT s1 s2) (snd (calculateFitness individual env))
        /\ fst (calculateFitness individual env) <= 6 # 10)
    /\ (teacher_clash s1 s2 = true -> room_clash s1 s2 = true ->
        fst (calculateFitness individual env) <= 3 # 10).
Proof.
  intros individual env i j s1 s2 Hij Hi Hj.
  pose proof (unordered_pairs_nth _ _ _ _ _ Hij Hi Hj) as Hpair.
  change (snd (calculateFitness individual env))
    with (snd (fitness_scan (slots individual) env)).
  change (fst (calculateFitness individual env))
    with (Qmax 0 (fst (fitness_scan (slots individual) env))).
  pose proof (fitness_scan_total (slots individual) env) as Htot.
  pose proof (recorded_penalty_pos (slots individual) env) as Hpos.
  assert (HT : teacher_clash s1 s2 = true ->
               In (TEACHER_CONFLICT s1 s2) (snd (fitness_scan (slots individual) env))).
  { intros Hc.
    assert (H : In (TEACHER_CONFLICT s1 s2)
                   (filter is_teacher_conflict
                           (snd (fitness_scan (slots individual) env)))).
    { rewrite fitness_scan_events, !filter_app, filter_teacher_scan.
      apply in_or_app. left.
      apply (in_map (fun p => TEACHER_CONFLICT (fst p) (snd p)) _ (s1, s2)).
      apply filter_In. split; [exact Hpair | exact Hc]. }
    apply filter_In in H. apply H. }
  assert (HR : room_clash s1 s2 = true ->
               In (ROOM_CONFLICT s1 s2) (snd (fitness_scan (slots individual) env))).
  { intros Hc.
    assert (H : In (ROOM_CONFLICT s1 s2)
                   (filter is_room_conflict
                           (snd (fitness_scan (slots individual) env)))).
    { rewrite fitness_scan_events, !filter_app, filter_room_scan.
      apply in_or_app. left.
      apply (in_map (fun p => ROOM_CONFLICT (fst p) (snd p)) _ (s1, s2)).
      apply filter_In. split; [exact Hpair | exact Hc]. }
    apply filter_In in H. apply H. }
  split; [|split].
  - intros Hc. split; [exact (HT Hc)|].
    pose proof (member_penalty_le _ _ Hpos (HT Hc)) as Hle. cbn [penalty] in Hle.
    apply Q.max_lub; [discriminate | lra].
  - intros Hc. split; [exact (HR Hc)|].
    pose proof (member_penalty_le _ _ Hpos (HR Hc)) as Hle. cbn [penalty] in Hle.
    apply Q.max_lub; [discriminate | lra].
  - intros Hc1 Hc2.
    pose proof (two_members_penalty_le _ _ _ Hpos (HT Hc1) (HR Hc2) ltac:(discriminate))
      as Hle.
    cbn [penalty] in Hle. apply Q.max_lub; [discriminate | lra].
Qed.

(** ** Tournament selection *)

Lemma Qgtb_false (a b : Q) : Qgtb a b = false <-> a <= b.
Proof.
  unfold Qgtb. rewrite negb_false_iff. apply Qle_bool_iff.
Qed.

Lemma random_index_drawn (n : nat) (g : Oracle) (k : nat) :
  random_index n g k = Ok (drawn_index g k n, S k).
Proof. reflexivity. Qed.

Lemma drawn_index_lt (g : Oracle) (k n : nat) : (0 < n)%nat -> (drawn_index g k n < n)%nat.
Proof.
  intros Hn. destruct (random_index_lt n g k Hn) as [i [Hi Li]].
  rewrite random_index_drawn in Hi. inversion Hi. lia.
Qed.

Lemma pick_drawn (population : Population) (g : Oracle) (k : nat) :
  pick population g k
  = match nth_error population (drawn_index g k (List.length population)) with
    | Some individual => Ok (individual, S k)
    | None => Throw (TypeError "Cannot read properties of undefined")
    end.
Proof.
  unfold pick. rewrite (bind_ok _ _ _ _ _ _ (random_index_drawn _ g k)).
  destruct (nth_error population (drawn_index g k (List.length population))); reflexivity.
Qed.

(** X4: on an empty population tournament selection faults; otherwise it
    draws three individuals with replacement and returns one of them that
    no other of the three beats, the earliest drawn among equals. *)
Theorem X4_tournamentSelection :
  forall (population : Population) (g : Oracle) (k : nat),
    (population = [] ->
     exists msg, tournamentSelection population g k = Throw (TypeError msg))
    /\ (population <> [] ->
        exists c1 c2 c3 winner,
          nth_error population (drawn_index g k (List.length population)) = Some c1
          /\ nth_error population (drawn_index g (S k) (List.length population)) = Some c2
          /\ nth_error population (drawn_index g (S (S k)) (List.length population))
             = Some c3
          /\ tournamentSelection population g k = Ok (winner, S (S (S k)))
          /\ (winner = c1 \/ winner = c2 \/ winner = c3)
          /\ fitness c1 <= fitness winner
          /\ fitness c2 <= fitness winner
          /\ fitness c3 <= fitness winner
          /\ (fitness c2 <= fitness c1 -> fitness c3 <= fitness c1 -> winner = c1)
          /\ (fitness c1 < fitness c2 -> fitness c3 <= fitness c2 -> winner = c2)).
Proof.
  intros population g k. split.
  - intros ->. eexists. unfold tournamentSelection. apply bind_throw.
    rewrite pick_drawn. destruct (drawn_index g k (List.length (@nil Individual)));
      reflexivity.
  - intros Hne.
    assert (Hlen : (0 < List.length population)%nat)
      by (destruct population; [congruence | simpl; lia]).
    assert (Hsome : forall j, exists c,
               nth_error population (drawn_index g j (List.length population)) = Some c).
    { intros j.
      destruct (nth_error population (drawn_index g j (List.length population)))
        as [c|] eqn:E; [exists c; reflexivity|].
      apply nth_error_None in E. pose proof (drawn_index_lt g j _ Hlen). lia. }
    destruct (Hsome k) as [c1 H1]. destruct (Hsome (S k)) as [c2 H2].
    destruct (Hsome (S (S k))) as [c3 H3].
    exists c1, c2, c3.
    exists (if Qgtb (fitness c3)
                    (fitness (if Qgtb (fitness c2) (fitness c1) then c2 else c1))
            then c3 else if Qgtb (fitness c2) (fitness c1) then c2 else c1).
    split; [exact H1|]. split; [exact H2|]. split; [exact H3|].
    split.
    { assert (P1 : pick population g k = Ok (c1, S k))
        by (rewrite pick_drawn, H1; reflexivity).
      assert (P2 : pick population g (S k) = Ok (c2, S (S k)))
        by (rewrite pick_drawn, H2; reflexivity).
      assert (P3 : pick population g (S (S k)) = Ok (c3, S (S (S k))))
        by (rewrite pick_drawn, H3; reflexivity).
      unfold tournamentSelection.
      rewrite (bind_ok _ _ _ _ _ _ P1), (bind_ok _ _ _ _ _ _ P2), (bind_ok _ _ _ _ _ _ P3).
      reflexivity. }
    destruct (Qgtb (fitness c2) (fitness c1)) eqn:E21;
      [apply Qgtb_lt in E21 | apply Qgtb_false in E21].
    + destruct (Qgtb (fitness c3) (fitness c2)) eqn:E32;
        [apply Qgtb_lt in E32 | apply Qgtb_false in E32];
        (split; [auto|]); repeat split; try lra; intros; try reflexivity; exfalso; lra.
    + destruct (Qgtb (fitness c3) (fitness c1)) eqn:E31;
        [apply Qgtb_lt in E31 | apply Qgtb_false in E31];
        (split; [auto|]); repeat split; try lra; intros; try reflexivity; exfalso; lra.
Qed.

Lemma X4_tournamentSelection_witness :
  exists winner,
    tournamentSelection [room_clash_individual; missing_teacher_individual]
                        oracle_walk 0%nat = Ok (winner, 3%nat).
Proof.
  destruct (X4_tournamentSelection [room_clash_individual; missing_teacher_individual]
              oracle_walk 0%nat) as [_ H].
  destruct (H ltac:(discriminate)) as (c1 & c2 & c3 & winner & _ & _ & _ & Hrun & _).
  exists winner. exact Hrun.
Defined.

(** ** Random slots and initialisation at the edges *)

Lemma generateRandomSlot_no_room (course : Course) (teacher : Teacher) (g : Oracle)
  (k : nat) :
  generateRandomSlot course teacher [] g k
  = Throw (TypeError "Cannot read properties of undefined").
Proof.
  unfold generateRandomSlot.
  rewrite !(bind_ok _ _ _ _ _ _ (random_index_drawn _ g _)).
  destruct (drawn_index g (S (S k)) (List.length (@nil Room))); reflexivity.
Qed.

(** X5: with no room [generateRandomSlot] faults; with at least one room
    it consumes three draws and returns a gene for the given course and
    teacher, on the weekday, catalog period and room its three draws
    index. *)
Theorem X5_generateRandomSlot :
  forall (course : Course) (teacher : Teacher) (rs : list Room) (g : Oracle) (k : nat),
    (rs = [] ->
     exists msg, generateRandomSlot course teacher rs g k = Throw (TypeError msg))
    /\ (rs <> [] ->
        exists slot room,
          generateRandomSlot course teacher rs g k = Ok (slot, S (S (S k)))
          /\ courseId slot = course_id course
          /\ teacherId slot = teacher_id teacher
          /\ creditHours slot = course_creditHours course
          /\ dayOfWeek slot = (1 + Z.of_nat (drawn_index g k 5))%Z
          /\ (1 <= dayOfWeek slot <= 5)%Z
          /\ nth_error timeSlots (drawn_index g (S k) 5) = Some (startTime slot, endTime slot)
          /\ nth_error rs (drawn_index g (S (S k)) (List.length rs)) = Some room
          /\ roomId slot = room_id room).
Proof.
  intros course teacher rs g k. split.
  - intros ->. eexists. apply generateRandomSlot_no_room.
  - intros Hrs.
    assert (Hlen : (0 < List.length rs)%nat) by (destruct rs; [congruence | simpl; lia]).
    pose proof (drawn_index_lt g k 5 ltac:(lia)) as Ld.
    pose proof (drawn_index_lt g (S k) 5 ltac:(lia)) as Lt.
    pose proof (drawn_index_lt g (S (S k)) _ Hlen) as Lr.
    destruct (nth_error rs (drawn_index g (S (S k)) (List.length rs))) as [room|] eqn:Er;
      [|apply nth_error_None in Er; lia].
    destruct (nth_error timeSlots (drawn_index g (S k) 5)) as [timeSlot|] eqn:Et;
      [|apply nth_error_None in Et; simpl in Et; lia].
    exists {| courseId := course_id course;
              teacherId := teacher_id teacher;
              roomId := room_id room;
              dayOfWeek := nth (drawn_index g k 5) days 0%Z;
              startTime := fst timeSlot;
              endTime := snd timeSlot;
              creditHours := course_creditHours course |}, room.
    cbn [courseId teacherId roomId dayOfWeek startTime endTime creditHours].
    split.
    { unfold generateRandomSlot.
      rewrite !(bind_ok _ _ _ _ _ _ (random_index_drawn _ g _)).
      change (List.length days) with 5%nat. change (List.length timeSlots) with 5%nat.
      rewrite Er, Et. reflexivity. }
    assert (Hday : nth (drawn_index g k 5) days 0%Z
                   = (1 + Z.of_nat (drawn_index g k 5))%Z).
    { destruct (drawn_index g k 5) as [|[|[|[|[|n]]]]]; try reflexivity. lia. }
    repeat split; try reflexivity; try assumption; try (rewrite Hday; lia).
    rewrite <- surjective_pairing. reflexivity.
Qed.

Lemma X5_generateRandomSlot_witness :
  exists slot,
    generateRandomSlot {| course_id := "cA"; course_teacherId := "tA";
                          course_creditHours := 3; maxStudents := None |}
                       {| teacher_id := "tA"; maxWorkload := 40 |}
                       (rooms room_clash_env) oracle_walk 0%nat
    = Ok (slot, 3%nat)
    /\ (1 <= dayOfWeek slot <= 5)%Z.
Proof.
  destruct (X5_generateRandomSlot
              {| course_id := "cA"; course_teacherId := "tA";
                 course_creditHours := 3; maxStudents := None |}
              {| teacher_id := "tA"; maxWorkload := 40 |}
              (rooms room_clash_env) oracle_walk 0%nat) as [_ H].
  destruct (H ltac:(discriminate)) as (slot & room & Hrun & _ & _ & _ & _ & Hday & _).
  exists slot. split; [exact Hrun | exact Hday].
Defined.

Lemma init_loop_unresolvable (env : Env) (g : Oracle) :
  forall (cs : list Course) (ss : list Slot) (k : nat),
    filter (resolvable env) cs = [] ->
    foldM (init_step env) cs ss g k = Ok (ss, k).
Proof.
  induction cs as [|c cs IH]; intros ss k Hf; simpl; [reflexivity|].
  simpl in Hf. unfold init_step at 1. unfold resolvable in Hf at 1.
  destruct (find_teacher (teachers env) (course_teacherId c)); [discriminate|].
  unfold bind, ret. apply IH. exact Hf.
Qed.

Lemma init_loop_no_room (env : Env) (g : Oracle) :
  rooms env = [] ->
  forall (cs : list Course) (ss : list Slot) (k : nat),
    filter (resolvable env) cs <> [] ->
    foldM (init_step env) cs ss g k
    = Throw (TypeError "Cannot read properties of undefined").
Proof.
  intros Hrs. induction cs as [|c cs IH]; intros ss k Hf; simpl; [simpl in Hf; congruence|].
  simpl in Hf. unfold init_step at 1. unfold resolvable in Hf at 1.
  destruct (find_teacher (teachers env) (course_teacherId c)) as [t|].
  - apply bind_throw. apply bind_throw. rewrite Hrs. apply generateRandomSlot_no_room.
  - unfold bind, ret. apply IH. exact Hf.
Qed.

Lemma init_population_empty_loop (env : Env) (g : Oracle) (k : nat) :
  candidate_courses env = [] ->
  forall (l : list nat) (population : Population),
    foldM (fun population _ =>
             individual <- init_individual env ;;
             ret (population ++ [individual])) l population g k
    = Ok (population
          ++ repeat {| slots := []; conflicts := []; fitness := 0 |} (List.length l), k).
Proof.
  intros Hc. induction l as [|x l IH]; intros population; simpl.
  - rewrite app_nil_r. reflexivity.
  - assert (Hind : init_individual env g k
                   = Ok ({| slots := []; conflicts := []; fitness := 0 |}, k)).
    { unfold init_individual.
      rewrite (bind_ok _ _ _ _ _ _ (init_loop_unresolvable env g (courses env) [] k Hc)).
      reflexivity. }
    unfold bind at 1. unfold bind at 1. rewrite Hind. unfold ret at 1.
    rewrite IH, <- app_assoc. reflexivity.
Qed.

(** X6: when no course has its teacher in the teacher set, the initial
    population is [size] individuals without genes and no random number
    is consumed; when some course resolves but there is no room,
    initialisation of a non-empty population faults. *)
Theorem X6_initializePopulation_edges :
  forall (size : nat) (env : Env) (g : Oracle) (k : nat),
    (candidate_courses env = [] ->
     initializePopulation size env g k
     = Ok (repeat {| slots := []; conflicts := []; fitness := 0 |} size, k))
    /\ (candidate_courses env <> [] -> rooms env = [] -> (0 < size)%nat ->
        exists msg, initializePopulation size env g k = Throw (TypeError msg)).
Proof.
  intros size env g k. split.
  - intros Hc. unfold initializePopulation.
    rewrite (init_population_empty_loop env g k Hc), length_seq. reflexivity.
  - intros Hc Hrs Hsize. eexists. unfold initializePopulation.
    destruct size as [|size]; [lia|]. simpl seq. cbn [foldM].
    apply bind_throw. apply bind_throw. unfold init_individual. apply bind_throw.
    apply (init_loop_no_room env g Hrs). exact Hc.
Qed.

Lemma X6_initializePopulation_edges_witness :
  exists msg,
    initializePopulation 50
      {| students := []; teachers := teachers room_clash_env;
         courses := courses room_clash_env; rooms := []; existingTimetables := [] |}
      oracle_walk 0%nat
    = Throw (TypeError msg).
Proof.
  destruct (X6_initializePopulation_edges 50
              {| students := []; teachers := teachers room_clash_env;
                 courses := courses room_clash_env; rooms := [];
                 existingTimetables := [] |}
              oracle_walk 0%nat) as [_ H].
  apply H; [discriminate | reflexivity | lia].
Defined.

(** ** Properties of individuals kept along a run *)

Section RunInvariant.

Variable env : Env.
Variable Inv : Individual -> Prop.

Hypothesis Inv_slots : forall x y, slots x = slots y -> Inv x -> Inv y.
Hypothesis Inv_crossover :
  forall parent1 parent2 child g k k',
    Inv parent1 -> Inv parent2 ->
    crossover parent1 parent2 g k = Ok (child, k') -> Inv child.
Hypothesis Inv_mutate :
  forall individual mutated g k k',
    Inv individual -> mutate individual env g k = Ok (mutated, k') -> Inv mutated.

Lemma evaluate_and_sort_keeps (population : Population) :
  Forall Inv population -> Forall Inv (evaluate_and_sort env population).
Proof.
  intros H. rewrite Forall_forall in *. intros x Hx.
  apply evaluate_and_sort_In in Hx. destruct Hx as [y [Hy ->]].
  apply (Inv_slots y); [reflexivity | apply H; exact Hy].
Qed.

Lemma offspring_loop_keeps (population : Population) (g : Oracle) :
  Forall Inv population ->
  forall (fuel : nat) (newPopulation result : Population) (k k' : nat),
    Forall Inv newPopulation ->
    offspring_loop fuel env population newPopulation g k = Ok (result, k') ->
    Forall Inv result.
Proof.
  intros Hpop. induction fuel as [|fuel IH]; intros newPopulation result k k' Hnew H;
    simpl in H.
  - inversion H; subst. exact Hnew.
  - destruct (List.length newPopulation <? populationSize)%nat.
    + apply bind_inv_ok in H. destruct H as [p1 [k1 [H1 H]]].
      apply bind_inv_ok in H. destruct H as [p2 [k2 [H2 H]]].
      apply bind_inv_ok in H. destruct H as [o [k3 [Ho H]]].
      apply bind_inv_ok in H. destruct H as [m [k4 [Hm H]]].
      assert (Hnext : Forall Inv (newPopulation ++ [m])).
      { apply Forall_app. split; [exact Hnew|]. constructor; [|constructor].
        apply tournamentSelection_inv in H1, H2.
        rewrite Forall_forall in Hpop.
        apply (Inv_mutate o m g k3 k4); [|exact Hm].
        apply (Inv_crossover p1 p2 o g k2 k3); [apply Hpop | apply Hpop |]; assumption. }
      apply (IH _ _ _ _ Hnext H).
    + inversion H; subst. exact Hnew.
Qed.

Lemma generation_body_keeps (this : Service) (population newPopulation : Population)
  (g : Oracle) (k k' : nat) :
  Forall Inv population ->
  generation_body this env population g k = Ok (Next newPopulation, k') ->
  Forall Inv newPopulation.
Proof.
  intros Hpop H. pose proof (evaluate_and_sort_keeps population Hpop) as HP.
  unfold generation_body in H.
  destruct (evaluate_and_sort env population) as [|best rest] eqn:EP; [discriminate|].
  destruct (Qle_bool (conflictThreshold this) (fitness best)); [discriminate|].
  apply bind_inv_ok in H. destruct H as [newPop [k1 [Hnext H]]].
  inversion H; subst. unfold next_generation in Hnext.
  assert (Helite : Forall Inv (firstn eliteCount (best :: rest))).
  { apply Forall_forall. intros x Hx.
    apply (proj1 (Forall_forall _ _) HP). apply (firstn_In _ _ _ Hx). }
  apply (offspring_loop_keeps (best :: rest) g HP _ _ _ _ _ Helite Hnext).
Qed.

Lemma ga_run_keeps (this : Service) (g : Oracle) :
  forall (n : nat) (population : Population) (k : nat),
    Forall Inv population ->
    (forall hist k1, ga_history n this env population g k = Ok (hist, k1) ->
                     Forall (Forall Inv) hist)
    /\ (forall final k2, ga_loop n this env population g k = Ok (final, k2) ->
                         Forall Inv final).
Proof.
  induction n as [|n IH]; intros population k Hpop; simpl.
  - split; intros x k1 H; inversion H; subst; [constructor | exact Hpop].
  - pose proof (evaluate_and_sort_keeps population Hpop) as HP.
    split.
    + intros hist k1 H.
      apply bind_inv_ok in H. destruct H as [step [ka [Hstep H]]].
      destruct step as [p|newPop].
      * inversion H; subst.
        apply generation_body_inv in Hstep. destruct Hstep as [_ [-> _]].
        constructor; [exact HP | constructor].
      * apply bind_inv_ok in H. destruct H as [rest [kb [Hrest H]]].
        inversion H; subst. constructor; [exact HP|].
        apply (proj1 (IH newPop ka (generation_body_keeps _ _ _ _ _ _ Hpop Hstep))
                 _ _ Hrest).
    + intros final k2 H.
      apply bind_inv_ok in H. destruct H as [step [ka [Hstep H]]].
      destruct step as [p|newPop].
      * inversion H; subst.
        apply generation_body_inv in Hstep. destruct Hstep as [_ [-> _]]. exact HP.
      * apply (proj2 (IH newPop ka (generation_body_keeps _ _ _ _ _ _ Hpop Hstep))
                 _ _ H).
Qed.

End RunInvariant.

(** ** Genes stay within the snapshot and the catalog *)

Lemma generateRandomSlot_inv (course : Course) (teacher : Teacher) (rs : list Room)
  (g : Oracle) (k k' : nat) (slot : Slot) :
  generateRandomSlot course teacher rs g k = Ok (slot, k') ->
  courseId slot = course_id course
  /\ teacherId slot = teacher_id teacher
  /\ In (dayOfWeek slot) days
  /\ In (startTime slot, endTime slot) timeSlots
  /\ (exists room, In room rs /\ roomId slot = room_id room).
Proof.
  intros H. destruct rs as [|r rs].
  - rewrite generateRandomSlot_no_room in H. discriminate.
  - destruct (generateRandomSlot_ok course teacher (r :: rs) g k ltac:(discriminate))
      as [slot0 [Hrun Hfacts]].
    rewrite Hrun in H. inversion H; subst. exact Hfacts.
Qed.


Lemma find_course_In_some (cs : list Course) (id : string) (c : Course) :
  find_course cs id = Some c -> In c cs /\ course_id c = id.
Proof.
  unfold find_course. intros H. apply find_some in H. destruct H as [H1 H2].
  apply String.eqb_eq in H2. auto.
Qed.

Lemma init_loop_wf (env : Env) (g : Oracle) :
  forall (cs : list Course) (ss ss' : list Slot) (k k' : nat),
    incl cs (courses env) ->
    Forall (gene_wf env) ss ->
    foldM (init_step env) cs ss g k = Ok (ss', k') ->
    Forall (gene_wf env) ss'.
Proof.
  induction cs as [|c cs IH]; intros ss ss' k k' Hincl Hwf H; simpl in H.
  - inversion H; subst. exact Hwf.
  - apply bind_inv_ok in H. destruct H as [ss1 [k1 [Hstep H]]].
    apply (IH ss1 ss' k1 k'); [intros x Hx; apply Hincl; right; exact Hx | | exact H].
    unfold init_step in Hstep.
    destruct (find_teacher (teachers env) (course_teacherId c)) as [t|] eqn:Et.
    + apply bind_inv_ok in Hstep. destruct Hstep as [slot [k2 [Hslot Hret]]].
      inversion Hret; subst ss1.
      apply generateRandomSlot_inv in Hslot.
      destruct Hslot as [Hc [Ht [Hd [Hp Hr]]]].
      apply Forall_app. split; [exact Hwf|]. constructor; [|constructor].
      unfold gene_wf. repeat split; try assumption.
      exists c, t. repeat split; try assumption. apply Hincl. left. reflexivity.
    + inversion Hstep; subst. exact Hwf.
Qed.

Lemma init_individual_wf (env : Env) (g : Oracle) (k k' : nat) (individual : Individual) :
  init_individual env g k = Ok (individual, k') -> genes_wf env individual.
Proof.
  unfold init_individual. intros H.
  apply bind_inv_ok in H. destruct H as [ss [k1 [Hss H]]].
  inversion H; subst. unfold genes_wf. cbn [slots].
  apply (init_loop_wf env g (courses env) [] ss k _
           (incl_refl (courses env)) (Forall_nil (gene_wf env)) Hss).
Qed.

Lemma initializePopulation_wf (size : nat) (env : Env) (g : Oracle) (k k' : nat)
  (population : Population) :
  initializePopulation size env g k = Ok (population, k') ->
  Forall (genes_wf env) population.
Proof.
  unfold initializePopulation.
  assert (Hloop : forall (l : list nat) (p p' : Population) (ka kb : nat),
             foldM (fun population _ =>
                      individual <- init_individual env ;;
                      ret (population ++ [individual])) l p g ka = Ok (p', kb) ->
             Forall (genes_wf env) p -> Forall (genes_wf env) p').
  { induction l as [|x l IH]; intros p p' ka kb H Hp; simpl in H.
    - inversion H; subst. exact Hp.
    - apply bind_inv_ok in H. destruct H as [p1 [k1 [Hstep H]]].
      apply bind_inv_ok in Hstep. destruct Hstep as [ind [k2 [Hind Hret]]].
      inversion Hret; subst p1. apply init_individual_wf in Hind.
      apply (IH _ _ _ _ H). apply Forall_app. split; [exact Hp|].
      constructor; [exact Hind | constructor]. }
  intros H. apply (Hloop _ _ _ _ _ H). constructor.
Qed.

(** Every gene of a child is a gene of one of its parents. *)
Lemma crossover_genes (parent1 parent2 child : Individual) (g : Oracle) (k k' : nat)
  (s : Slot) :
  crossover parent1 parent2 g k = Ok (child, k') ->
  In s (slots child) -> In s (slots parent1) \/ In s (slots parent2).
Proof.
  intros H Hs.
  destruct (crossover_shape parent1 parent2 g k) as [c [Hrun [_ Hnth]]].
  rewrite Hrun in H. inversion H; subst c k'. clear H Hrun.
  destruct (In_nth_error _ _ Hs) as [i Hi]. rewrite Hnth in Hi.
  destruct (nth_error (slots parent1) i) as [x|] eqn:E1;
    destruct (nth_error (slots parent2) i) as [y|] eqn:E2; try discriminate.
  - destruct (Qltb (random_value g (k + i)) (1 # 2)); inversion Hi; subst;
      [left; apply (nth_error_In _ _ E1) | right; apply (nth_error_In _ _ E2)].
  - inversion Hi; subst. left. apply (nth_error_In _ _ E1).
  - inversion Hi; subst. right. apply (nth_error_In _ _ E2).
Qed.

Lemma mutate_slot_wf (env : Env) (slot slot' : Slot) (g : Oracle) (k k' : nat) :
  gene_wf env slot -> mutate_slot env slot g k = Ok (slot', k') -> gene_wf env slot'.
Proof.
  intros Hwf. unfold mutate_slot, bind, Math_random.
  destruct (Qltb (random_value g k) (1 # 10)); [|intros H; inversion H; subst; exact Hwf].
  destruct (find_course (courses env) (courseId slot)) as [course|] eqn:Ec; [|discriminate].
  destruct (find_teacher (teachers env) (course_teacherId course)) as [teacher|] eqn:Et;
    [|intros H; inversion H; subst; exact Hwf].
  intros H. apply generateRandomSlot_inv in H. destruct H as [Hc [Ht [Hd [Hp Hr]]]].
  unfold gene_wf. repeat split; try assumption.
  exists course, teacher. apply find_course_In_some in Ec. destruct Ec as [Hin _].
  repeat split; assumption.
Qed.

Lemma mutate_slots_wf (env : Env) (g : Oracle) :
  forall (ss ss' : list Slot) (k k' : nat),
    Forall (gene_wf env) ss -> mutate_slots env ss g k = Ok (ss', k') ->
    Forall (gene_wf env) ss'.
Proof.
  induction ss as [|s rest IH]; intros ss' k k' Hwf H; simpl in H.
  - inversion H. constructor.
  - inversion Hwf as [|? ? Hs Hrest]; subst.
    apply bind_inv_ok in H. destruct H as [s' [ka [Hs' H]]].
    apply bind_inv_ok in H. destruct H as [rest' [kb [Hr' H]]].
    inversion H; subst. constructor.
    + apply (mutate_slot_wf env s s' g k ka Hs Hs').
    + apply (IH _ _ _ Hrest Hr').
Qed.

Lemma mutate_wf (env : Env) (individual mutated : Individual) (g : Oracle) (k k' : nat) :
  genes_wf env individual -> mutate individual env g k = Ok (mutated, k') ->
  genes_wf env mutated.
Proof.
  unfold genes_wf, mutate. intros Hwf H.
  apply bind_inv_ok in H. destruct H as [ss [k1 [Hss H]]].
  inversion H; subst. cbn [slots].
  apply (mutate_slots_wf env g _ _ _ _ Hwf Hss).
Qed.

Lemma crossover_wf (env : Env) (parent1 parent2 child : Individual) (g : Oracle)
  (k k' : nat) :
  genes_wf env parent1 -> genes_wf env parent2 ->
  crossover parent1 parent2 g k = Ok (child, k') -> genes_wf env child.
Proof.
  unfold genes_wf. intros H1 H2 H. apply Forall_forall. intros s Hs.
  rewrite Forall_forall in H1, H2.
  destruct (crossover_genes _ _ _ _ _ _ s H Hs); auto.
Qed.

(** X7: every gene of every individual of every generation of a run,
    and of the population the loop ends with, is on a weekday 1..5, in a
    period of the fixed catalog, in a room of the snapshot, for a course
    of the snapshot and with the teacher that course resolves to. *)
Theorem X7_genes_well_formed :
  forall (this : Service) (env : Env) (g : Oracle) (k k0 : nat) (population : Population),
    initializePopulation populationSize env g k = Ok (population, k0) ->
    Forall (genes_wf env) population
    /\ (forall n hist k1,
           ga_history n this env population g k0 = Ok (hist, k1) ->
           Forall (Forall (genes_wf env)) hist)
    /\ (forall n final k2,
           ga_loop n this env population g k0 = Ok (final, k2) ->
           Forall (genes_wf env) final).
Proof.
  intros this env g k k0 population Hinit.
  pose proof (initializePopulation_wf _ _ _ _ _ _ Hinit) as Hwf.
  assert (Hrun := fun n =>
            ga_run_keeps env (genes_wf env)
              (fun x y (E : slots x = slots y) (Hx : genes_wf env x) =>
                 eq_ind (slots x) (Forall (gene_wf env)) Hx (slots y) E)
              (crossover_wf env) (mutate_wf env) this g n population k0 Hwf).
  split; [exact Hwf|]. split.
  - intros n. apply (proj1 (Hrun n)).
  - intros n. apply (proj2 (Hrun n)).
Qed.

Lemma X7_genes_well_formed_witness :
  exists population,
    Forall (genes_wf room_clash_env) population /\ List.length population = 50%nat.
Proof.
  assert (H : exists population k0,
             initializePopulation populationSize room_clash_env oracle_walk 0%nat
             = Ok (population, k0) /\ List.length population = 50%nat).
  { vm_compute. eexists _, _. split; reflexivity. }
  destruct H as (population & k0 & Hinit & Hlen).
  exists population. split; [|exact Hlen].
  apply (X7_genes_well_formed (constructor NaN NaN NaN) room_clash_env oracle_walk
           0%nat k0 population Hinit).
Defined.

(** ** Population size *)

Lemma ga_run_size (this : Service) (env : Env) (g : Oracle) :
  forall (n : nat) (population : Population) (k : nat),
    List.length population = populationSize ->
    (forall hist k1, ga_history n this env population g k = Ok (hist, k1) ->
                     Forall (fun P => List.length P = populationSize) hist)
    /\ (forall final k2, ga_loop n this env population g k = Ok (final, k2) ->
                         List.length final = populationSize).
Proof.
  induction n as [|n IH]; intros population k Hlen; simpl.
  - split; intros x k1 H; inversion H; subst; [constructor | exact Hlen].
  - assert (HP : List.length (evaluate_and_sort env population) = populationSize)
      by (rewrite evaluate_and_sort_length; exact Hlen).
    split.
    + intros hist k1 H.
      apply bind_inv_ok in H. destruct H as [step [ka [Hstep H]]].
      apply generation_body_inv in Hstep. destruct Hstep as [_ Hs].
      destruct step as [p|newPop].
      * inversion H; subst. destruct Hs as [-> _]. constructor; [exact HP | constructor].
      * apply bind_inv_ok in H. destruct H as [rest [kb [Hrest H]]].
        inversion H; subst. destruct Hs as [_ [_ [_ Hnew]]].
        constructor; [exact HP|]. apply (proj1 (IH newPop ka Hnew) _ _ Hrest).
    + intros final k2 H.
      apply bind_inv_ok in H. destruct H as [step [ka [Hstep H]]].
      apply generation_body_inv in Hstep. destruct Hstep as [_ Hs].
      destruct step as [p|newPop].
      * inversion H; subst. destruct Hs as [-> _]. exact HP.
      * destruct Hs as [_ [_ [_ Hnew]]]. apply (proj2 (IH newPop ka Hnew) _ _ H).
Qed.

(** X8: the population keeps its size: started from a population of 50,
    every evaluated generation and the population the loop ends with have
    exactly 50 individuals, 10 elites followed by 40 offspring after each
    generation that did not converge. *)
Theorem X8_population_size :
  forall (this : Service) (env : Env) (g : Oracle) (n : nat) (population : Population)
         (k : nat),
    List.length population = 50%nat ->
    (forall hist k1, ga_history n this env population g k = Ok (hist, k1) ->
                     Forall (fun P => List.length P = 50%nat) hist)
    /\ (forall final k2, ga_loop n this env population g k = Ok (final, k2) ->
                         List.length final = 50%nat)
    /\ (forall newPopulation k',
           generation_body this env population g k = Ok (Next newPopulation, k') ->
           List.length (firstn eliteCount (evaluate_and_sort env population)) = 10%nat
           /\ exists offspring,
               newPopulation
               = firstn eliteCount (evaluate_and_sort env population) ++ offspring
               /\ List.length offspring = 40%nat).
Proof.
  intros this env g n population k Hlen.
  destruct (ga_run_size this env g n population k Hlen) as [H1 H2].
  split; [exact H1|]. split; [exact H2|].
  intros newPopulation k' Hstep. apply generation_body_inv in Hstep.
  destruct Hstep as [_ [_ [[offspring Hnew] [_ Hsize]]]].
  assert (He : List.length (firstn eliteCount (evaluate_and_sort env population)) = 10%nat).
  { rewrite length_firstn, evaluate_and_sort_length, Hlen, eliteCount_10. reflexivity. }
  split; [exact He|]. exists offspring. split; [exact Hnew|].
  rewrite Hnew, length_app, He in Hsize. unfold populationSize in Hsize. lia.
Qed.

Lemma X8_population_size_witness :
  exists final k2,
    ga_loop 1 (constructor NaN NaN NaN) room_clash_env
            (repeat room_clash_individual 50) oracle_walk 0%nat
    = Ok (final, k2)
    /\ List.length final = 50%nat.
Proof.
  assert (H : exists final k2,
             ga_loop 1 (constructor NaN NaN NaN) room_clash_env
                     (repeat room_clash_individual 50) oracle_walk 0%nat
             = Ok (final, k2)).
  { vm_compute. eexists _, _. reflexivity. }
  destruct H as (final & k2 & Hloop).
  exists final, k2. split; [exact Hloop|].
  destruct (X8_population_size (constructor NaN NaN NaN) room_clash_env oracle_walk 1
              (repeat room_clash_individual 50) 0%nat eq_refl) as (_ & Hfinal & _).
  apply (Hfinal final k2 Hloop).
Defined.

(** ** The timetable returned by the driver *)






(** ** Workloads of generated individuals *)





(** ** Thresholds outside the range of the fitness *)

Lemma best_fitness_le_1 (env : Env) (population : Population) :
  best_fitness (evaluate_and_sort env population) <= 1.
Proof.
  destruct (evaluate_and_sort env population) as [|b r] eqn:E; [discriminate|].
  assert (Hb : evaluate env b = b)
    by (apply (evaluate_and_sort_fixed env population); rewrite E; left; reflexivity).
  cbn [best_fitness]. rewrite <- Hb.
  rewrite (proj1 (evaluate_fitness env b)). apply calculateFitness_le_1.
Qed.

(** X11: a threshold above 1 is never reached, so the loop always runs
    its full budget of generations; a threshold of 0 or less is reached
    at once, so the loop stops after the first evaluated generation. *)
Theorem X11_threshold_extremes :
  forall (this : Service) (env : Env) (g : Oracle) (n : nat) (population : Population)
         (k k1 : nat) (hist : list Population),
    ga_history n this env population g k = Ok (hist, k1) ->
    (1 < conflictThreshold this -> List.length hist = n)
    /\ (conflictThreshold this <= 0 -> (0 < n)%nat -> List.length hist = 1%nat).
Proof.
  intros this env g n population k k1 hist H. split.
  - intros Hthr.
    destruct (ga_history_length _ _ _ _ _ _ _ _ H) as [Hle [Hpos Hstop]].
    destruct (Nat.eq_dec (List.length hist) n) as [|Hne]; [assumption|].
    exfalso. assert (Hlt : (List.length hist < n)%nat) by lia.
    specialize (Hstop Hlt). apply Qle_bool_iff in Hstop.
    assert (Hb : best_fitness (last hist []) <= 1).
    { destruct hist as [|P hist'] eqn:Eh; [discriminate|].
      assert (Hin : In (last (P :: hist') []) (P :: hist'))
        by (apply (nth_error_In _ _ (nth_error_last (P :: hist') [] ltac:(discriminate)))).
      destruct (ga_history_sorted _ _ _ _ _ _ _ _ H _ Hin) as [pop ->].
      apply best_fitness_le_1. }
    lra.
  - intros Hthr Hn. destruct n as [|n]; [lia|]. simpl in H.
    apply bind_inv_ok in H. destruct H as [step [ka [Hstep H]]].
    pose proof (generation_body_inv _ _ _ _ _ _ _ Hstep) as [Hne Hs].
    destruct step as [p|newPop]; [inversion H; reflexivity|].
    exfalso. destruct Hs as [Hfalse _].
    assert (Htrue : Qle_bool (conflictThreshold this)
                             (best_fitness (evaluate_and_sort env population)) = true).
    { apply Qle_bool_iff.
      destruct (evaluate_and_sort env population) as [|b r] eqn:E; [congruence|].
      assert (Hb : evaluate env b = b)
        by (apply (evaluate_and_sort_fixed env population); rewrite E; left; reflexivity).
      cbn [best_fitness]. rewrite <- Hb.
      pose proof (proj2 (proj2 (evaluate_fitness env b))). lra. }
    congruence.
Qed.

Lemma X11_threshold_extremes_witness :
  exists hist k1,
    ga_history 2 (constructor NaN (Num 2) NaN) room_clash_env
               [room_clash_individual] oracle_walk 0%nat = Ok (hist, k1)
    /\ List.length hist = 2%nat.
Proof.
  assert (H : exists hist k1,
             ga_history 2 (constructor NaN (Num 2) NaN) room_clash_env
                        [room_clash_individual] oracle_walk 0%nat = Ok (hist, k1)).
  { vm_compute. eexists _, _. reflexivity. }
  destruct H as (hist & k1 & Hh).
  exists hist, k1. split; [exact Hh|].
  destruct (X11_threshold_extremes _ _ _ _ _ _ _ _ Hh) as [Hfull _].
  apply Hfull. reflexivity.
Defined.

(** ** Crossover and mutation: what they keep *)

(** X12: a child starts with no conflicts and fitness 0; each of its
    genes is the gene of a parent at the same index; where the parents
    agree the child agrees, so crossing an individual with itself (or
    with a gene-less individual) returns its genes unchanged. *)
Theorem X12_crossover_inherits :
  forall (parent1 parent2 child : Individual) (g : Oracle) (k k' : nat),
    crossover parent1 parent2 g k = Ok (child, k') ->
    conflicts child = [] /\ fitness child = 0
    /\ (forall i s, nth_error (slots child) i = Some s ->
                    nth_error (slots parent1) i = Some s
                    \/ nth_error (slots parent2) i = Some s)
    /\ (forall i s, nth_error (slots parent1) i = Some s ->
                    nth_error (slots parent2) i = Some s ->
                    nth_error (slots child) i = Some s)
    /\ (slots parent1 = slots parent2 -> slots child = slots parent1)
    /\ (slots parent2 = [] -> slots child = slots parent1)
    /\ (slots parent1 = [] -> slots child = slots parent2).
Proof.
  intros parent1 parent2 child g k k' H.
  assert (Hfields : conflicts child = [] /\ fitness child = 0).
  { unfold crossover in H. apply bind_inv_ok in H. destruct H as [ss [k1 [_ H]]].
    inversion H. split; reflexivity. }
  destruct (crossover_shape parent1 parent2 g k) as [c [Hrun [_ Hnth]]].
  rewrite Hrun in H. inversion H; subst c k'. clear H Hrun.
  destruct Hfields as [Hc Hf].
  split; [exact Hc|]. split; [exact Hf|].
  split.
  { intros i s Hi. rewrite Hnth in Hi.
    destruct (nth_error (slots parent1) i) as [x|], (nth_error (slots parent2) i) as [y|];
      try discriminate; try (inversion Hi; subst; auto; fail).
    destruct (Qltb (random_value g (k + i)) (1 # 2)); inversion Hi; subst; auto. }
  split.
  { intros i s H1 H2. rewrite Hnth, H1, H2.
    destruct (Qltb (random_value g (k + i)) (1 # 2)); reflexivity. }
  split.
  { intros Heq. apply nth_error_ext. intros i. rewrite Hnth, <- Heq.
    destruct (nth_error (slots parent1) i); [|reflexivity].
    destruct (Qltb (random_value g (k + i)) (1 # 2)); reflexivity. }
  split.
  { intros Heq. apply nth_error_ext. intros i. rewrite Hnth, Heq.
    destruct (nth_error (slots parent1) i); destruct i; reflexivity. }
  intros Heq. apply nth_error_ext. intros i. rewrite Hnth, Heq.
  destruct (nth_error (slots parent2) i); destruct i; reflexivity.
Qed.

Lemma X12_crossover_inherits_witness :
  exists child k',
    crossover room_clash_individual room_clash_individual oracle_walk 0%nat
    = Ok (child, k')
    /\ slots child = [gene_A; gene_B].
Proof.
  destruct (crossover_shape room_clash_individual room_clash_individual oracle_walk 0%nat)
    as [child [Hrun _]].
  exists child. eexists. split; [exact Hrun|].
  destruct (X12_crossover_inherits _ _ _ _ _ _ Hrun) as (_ & _ & _ & _ & Hsame & _).
  apply Hsame. reflexivity.
Defined.

Lemma mutate_slots_unselected (env : Env) (g : Oracle) :
  forall (ss : list Slot) (k : nat),
    (forall i, (i < List.length ss)%nat ->
               Qltb (random_value g (k + i)) (1 # 10) = false) ->
    mutate_slots env ss g k = Ok (ss, (k + List.length ss)%nat).
Proof.
  induction ss as [|s ss IH]; intros k Hdraw; simpl.
  - unfold ret. rewrite Nat.add_0_r. reflexivity.
  - assert (Hs : mutate_slot env s g k = Ok (s, S k)).
    { unfold mutate_slot, bind, Math_random.
      specialize (Hdraw 0%nat ltac:(simpl; lia)). rewrite Nat.add_0_r in Hdraw.
      rewrite Hdraw. reflexivity. }
    rewrite (bind_ok _ _ _ _ _ _ Hs).
    assert (Hrest : mutate_slots env ss g (S k) = Ok (ss, (S k + List.length ss)%nat)).
    { apply IH. intros i Hi. replace (S k + i)%nat with (k + S i)%nat by lia.
      apply Hdraw. simpl. lia. }
    rewrite (bind_ok _ _ _ _ _ _ Hrest). unfold ret. f_equal. f_equal. lia.
Qed.

(** X13: mutation never changes the number of genes, nor the conflicts
    and fitness fields it copies; and when none of the per-gene draws is
    below 0.1 it returns the individual unchanged after one draw per
    gene. *)
Theorem X13_mutate_keeps :
  forall (individual : Individual) (env : Env) (g : Oracle) (k : nat),
    (forall mutated k',
        mutate individual env g k = Ok (mutated, k') ->
        List.length (slots mutated) = List.length (slots individual)
        /\ conflicts mutated = conflicts individual
        /\ fitness mutated = fitness individual)
    /\ ((forall i, (i < List.length (slots individual))%nat ->
                   Qltb (random_value g (k + i)) (1 # 10) = false) ->
        mutate individual env g k
        = Ok (individual, (k + List.length (slots individual))%nat)).
Proof.
  intros individual env g k. split.
  - intros mutated k' H. unfold mutate in H.
    apply bind_inv_ok in H. destruct H as [ss [k1 [Hss H]]].
    inversion H; subst. cbn [slots conflicts fitness].
    split; [apply (mutate_slots_length _ _ _ _ _ _ Hss) | split; reflexivity].
  - intros Hdraw. unfold mutate.
    rewrite (bind_ok _ _ _ _ _ _ (mutate_slots_unselected env g _ k Hdraw)).
    destruct individual. reflexivity.
Qed.

Lemma X13_mutate_keeps_witness :
  mutate room_clash_individual room_clash_env oracle_half 0%nat
  = Ok (room_clash_individual, 2%nat).
Proof.
  destruct (X13_mutate_keeps room_clash_individual room_clash_env oracle_half 0%nat)
    as [_ H].
  apply H. intros i Hi. reflexivity.
Defined.

(** ** The sort of the generation loop *)

Lemma insert_desc_stable (q : Q) (x : Individual) (l : Population) :
  filter (has_fitness q) (insert_desc x l) = filter (has_fitness q) (x :: l).
Proof.
  induction l as [|y l IH]; [reflexivity|].
  cbn [insert_desc]. destruct (Qgtb (fitness y) (fitness x)) eqn:E; [|reflexivity].
  apply Qgtb_lt in E. cbn [filter] in *. rewrite IH.
  destruct (has_fitness q x) eqn:Ex; [|reflexivity].
  destruct (has_fitness q y) eqn:Ey; [|reflexivity].
  unfold has_fitness in Ex, Ey. apply Qeq_bool_iff in Ex, Ey. exfalso. lra.
Qed.

Lemma sort_desc_stable (q : Q) (l : Population) :
  filter (has_fitness q) (sort_desc l) = filter (has_fitness q) l.
Proof.
  induction l as [|x l IH]; [reflexivity|].
  simpl sort_desc. rewrite insert_desc_stable. simpl. rewrite IH. reflexivity.
Qed.

(** X14: after evaluation and sorting the population holds the same
    evaluated individuals, in non-increasing order of fitness, and
    individuals of equal fitness keep their earlier relative order. *)
Theorem X14_sort_stable_descending :
  forall (env : Env) (population : Population),
    Permutation (evaluate_and_sort env population) (map (evaluate env) population)
    /\ StronglySorted (fun a b => fitness b <= fitness a)
                      (evaluate_and_sort env population)
    /\ (forall q,
           filter (has_fitness q) (evaluate_and_sort env population)
           = filter (has_fitness q) (map (evaluate env) population))
    /\ (forall x, In x (evaluate_and_sort env population) ->
                  fitness x <= best_fitness (evaluate_and_sort env population)).
Proof.
  intros env population.
  split; [apply evaluate_and_sort_perm|].
  split; [apply sort_desc_sorted|].
  split; [intros q; apply sort_desc_stable|].
  intros x. apply evaluate_and_sort_best.
Qed.

(** ** How many alternatives and suggestions *)

Lemma timeSlots_disjoint (p q : string * string) :
  In p timeSlots -> In q timeSlots ->
  timeOverlap (fst p) (snd p) (fst q) (snd q) = true -> p = q.
Proof.
  simpl. intros Hp Hq.
  destruct Hp as [<-|[<-|[<-|[<-|[<-|[]]]]]];
    destruct Hq as [<-|[<-|[<-|[<-|[<-|[]]]]]];
    intros H; try reflexivity; vm_compute in H; discriminate.
Qed.

Lemma catalog_distinct : NoDup catalog.
Proof.
  unfold catalog, days, timeSlots. cbn [list_prod map app].
  repeat (constructor; [cbn [In]; intuition discriminate|]).
  constructor.
Qed.

Lemma filter_complement_length {A : Type} (p : A -> bool) (l : list A) :
  (List.length (filter p l) + List.length (filter (fun x => negb (p x)) l)
   = List.length l)%nat.
Proof.
  induction l as [|x l IH]; simpl; [reflexivity|].
  destruct (p x); simpl; lia.
Qed.

(** The catalog entries a teacher's genes block are entries those genes
    occupy. *)
Lemma blocked_entries (slot : Slot) (allSlots : list Slot) :
  Forall (fun s => In (startTime s, endTime s) timeSlots) allSlots ->
  incl (filter (fun dt => hasConflict slot allSlots (fst dt) (snd dt)) catalog)
       (map gene_entry (teacher_genes (teacherId slot) allSlots)).
Proof.
  intros Hcat dt Hdt. apply filter_In in Hdt. destruct Hdt as [Hin Hb].
  apply hasConflict_iff in Hb. destruct Hb as [s [Hs [Ht [Hd Hov]]]].
  destruct dt as [d p]. cbn [fst snd] in *.
  apply in_prod_iff in Hin. destruct Hin as [_ Hp].
  pose proof (proj1 (Forall_forall _ _) Hcat s Hs) as Hsp.
  pose proof (timeSlots_disjoint (startTime s, endTime s) p Hsp Hp Hov) as Heq.
  apply in_map_iff. exists s. split.
  - unfold gene_entry. rewrite Hd, Heq. reflexivity.
  - apply filter_In. split; [exact Hs | apply String.eqb_eq; exact Ht].
Qed.

(** X16: when every gene sits in a catalog period and the gene's teacher
    has at most 22 genes, exactly three alternatives are proposed; the
    alternatives are always distinct entries of the catalog, none of which
    overlaps a gene of that teacher. *)
Theorem X16_three_alternatives :
  forall (slot : Slot) (allSlots : list Slot),
    Forall (fun s => In (startTime s, endTime s) timeSlots) allSlots ->
    (List.length (teacher_genes (teacherId slot) allSlots) <= 22)%nat ->
    List.length (findAlternativeTimes slot allSlots) = 3%nat
    /\ NoDup (findAlternativeTimes slot allSlots)
    /\ (forall a, In a (findAlternativeTimes slot allSlots) ->
                  In (alt_dayOfWeek a, (alt_startTime a, alt_endTime a)) catalog
                  /\ hasConflict slot allSlots (alt_dayOfWeek a)
                                 (alt_startTime a, alt_endTime a) = false).
Proof.
  intros slot allSlots Hcat Hn.
  rewrite findAlternativeTimes_spec. unfold first_three_free.
  set (blocked := fun dt : Z * (string * string) =>
                    hasConflict slot allSlots (fst dt) (snd dt)).
  assert (Hblocked : (List.length (filter blocked catalog) <= 22)%nat).
  { apply Nat.le_trans with
      (List.length (map gene_entry (teacher_genes (teacherId slot) allSlots))).
    - apply NoDup_incl_length; [apply NoDup_filter; apply catalog_distinct|].
      apply blocked_entries. exact Hcat.
    - rewrite length_map. exact Hn. }
  pose proof (filter_complement_length blocked catalog) as Hsum.
  change (List.length catalog) with 25%nat in Hsum.
  split.
  { rewrite length_firstn, length_map.
    change (fun dt : Z * (string * string) => negb (hasConflict slot allSlots (fst dt) (snd dt)))
      with (fun dt => negb (blocked dt)). lia. }
  assert (Hfree : NoDup (map alternative_of
                             (filter (fun dt => negb (blocked dt)) catalog))).
  { apply Finite.Injective_map_NoDup; [|apply NoDup_filter; apply catalog_distinct].
    intros [d1 [s1 e1]] [d2 [s2 e2]] E. inversion E. reflexivity. }
  split.
  { rewrite <- (firstn_skipn 3) in Hfree. apply NoDup_app_remove_r in Hfree. exact Hfree. }
  intros a Ha. apply firstn_In in Ha. apply in_map_iff in Ha.
  destruct Ha as [[d [st en]] [<- Hdt]]. apply filter_In in Hdt.
  destruct Hdt as [Hin Hb]. cbn [alternative_of alt_dayOfWeek alt_startTime alt_endTime fst snd].
  split; [exact Hin|]. apply negb_true_iff in Hb. exact Hb.
Qed.

Lemma X16_three_alternatives_witness :
  List.length (findAlternativeTimes gene_A [gene_A; gene_B]) = 3%nat.
Proof.
  destruct (X16_three_alternatives gene_A [gene_A; gene_B]) as [H _].
  - repeat constructor; simpl; auto.
  - simpl. lia.
  - exact H.
Defined.

Lemma unordered_pairs_members (ss : list Slot) (s1 s2 : Slot) :
  In (s1, s2) (unordered_pairs ss) -> In s1 ss /\ In s2 ss.
Proof.
  induction ss as [|a rest IH]; simpl; [tauto|].
  intros H. apply in_app_or in H. destruct H as [H|H].
  - apply in_map_iff in H. destruct H as [b [E Hb]]. inversion E; subst. auto.
  - destruct (IH H). auto.
Qed.

(** The origin of a recorded pair conflict: two genes of the individual
    that clash. *)
Lemma teacher_recorded_inv (individual : Individual) (env : Env) (s1 s2 : Slot) :
  In (TEACHER_CONFLICT s1 s2) (snd (calculateFitness individual env)) ->
  In s1 (slots individual) /\ In s2 (slots individual) /\ teacher_clash s1 s2 = true.
Proof.
  change (snd (calculateFitness individual env))
    with (snd (fitness_scan (slots individual) env)).
  intros H.
  assert (H' : In (TEACHER_CONFLICT s1 s2)
                  (filter is_teacher_conflict
                          (snd (fitness_scan (slots individual) env))))
    by (apply filter_In; split; [exact H | reflexivity]).
  rewrite fitness_scan_events, !filter_app, filter_teacher_scan in H'.
  rewrite (filter_flat_map_nil _ _ _
             (fun e => proj1 (workload_events_kinds (teachers env) e))) in H'.
  rewrite (filter_flat_map_nil _ _ _
             (fun s => proj1 (capacity_events_kinds (courses env) (rooms env) s))) in H'.
  rewrite !app_nil_r in H'. apply in_map_iff in H'.
  destruct H' as [[a b] [E Hp]]. inversion E; subst.
  apply filter_In in Hp. destruct Hp as [Hp Hc].
  destruct (unordered_pairs_members _ _ _ Hp). auto.
Qed.

Lemma room_recorded_inv (individual : Individual) (env : Env) (s1 s2 : Slot) :
  In (ROOM_CONFLICT s1 s2) (snd (calculateFitness individual env)) ->
  In s1 (slots individual) /\ In s2 (slots individual) /\ room_clash s1 s2 = true.
Proof.
  change (snd (calculateFitness individual env))
    with (snd (fitness_scan (slots individual) env)).
  intros H.
  assert (H' : In (ROOM_CONFLICT s1 s2)
                  (filter is_room_conflict
                          (snd (fitness_scan (slots individual) env))))
    by (apply filter_In; split; [exact H | reflexivity]).
  rewrite fitness_scan_events, !filter_app, filter_room_scan in H'.
  rewrite (filter_flat_map_nil _ _ _
             (fun e => proj1 (proj2 (workload_events_kinds (teachers env) e)))) in H'.
  rewrite (filter_flat_map_nil _ _ _
             (fun s => proj1 (proj2 (capacity_events_kinds (courses env) (rooms env) s))))
    in H'.
  rewrite !app_nil_r in H'. apply in_map_iff in H'.
  destruct H' as [[a b] [E Hp]]. inversion E; subst.
  apply filter_In in Hp. destruct Hp as [Hp Hc].
  destruct (unordered_pairs_members _ _ _ Hp). auto.
Qed.

Lemma room_suggestions_shape (rs : list Room) (cs : list Conflict) :
  forallb is_room_change (flat_map (room_suggestion rs) cs) = true
  /\ (List.length (flat_map (room_suggestion rs) cs)
      <= List.length (filter is_capacity_conflict cs))%nat.
Proof.
  induction cs as [|c cs [IH1 IH2]]; [split; [reflexivity | simpl; lia]|].
  cbn [flat_map]. rewrite forallb_app, length_app, IH1.
  destruct c; cbn [room_suggestion filter is_capacity_conflict];
    try (split; [reflexivity | simpl; lia]).
  destruct (filter (suitable course) rs); split; try reflexivity; simpl; lia.
Qed.

Lemma time_suggestions_shape (allSlots : list Slot) (cs : list Conflict) :
  forallb is_time_change (flat_map (time_suggestion allSlots) cs) = true
  /\ List.length (flat_map (time_suggestion allSlots) cs)
     = (List.length (filter is_teacher_conflict cs)
        + List.length (filter is_room_conflict cs))%nat.
Proof.
  induction cs as [|c cs [IH1 IH2]]; [split; reflexivity|].
  cbn [flat_map]. rewrite forallb_app, length_app, IH1, IH2.
  destruct c; split; try reflexivity; simpl; lia.
Qed.

Lemma kind_excludes (l : list Suggestion) (x : Suggestion) :
  forallb is_room_change l = true -> In x l -> is_time_change x = false.
Proof.
  intros H Hx. pose proof (proj1 (forallb_forall _ _) H x Hx) as Hk.
  destruct x; [reflexivity | discriminate].
Qed.

(** X17: the suggestions for an evaluated individual are its room
    changes followed by its time changes; there is one time change per
    recorded teacher or room conflict, at most one room change per gene
    over capacity, and nothing for an exceeded workload or a clash with an
    existing timetable.  A suggested room is a CLASSROOM of the snapshot
    with strictly more seats than the gene's present room; a time change
    concerns a gene of the individual that clashes with another of its
    genes, and carries the alternatives computed against the individual's
    own genes. *)
Theorem X17_suggestions_of_evaluation :
  forall (x : Individual) (env : Env),
    (exists rc tc,
        generateSuggestions (evaluate env x) env = rc ++ tc
        /\ forallb is_room_change rc = true
        /\ forallb is_time_change tc = true
        /\ List.length tc
           = (List.length (filter is_teacher_conflict (conflicts (evaluate env x)))
              + List.length (filter is_room_conflict (conflicts (evaluate env x))))%nat
        /\ (List.length rc <= List.length (filter (over_capacity env) (slots x)))%nat)
    /\ (forall slot r,
           In (ROOM_CHANGE slot r) (generateSuggestions (evaluate env x) env) ->
           In slot (slots x) /\ In r (rooms env) /\ roomType r = "CLASSROOM"
           /\ exists cur, find_room (rooms env) (roomId slot) = Some cur
                          /\ (capacity cur < capacity r)%Z)
    /\ (forall slot alts,
           In (TIME_CHANGE slot alts) (generateSuggestions (evaluate env x) env) ->
           alts = findAlternativeTimes slot (slots x)
           /\ In slot (slots x)
           /\ exists other, In other (slots x)
                            /\ (teacher_clash slot other = true
                                \/ room_clash slot other = true)).
Proof.
  intros x env.
  destruct (evaluate_fitness env x) as [_ [Hcs _]].
  unfold generateSuggestions. rewrite evaluate_slots, Hcs.
  destruct (room_suggestions_shape (rooms env) (snd (calculateFitness x env)))
    as [Hr1 Hr2].
  destruct (time_suggestions_shape (slots x) (snd (calculateFitness x env)))
    as [Ht1 Ht2].
  split.
  { eexists _, _. split; [reflexivity|]. split; [exact Hr1|]. split; [exact Ht1|].
    split; [exact Ht2|].
    eapply Nat.le_trans; [exact Hr2|].
    change (snd (calculateFitness x env)) with (snd (fitness_scan (slots x) env)).
    rewrite filter_capacity_recorded, capacity_events_length. apply Nat.le_refl. }
  split.
  - intros slot r H. apply in_app_or in H. destruct H as [H|H].
    + apply in_flat_map in H. destruct H as [c [Hc Hin]].
      destruct c; cbn [room_suggestion] in Hin; try solve [destruct Hin].
      destruct (filter (suitable course) (rooms env)) as [|r0 rest] eqn:Ef;
        [destruct Hin|].
      destruct Hin as [E|[]]. inversion E; subst.
      assert (Hr : In r (filter (suitable course) (rooms env)))
        by (rewrite Ef; left; reflexivity).
      apply filter_In in Hr. destruct Hr as [Hr Hs].
      apply suitable_iff in Hs. destruct Hs as [m [Em [Hm Hty]]].
      apply capacity_recorded_iff in Hc.
      destruct Hc as [Hslot [_ [Hroom [m' [Em' [_ Hlt]]]]]].
      assert (m' = m) by congruence. subst m'.
      repeat split; try assumption. exists room. split; [exact Hroom | lia].
    + pose proof (proj1 (forallb_forall _ _) Ht1 _ H) as Hk. discriminate.
  - intros slot alts H. apply in_app_or in H. destruct H as [H|H].
    + pose proof (kind_excludes _ _ Hr1 H) as Hk. discriminate.
    + apply in_flat_map in H. destruct H as [c [Hc Hin]].
      destruct c; cbn [time_suggestion] in Hin; try solve [destruct Hin].
      * destruct Hin as [E|[]]. inversion E; subst.
        destruct (teacher_recorded_inv _ _ _ _ Hc) as [H1 [H2 H3]].
        split; [reflexivity|]. split; [exact H1|]. exists slot2. auto.
      * destruct Hin as [E|[]]. inversion E; subst.
        destruct (room_recorded_inv _ _ _ _ Hc) as [H1 [H2 H3]].
        split; [reflexivity|]. split; [exact H1|]. exists slot2. auto.
Qed.

Lemma X17_suggestions_of_evaluation_witness :
  In (ROOM_CHANGE gene_A {| room_id := "r2"; capacity := 40; roomType := "CLASSROOM" |})
     (generateSuggestions (evaluate crowded_env crowded_individual) crowded_env)
  /\ exists cur, find_room (rooms crowded_env) (roomId gene_A) = Some cur
                 /\ (capacity cur < 40)%Z.
Proof.
  assert (H : In (ROOM_CHANGE gene_A
                    {| room_id := "r2"; capacity := 40; roomType := "CLASSROOM" |})
                 (generateSuggestions (evaluate crowded_env crowded_individual)
                                      crowded_env))
    by (vm_compute; left; reflexivity).
  split; [exact H|].
  destruct (X17_suggestions_of_evaluation crowded_individual crowded_env)
    as (_ & Hroom & _).
  destruct (Hroom _ _ H) as (_ & _ & _ & Hcur). exact Hcur.
Defined.

Lemma X1_capacity_records_witness :
  maxStudents {| course_id := "cA"; course_teacherId := "tA";
                 course_creditHours := 3; maxStudents := Some 20%Z |} <> None.
Proof.
  destruct (X1_capacity_records crowded_individual crowded_env) as (_ & _ & H).
  apply (H gene_A _ {| room_id := "r1"; capacity := 10; roomType := "LAB" |}).
  vm_compute. left. reflexivity.
Defined.

Lemma X3_clash_lowers_fitness_witness :
  In (ROOM_CONFLICT gene_A gene_B)
     (snd (calculateFitness room_clash_individual room_clash_env))
  /\ fst (calculateFitness room_clash_individual room_clash_env) <= 6 # 10.
Proof.
  destruct (X3_clash_lowers_fitness room_clash_individual room_clash_env
              0%nat 1%nat gene_A gene_B) as (_ & H & _).
  - lia.
  - reflexivity.
  - reflexivity.
  - apply H. vm_compute. reflexivity.
Defined.

(** ** The outcome of a request *)

Lemma validateInputs_cases (ss : list Student) (ts : list Teacher) (cs : list Course)
  (rs : list Room) (g : Oracle) (k : nat) :
  (ss <> [] /\ ts <> [] /\ cs <> [] /\ rs <> []
   /\ validateInputs ss ts cs rs g k = Ok (tt, k))
  \/ ((ss = [] \/ ts = [] \/ cs = [] \/ rs = [])
      /\ exists msg, validateInputs ss ts cs rs g k = Throw (Error msg) /\ msg <> "").
Proof.
  unfold validateInputs.
  destruct ss; [right; split; [auto | eexists; split; [reflexivity | discriminate]]|].
  destruct ts; [right; split; [auto | eexists; split; [reflexivity | discriminate]]|].
  destruct cs; [right; split; [auto | eexists; split; [reflexivity | discriminate]]|].
  destruct rs; [right; split; [auto | eexists; split; [reflexivity | discriminate]]|].
  left. repeat split; discriminate.
Qed.

(** X18: a request is answered exactly when students, teachers, courses and
    rooms are all non-empty, whatever the random draws and the existing
    timetables; it writes exactly one log record, whose status is SUCCESS
    exactly when the request is answered and FAILED otherwise; the record
    of an answered request carries the returned timetable with its
    conflicts and suggestions, the record of a failed one carries none. *)
Theorem X18_request_outcome :
  forall (this : Service) (env : Env) (semester : Z) (academicYear : string)
         (g : Oracle) (k : nat),
    (returned (fst (generateTimetable this env semester academicYear g k)) = true
     <-> students env <> [] /\ teachers env <> [] /\ courses env <> []
         /\ rooms env <> [])
    /\ exists record,
         snd (generateTimetable this env semester academicYear g k) = [record]
         /\ operation record = "GENERATE"
         /\ (status record = "SUCCESS"
             <-> returned (fst (generateTimetable this env semester academicYear g k))
                 = true)
         /\ (status record = "FAILED"
             <-> returned (fst (generateTimetable this env semester academicYear g k))
                 = false)
         /\ (forall response,
                fst (generateTimetable this env semester academicYear g k) = Ok response ->
                success response = true
                /\ outputData record = Some (timetable response)
                /\ log_conflicts record = response_conflicts response
                /\ log_suggestions record = response_suggestions response)
         /\ (forall e,
                fst (generateTimetable this env semester academicYear g k) = Throw e ->
                outputData record = None /\ log_conflicts record = []
                /\ log_suggestions record = []).
Proof.
  intros this env semester academicYear g k. unfold generateTimetable.
  destruct (validateInputs_cases (students env) (teachers env) (courses env) (rooms env)
              g k) as [(H1 & H2 & H3 & H4 & Hv) | (Hempty & msg & Hv & Hmsg)].
  - destruct (geneticAlgorithm_run this env semester academicYear g k H4)
      as (population & k0 & hist & k1 & best & _ & _ & Hga & _).
    rewrite (bind_ok _ _ _ _ _ _ Hv), Hga. cbn [fst snd returned].
    split; [tauto|].
    eexists. split; [reflexivity|]. split; [reflexivity|].
    split; [split; reflexivity|].
    split; [split; discriminate|].
    split.
    + intros response E. inversion E; subst. repeat split.
    + intros e E. discriminate.
  - rewrite (bind_throw _ _ _ _ _ Hv). cbn [fst snd returned error_message].
    split.
    { split; [discriminate|]. intros (H1 & H2 & H3 & H4).
      destruct Hempty as [H|[H|[H|H]]]; contradiction. }
    assert (Hst : status (logAIOperation "GENERATE" None (Some msg)) = "FAILED").
    { cbn [status logAIOperation]. destruct (String.eqb msg "") eqn:E; [|reflexivity].
      apply String.eqb_eq in E. contradiction. }
    eexists. split; [reflexivity|]. split; [reflexivity|].
    rewrite Hst.
    split; [split; discriminate|].
    split; [split; reflexivity|].
    split.
    + intros response E. discriminate.
    + intros e E. repeat split.
Qed.

Lemma X18_request_outcome_witness :
  returned (fst (generateTimetable (constructor NaN NaN NaN) room_clash_env 3 "2024-25"
                                   oracle_walk 0%nat)) = true.
Proof.
  destruct (X18_request_outcome (constructor NaN NaN NaN) room_clash_env 3 "2024-25"
              oracle_walk 0%nat) as [H _].
  apply H. repeat split; discriminate.
Defined.

(* ================================================================== *)
(** * The evaluator in binary64 *)
(* ================================================================== *)

(** ** The workloads object and its prototype *)

Lemma own_define_same (o : Binary64.JsObject) (k : string) (v : Binary64.jsval) :
  Binary64.own (Binary64.define o k v) k = Some v.
Proof.
  induction o as [|[k' v'] o IH]; simpl.
  - rewrite String.eqb_refl. reflexivity.
  - destruct (String.eqb k' k) eqn:E; simpl; rewrite E; [reflexivity | exact IH].
Qed.

Lemma own_define_other (o : Binary64.JsObject) (k k2 : string) (v : Binary64.jsval) :
  k <> k2 -> Binary64.own (Binary64.define o k v) k2 = Binary64.own o k2.
Proof.
  intros Hne. induction o as [|[k' v'] o IH]; simpl.
  - apply String.eqb_neq in Hne. rewrite Hne. reflexivity.
  - destruct (String.eqb k' k) eqn:E; simpl.
    + apply String.eqb_eq in E. subst k'.
      apply String.eqb_neq in Hne. rewrite Hne. reflexivity.
    + rewrite IH. reflexivity.
Qed.

Lemma own_set_same (o : Binary64.JsObject) (k : string) (v : Binary64.jsval) :
  k <> "__proto__" -> Binary64.own (Binary64.obj_set o k v) k = Some v.
Proof.
  intros Hk. unfold Binary64.obj_set. apply String.eqb_neq in Hk. rewrite Hk.
  apply own_define_same.
Qed.

Lemma own_set_other (o : Binary64.JsObject) (k k2 : string) (v : Binary64.jsval) :
  k <> k2 -> Binary64.own (Binary64.obj_set o k v) k2 = Binary64.own o k2.
Proof.
  intros Hne. unfold Binary64.obj_set.
  destruct (String.eqb k "__proto__"); [reflexivity | apply own_define_other; exact Hne].
Qed.

(** No assignment creates an own property [__proto__]. *)
Lemma own_set_proto (o : Binary64.JsObject) (k : string) (v : Binary64.jsval) :
  Binary64.own (Binary64.obj_set o k v) "__proto__" = Binary64.own o "__proto__".
Proof.
  unfold Binary64.obj_set. destruct (String.eqb k "__proto__") eqn:E; [reflexivity|].
  apply String.eqb_neq in E. apply own_define_other. exact E.
Qed.

Lemma own_key (o : Binary64.JsObject) (k : string) :
  Binary64.own o k <> None <-> In k (map fst o).
Proof.
  induction o as [|[k' v'] o IH]; simpl.
  - split; [congruence | tauto].
  - destruct (String.eqb k' k) eqn:E.
    + apply String.eqb_eq in E. split; [auto | discriminate].
    + apply String.eqb_neq in E. rewrite IH. split; [auto | intros [H|H]; congruence].
Qed.

Lemma own_entry (o : Binary64.JsObject) (k : string) (v : Binary64.jsval) :
  NoDup (map fst o) -> (In (k, v) o <-> Binary64.own o k = Some v).
Proof.
  induction o as [|[k' v'] o IH]; simpl; intros Hnd.
  - split; [tauto | discriminate].
  - inversion Hnd as [|? ? Hni Hnd']; subst.
    destruct (String.eqb k' k) eqn:E.
    + apply String.eqb_eq in E. subst k'. split.
      * intros [H | H]; [congruence|].
        exfalso. apply Hni. apply (in_map fst) in H. exact H.
      * intros H. left. congruence.
    + apply String.eqb_neq in E. rewrite <- (IH Hnd'). split.
      * intros [H | H]; [congruence | exact H].
      * intros H. right. exact H.
Qed.

Lemma set_keeps_distinct (o : Binary64.JsObject) (k : string) (v : Binary64.jsval) :
  NoDup (map fst o) -> NoDup (map fst (Binary64.obj_set o k v)).
Proof.
  unfold Binary64.obj_set. destruct (String.eqb k "__proto__"); [tauto|].
  induction o as [|[k' v'] o IH]; simpl; intros Hnd.
  - constructor; [tauto | constructor].
  - inversion Hnd as [|? ? Hni Hnd']; subst.
    destruct (String.eqb k' k) eqn:E; simpl; [exact Hnd|].
    constructor; [|apply IH; exact Hnd'].
    intros Hin. apply own_key in Hin. apply String.eqb_neq in E.
    rewrite own_define_other in Hin by congruence.
    apply own_key in Hin. contradiction.
Qed.

(** The first loop: a property equal to 0 for every teacher id but
    [__proto__]. *)
Lemma workloads_first_loop (ts : list Binary64.Teacher) :
  forall o k,
    Binary64.own
      (fold_left (fun o teacher =>
                    Binary64.obj_set o (Binary64.teacher_id teacher) (Binary64.Num 0)) ts o) k
    = if existsb (fun t => String.eqb (Binary64.teacher_id t) k) ts
         && negb (String.eqb k "__proto__")
      then Some (Binary64.Num 0)
      else Binary64.own o k.
Proof.
  induction ts as [|t ts IH]; intros o k; simpl; [reflexivity|].
  rewrite IH. destruct (String.eqb k "__proto__") eqn:Ep.
  - rewrite !andb_false_r. apply String.eqb_eq in Ep. subst k. apply own_set_proto.
  - rewrite !andb_true_r.
    destruct (existsb (fun t0 => String.eqb (Binary64.teacher_id t0) k) ts).
    + rewrite orb_true_r. reflexivity.
    + rewrite orb_false_r. destruct (String.eqb (Binary64.teacher_id t) k) eqn:E.
      * apply String.eqb_eq in E. subst k. apply own_set_same.
        apply String.eqb_neq. exact Ep.
      * apply own_set_other. apply String.eqb_neq. exact E.
Qed.

Lemma add_duration_distinct (ss : list Slot) :
  forall o, NoDup (map fst o) -> NoDup (map fst (fold_left Binary64.add_duration ss o)).
Proof.
  induction ss as [|s ss IH]; intros o Hnd; simpl; [exact Hnd|].
  apply IH. unfold Binary64.add_duration.
  destruct (Binary64.obj_get o (teacherId s)); try apply set_keeps_distinct; exact Hnd.
Qed.

Lemma first_loop_distinct (ts : list Binary64.Teacher) :
  forall o, NoDup (map fst o) ->
    NoDup (map fst (fold_left (fun o teacher =>
                                 Binary64.obj_set o (Binary64.teacher_id teacher)
                                                  (Binary64.Num 0)) ts o)).
Proof.
  induction ts as [|t ts IH]; intros o Hnd; simpl; [exact Hnd|].
  apply IH. apply set_keeps_distinct. exact Hnd.
Qed.

Lemma workloads_distinct (ss : list Slot) (ts : list Binary64.Teacher) :
  NoDup (map fst (Binary64.calculateTeacherWorkloads ss ts)).
Proof.
  unfold Binary64.calculateTeacherWorkloads. apply add_duration_distinct.
  apply first_loop_distinct. constructor.
Qed.

(** A gene of another teacher leaves a teacher's property alone. *)
Lemma add_duration_other (o : Binary64.JsObject) (s : Slot) (k : string) :
  teacherId s <> k ->
  Binary64.own (Binary64.add_duration o s) k = Binary64.own o k.
Proof.
  intros Hne. unfold Binary64.add_duration.
  destruct (Binary64.obj_get o (teacherId s)); try apply own_set_other; auto.
Qed.

(** A gene of the teacher adds its duration to the teacher's number. *)
Lemma add_duration_same (o : Binary64.JsObject) (s : Slot) (w : float) :
  teacherId s <> "__proto__" ->
  Binary64.own o (teacherId s) = Some (Binary64.Num w) ->
  Binary64.own (Binary64.add_duration o s) (teacherId s)
  = Some (Binary64.Num (PrimFloat.add w (Binary64.duration s))).
Proof.
  intros Hk Ho. unfold Binary64.add_duration, Binary64.obj_get. rewrite Ho.
  cbn [Binary64.plus]. apply own_set_same. exact Hk.
Qed.

Lemma workloads_second_loop (k : string) (ss : list Slot) :
  k <> "__proto__" ->
  forall o w,
    Binary64.own o k = Some (Binary64.Num w) ->
    Binary64.own (fold_left Binary64.add_duration ss o) k
    = Some (Binary64.Num
              (fold_left (fun w slot => PrimFloat.add w (Binary64.duration slot))
                         (teacher_genes k ss) w)).
Proof.
  intros Hk. induction ss as [|s ss IH]; intros o w Ho; [exact Ho|].
  cbn [fold_left]. unfold teacher_genes. cbn [filter].
  destruct (String.eqb (teacherId s) k) eqn:E.
  - apply String.eqb_eq in E. subst k. cbn [fold_left].
    apply IH. apply add_duration_same; assumption.
  - apply String.eqb_neq in E. apply IH. rewrite add_duration_other; assumption.
Qed.

Lemma find_teacher_id (ts : list Binary64.Teacher) (k : string) (t : Binary64.Teacher) :
  Binary64.find_teacher ts k = Some t ->
  existsb (fun t0 => String.eqb (Binary64.teacher_id t0) k) ts = true
  /\ Binary64.teacher_id t = k.
Proof.
  unfold Binary64.find_teacher. intros H. apply find_some in H. destruct H as [Hin Hk].
  split; [apply existsb_exists; exists t; auto | apply String.eqb_eq; exact Hk].
Qed.

(** The workload of a teacher of the snapshot: the durations of the
    teacher's genes added up in gene order. *)
Lemma workload_accumulated (ss : list Slot) (ts : list Binary64.Teacher) (k : string)
  (t : Binary64.Teacher) :
  Binary64.find_teacher ts k = Some t -> k <> "__proto__" ->
  Binary64.own (Binary64.calculateTeacherWorkloads ss ts) k
  = Some (Binary64.Num (Binary64.teacher_hours k ss)).
Proof.
  intros Hf Hk. unfold Binary64.calculateTeacherWorkloads, Binary64.teacher_hours.
  apply workloads_second_loop; [exact Hk|].
  rewrite workloads_first_loop. destruct (find_teacher_id _ _ _ Hf) as [-> _].
  apply String.eqb_neq in Hk. rewrite Hk. reflexivity.
Qed.

(** ** The loops of the evaluator as a record of charged conflicts *)

Lemma charge_app (a b : list Binary64.Conflict) (f : float) :
  Binary64.charge (a ++ b) f = Binary64.charge b (Binary64.charge a f).
Proof. unfold Binary64.charge. apply fold_left_app. Qed.

Lemma b64_fold_left_records {B : Type} (step : Binary64.Eval -> B -> Binary64.Eval)
  (ev : B -> list Binary64.Conflict) :
  Binary64.records step ev ->
  forall l st,
    snd (fold_left step l st) = snd st ++ flat_map ev l
    /\ fst (fold_left step l st) = Binary64.charge (flat_map ev l) (fst st).
Proof.
  intros Hrec l. induction l as [|b l IH]; intros st; simpl.
  - rewrite app_nil_r. split; reflexivity.
  - destruct (IH (step st b)) as [Hs Hf]. destruct (Hrec st b) as [Hs1 Hf1].
    split.
    + rewrite Hs, Hs1, app_assoc. reflexivity.
    + rewrite Hf, Hf1, charge_app. reflexivity.
Qed.

Lemma b64_pair_step_records (slot1 : Slot) :
  Binary64.records (Binary64.pair_step slot1) (Binary64.pair_events slot1).
Proof.
  intros st slot2. unfold Binary64.pair_step, Binary64.pair_events, Binary64.penalize.
  destruct (teacher_clash slot1 slot2), (room_clash slot1 slot2);
    cbn [fst snd app]; rewrite <- ?app_assoc, ?app_nil_r; split; reflexivity.
Qed.

Lemma b64_existing_step_records (slot : Slot) :
  Binary64.records (Binary64.existing_step slot) (Binary64.existing_events slot).
Proof.
  intros st ex. unfold Binary64.existing_step, Binary64.existing_events, Binary64.penalize.
  destruct (existing_clash slot ex);
    cbn [fst snd app]; rewrite ?app_nil_r; split; reflexivity.
Qed.

Lemma b64_workload_step_records (ts : list Binary64.Teacher) :
  Binary64.records (Binary64.workload_step ts) (Binary64.workload_events ts).
Proof.
  intros st [tid w].
  unfold Binary64.workload_step, Binary64.workload_events, Binary64.penalize.
  cbn [fst snd].
  destruct (Binary64.find_teacher ts tid) as [teacher|]; [destruct w as [w|]|];
    try (destruct (PrimFloat.ltb (Binary64.maxWorkload teacher) w));
    cbn [fst snd app]; rewrite ?app_nil_r; split; reflexivity.
Qed.

Lemma b64_capacity_step_records (cs : list Course) (rs : list Room) :
  Binary64.records (Binary64.capacity_step cs rs) (Binary64.capacity_events cs rs).
Proof.
  intros st slot.
  unfold Binary64.capacity_step, Binary64.capacity_events, Binary64.penalize.
  destruct (find_course cs (courseId slot)) as [course|];
    [destruct (find_room rs (roomId slot)) as [room|];
     [destruct (maxStudents course) as [m|];
      [destruct (negb (m =? 0)%Z && (capacity room <? m)%Z)|]|]|];
    cbn [fst snd app]; rewrite ?app_nil_r; split; reflexivity.
Qed.

Lemma b64_conflict_loop_records (ex : list Existing) :
  forall ss st,
    snd (Binary64.conflict_loop ss ex st) = snd st ++ Binary64.scan_events ss ex
    /\ fst (Binary64.conflict_loop ss ex st)
       = Binary64.charge (Binary64.scan_events ss ex) (fst st).
Proof.
  induction ss as [|slot1 rest IH]; intros st; simpl.
  - rewrite app_nil_r. split; reflexivity.
  - destruct (b64_fold_left_records _ _ (b64_pair_step_records slot1) rest st)
      as [Hs1 Hf1].
    destruct (b64_fold_left_records _ _ (b64_existing_step_records slot1) ex
                (fold_left (Binary64.pair_step slot1) rest st)) as [Hs2 Hf2].
    destruct (IH (fold_left (Binary64.existing_step slot1) ex
                    (fold_left (Binary64.pair_step slot1) rest st))) as [Hs3 Hf3].
    split.
    + rewrite Hs3, Hs2, Hs1, <- !app_assoc. reflexivity.
    + rewrite Hf3, Hf2, Hf1, !charge_app. reflexivity.
Qed.

(** The conflicts the evaluator records, in the order of recording, and
    the running fitness: 1.0 charged with each of them in that order. *)
Lemma b64_fitness_scan (ss : list Slot) (env : Binary64.Env) :
  snd (Binary64.fitness_scan ss env)
  = Binary64.scan_events ss (Binary64.existingTimetables env)
    ++ flat_map (Binary64.workload_events (Binary64.teachers env))
                (Binary64.Object_entries
                   (Binary64.calculateTeacherWorkloads ss (Binary64.teachers env)))
    ++ flat_map (Binary64.capacity_events (Binary64.courses env) (Binary64.rooms env)) ss
  /\ fst (Binary64.fitness_scan ss env)
     = Binary64.charge (snd (Binary64.fitness_scan ss env)) 1%float.
Proof.
  unfold Binary64.fitness_scan.
  destruct (b64_conflict_loop_records (Binary64.existingTimetables env) ss (1%float, []))
    as [H1 F1].
  destruct (b64_fold_left_records _ _ (b64_workload_step_records (Binary64.teachers env))
              (Binary64.Object_entries
                 (Binary64.calculateTeacherWorkloads ss (Binary64.teachers env)))
              (Binary64.conflict_loop ss (Binary64.existingTimetables env) (1%float, [])))
    as [H2 F2].
  destruct (b64_fold_left_records _ _
              (b64_capacity_step_records (Binary64.courses env) (Binary64.rooms env)) ss
              (fold_left (Binary64.workload_step (Binary64.teachers env))
                 (Binary64.Object_entries
                    (Binary64.calculateTeacherWorkloads ss (Binary64.teachers env)))
                 (Binary64.conflict_loop ss (Binary64.existingTimetables env)
                                         (1%float, [])))) as [H3 F3].
  split.
  - rewrite H3, H2, H1. simpl. rewrite <- app_assoc. reflexivity.
  - rewrite F3, F2, F1, H3, H2, H1. cbn [fst snd app]. rewrite !charge_app. reflexivity.
Qed.

(** ** Conflicts by kind *)

Lemma b64_flat_map_none {B : Type} (kind : Binary64.Conflict -> bool)
  (ev : B -> list Binary64.Conflict) (l : list B) :
  (forall b, filter kind (ev b) = []) -> filter kind (flat_map ev l) = [].
Proof.
  intros H. induction l as [|b l IH]; simpl; [reflexivity|].
  rewrite filter_app, H, IH. reflexivity.
Qed.

Lemma b64_flat_map_all {B : Type} (kind : Binary64.Conflict -> bool)
  (ev : B -> list Binary64.Conflict) (l : list B) :
  (forall b, filter kind (ev b) = ev b) -> filter kind (flat_map ev l) = flat_map ev l.
Proof.
  intros H. induction l as [|b l IH]; simpl; [reflexivity|].
  rewrite filter_app, H, IH. reflexivity.
Qed.

Lemma b64_pair_events_kinds (s s2 : Slot) :
  filter Binary64.is_existing_conflict (Binary64.pair_events s s2) = []
  /\ filter Binary64.is_workload_conflict (Binary64.pair_events s s2) = [].
Proof.
  unfold Binary64.pair_events. destruct (teacher_clash s s2), (room_clash s s2); auto.
Qed.

Lemma b64_existing_events_kinds (s : Slot) (e : Existing) :
  filter Binary64.is_teacher_conflict (Binary64.existing_events s e) = []
  /\ filter Binary64.is_room_conflict (Binary64.existing_events s e) = []
  /\ filter Binary64.is_workload_conflict (Binary64.existing_events s e) = [].
Proof.
  unfold Binary64.existing_events. destruct (existing_clash s e); auto.
Qed.

Lemma b64_workload_events_kinds (ts : list Binary64.Teacher)
  (entry : string * Binary64.jsval) :
  filter Binary64.is_teacher_conflict (Binary64.workload_events ts entry) = []
  /\ filter Binary64.is_room_conflict (Binary64.workload_events ts entry) = []
  /\ filter Binary64.is_existing_conflict (Binary64.workload_events ts entry) = []
  /\ filter Binary64.is_workload_conflict (Binary64.workload_events ts entry)
     = Binary64.workload_events ts entry.
Proof.
  unfold Binary64.workload_events.
  destruct (Binary64.find_teacher ts (fst entry)) as [t|]; [destruct (snd entry) as [w|]|];
    try destruct (PrimFloat.ltb (Binary64.maxWorkload t) w); auto 6.
Qed.

Lemma b64_capacity_events_kinds (cs : list Course) (rs : list Room) (s : Slot) :
  filter Binary64.is_teacher_conflict (Binary64.capacity_events cs rs s) = []
  /\ filter Binary64.is_room_conflict (Binary64.capacity_events cs rs s) = []
  /\ filter Binary64.is_existing_conflict (Binary64.capacity_events cs rs s) = []
  /\ filter Binary64.is_workload_conflict (Binary64.capacity_events cs rs s) = [].
Proof.
  unfold Binary64.capacity_events.
  destruct (find_course cs (courseId s)) as [c|];
    [destruct (find_room rs (roomId s)) as [r|];
     [destruct (maxStudents c) as [m|];
      [destruct (negb (m =? 0)%Z && (capacity r <? m)%Z)|]|]|]; auto.
Qed.

Lemma b64_teacher_pairs (s : Slot) (rest : list Slot) :
  filter Binary64.is_teacher_conflict (flat_map (Binary64.pair_events s) rest)
  = map (fun p => Binary64.TEACHER_CONFLICT (fst p) (snd p))
        (filter (fun p => teacher_clash (fst p) (snd p)) (map (pair s) rest)).
Proof.
  induction rest as [|s2 rest IH]; simpl; [reflexivity|].
  rewrite filter_app, IH. unfold Binary64.pair_events.
  destruct (teacher_clash s s2), (room_clash s s2); reflexivity.
Qed.

Lemma b64_room_pairs (s : Slot) (rest : list Slot) :
  filter Binary64.is_room_conflict (flat_map (Binary64.pair_events s) rest)
  = map (fun p => Binary64.ROOM_CONFLICT (fst p) (snd p))
        (filter (fun p => room_clash (fst p) (snd p)) (map (pair s) rest)).
Proof.
  induction rest as [|s2 rest IH]; simpl; [reflexivity|].
  rewrite filter_app, IH. unfold Binary64.pair_events.
  destruct (teacher_clash s s2), (room_clash s s2); reflexivity.
Qed.

Lemma b64_existing_rows (s : Slot) (ex : list Existing) :
  filter Binary64.is_existing_conflict (flat_map (Binary64.existing_events s) ex)
  = map (fun p => Binary64.EXISTING_CONFLICT (fst p) (snd p))
        (filter (fun p => existing_clash (fst p) (snd p)) (map (pair s) ex)).
Proof.
  induction ex as [|e ex IH]; simpl; [reflexivity|].
  rewrite filter_app, IH. unfold Binary64.existing_events.
  destruct (existing_clash s e); reflexivity.
Qed.

Lemma b64_teacher_scan (ss : list Slot) (ex : list Existing) :
  filter Binary64.is_teacher_conflict (Binary64.scan_events ss ex)
  = map (fun p => Binary64.TEACHER_CONFLICT (fst p) (snd p))
        (filter (fun p => teacher_clash (fst p) (snd p)) (unordered_pairs ss)).
Proof.
  induction ss as [|s rest IH]; simpl; [reflexivity|].
  rewrite !filter_app, IH, b64_teacher_pairs.
  rewrite (b64_flat_map_none _ _ ex (fun e => proj1 (b64_existing_events_kinds s e))).
  rewrite map_app. reflexivity.
Qed.

Lemma b64_room_scan (ss : list Slot) (ex : list Existing) :
  filter Binary64.is_room_conflict (Binary64.scan_events ss ex)
  = map (fun p => Binary64.ROOM_CONFLICT (fst p) (snd p))
        (filter (fun p => room_clash (fst p) (snd p)) (unordered_pairs ss)).
Proof.
  induction ss as [|s rest IH]; simpl; [reflexivity|].
  rewrite !filter_app, IH, b64_room_pairs.
  rewrite (b64_flat_map_none _ _ ex
             (fun e => proj1 (proj2 (b64_existing_events_kinds s e)))).
  rewrite map_app. reflexivity.
Qed.

Lemma b64_existing_scan (ss : list Slot) (ex : list Existing) :
  filter Binary64.is_existing_conflict (Binary64.scan_events ss ex)
  = map (fun p => Binary64.EXISTING_CONFLICT (fst p) (snd p))
        (filter (fun p => existing_clash (fst p) (snd p)) (list_prod ss ex)).
Proof.
  induction ss as [|s rest IH]; simpl; [reflexivity|].
  rewrite !filter_app, IH, b64_existing_rows.
  rewrite (b64_flat_map_none _ _ rest (fun s2 => proj1 (b64_pair_events_kinds s s2))).
  rewrite map_app. reflexivity.
Qed.

Lemma b64_workload_scan (ss : list Slot) (ex : list Existing) :
  filter Binary64.is_workload_conflict (Binary64.scan_events ss ex) = [].
Proof.
  induction ss as [|s rest IH]; simpl; [reflexivity|].
  rewrite !filter_app, IH.
  rewrite (b64_flat_map_none _ _ rest (fun s2 => proj2 (b64_pair_events_kinds s s2))).
  rewrite (b64_flat_map_none _ _ ex
             (fun e => proj2 (proj2 (b64_existing_events_kinds s e)))).
  reflexivity.
Qed.

(** C1: the evaluator starts from 1.0; over the unordered pairs of genes
    it records a TEACHER_CONFLICT for the same teacher, day and overlapping
    times and a ROOM_CONFLICT for the same room, day and overlapping times,
    each test on its own; over genes against committed entries it records
    an EXISTING_CONFLICT; each recorded conflict subtracts its penalty
    (0.3, 0.4, 0.2) from the running fitness, in binary64 and in the order
    of recording, and nothing else changes it; the value returned is
    max(0, fitness), with no clamp from above. *)
Theorem C1_calculateFitness :
  forall (individual : Binary64.Individual) (env : Binary64.Env),
    let ss := Binary64.slots individual in
    let cs := snd (Binary64.calculateFitness individual env) in
    let raw := fst (Binary64.fitness_scan ss env) in
    filter Binary64.is_teacher_conflict cs
    = map (fun p => Binary64.TEACHER_CONFLICT (fst p) (snd p))
          (filter (fun p => teacher_clash (fst p) (snd p)) (unordered_pairs ss))
    /\ filter Binary64.is_room_conflict cs
       = map (fun p => Binary64.ROOM_CONFLICT (fst p) (snd p))
             (filter (fun p => room_clash (fst p) (snd p)) (unordered_pairs ss))
    /\ filter Binary64.is_existing_conflict cs
       = map (fun p => Binary64.EXISTING_CONFLICT (fst p) (snd p))
             (filter (fun p => existing_clash (fst p) (snd p))
                     (list_prod ss (Binary64.existingTimetables env)))
    /\ (forall s1 s2,
           (teacher_clash s1 s2 = true
            <-> teacherId s1 = teacherId s2 /\ dayOfWeek s1 = dayOfWeek s2
                /\ timeOverlap (startTime s1) (endTime s1)
                               (startTime s2) (endTime s2) = true)
           /\ (room_clash s1 s2 = true
               <-> roomId s1 = roomId s2 /\ dayOfWeek s1 = dayOfWeek s2
                   /\ timeOverlap (startTime s1) (endTime s1)
                                  (startTime s2) (endTime s2) = true))
    /\ (forall s e,
           existing_clash s e = true
           <-> teacherId s = existing_teacherId e /\ dayOfWeek s = existing_dayOfWeek e
               /\ timeOverlap (startTime s) (endTime s)
                              (existing_startTime e) (existing_endTime e) = true)
    /\ raw = Binary64.charge cs 1%float
    /\ (forall s1 s2 e,
           Binary64.penalty (Binary64.TEACHER_CONFLICT s1 s2) = 0.3%float
           /\ Binary64.penalty (Binary64.ROOM_CONFLICT s1 s2) = 0.4%float
           /\ Binary64.penalty (Binary64.EXISTING_CONFLICT s1 e) = 0.2%float)
    /\ fst (Binary64.calculateFitness individual env) = Binary64.Math_max_0 raw
    /\ (PrimFloat.ltb 0 raw = true -> fst (Binary64.calculateFitness individual env) = raw)
    /\ (PrimFloat.ltb 0 raw = false -> PrimFloat.is_nan raw = false ->
        fst (Binary64.calculateFitness individual env) = 0%float).
Proof.
  intros individual env ss cs raw.
  assert (Hcs : cs = snd (Binary64.fitness_scan ss env)) by reflexivity.
  destruct (b64_fitness_scan ss env) as [Hev Hch]. rewrite <- Hcs in Hev.
  pose proof (fun e => proj1 (b64_workload_events_kinds (Binary64.teachers env) e)) as Wt.
  pose proof (fun e => proj1 (proj2 (b64_workload_events_kinds (Binary64.teachers env) e)))
    as Wr.
  pose proof (fun e => proj1 (proj2 (proj2
                 (b64_workload_events_kinds (Binary64.teachers env) e)))) as We.
  pose proof (fun s => proj1 (b64_capacity_events_kinds (Binary64.courses env)
                                (Binary64.rooms env) s)) as Ct.
  pose proof (fun s => proj1 (proj2 (b64_capacity_events_kinds (Binary64.courses env)
                                       (Binary64.rooms env) s))) as Cr.
  pose proof (fun s => proj1 (proj2 (proj2 (b64_capacity_events_kinds (Binary64.courses env)
                                              (Binary64.rooms env) s)))) as Ce.
  split; [|split; [|split; [|split; [|split; [|split; [|split; [|split; [|split]]]]]]]].
  - rewrite Hev, !filter_app, b64_teacher_scan.
    rewrite (b64_flat_map_none _ _ _ Wt), (b64_flat_map_none _ _ _ Ct), !app_nil_r.
    reflexivity.
  - rewrite Hev, !filter_app, b64_room_scan.
    rewrite (b64_flat_map_none _ _ _ Wr), (b64_flat_map_none _ _ _ Cr), !app_nil_r.
    reflexivity.
  - rewrite Hev, !filter_app, b64_existing_scan.
    rewrite (b64_flat_map_none _ _ _ We), (b64_flat_map_none _ _ _ Ce), !app_nil_r.
    reflexivity.
  - intros s1 s2. split; [apply teacher_clash_iff | apply room_clash_iff].
  - intros s e. apply existing_clash_iff.
  - exact Hch.
  - intros s1 s2 e. repeat split.
  - reflexivity.
  - intros H. change (Binary64.Math_max_0 raw = raw). unfold Binary64.Math_max_0.
    rewrite H. reflexivity.
  - intros H Hn. change (Binary64.Math_max_0 raw = 0%float). unfold Binary64.Math_max_0.
    rewrite H, Hn. reflexivity.
Qed.

(** The service's own conflict test: two genes with the same teacher, room,
    day and time; the fitness is 1 - 0.3 - 0.4 in binary64. *)
Lemma C1_calculateFitness_witness :
  snd (Binary64.calculateFitness Binary64.conflict_test_individual
                                 Binary64.conflict_test_env)
  = [Binary64.TEACHER_CONFLICT (Binary64.conflict_test_slot "1")
                               (Binary64.conflict_test_slot "2");
     Binary64.ROOM_CONFLICT (Binary64.conflict_test_slot "1")
                            (Binary64.conflict_test_slot "2")]
  /\ fst (Binary64.calculateFitness Binary64.conflict_test_individual
                                    Binary64.conflict_test_env)
     = 0.29999999999999993%float.
Proof.
  destruct (C1_calculateFitness Binary64.conflict_test_individual
                                Binary64.conflict_test_env)
    as (_ & _ & _ & _ & _ & Hraw & _ & _ & Hpos & _).
  assert (Hcs : snd (Binary64.calculateFitness Binary64.conflict_test_individual
                                               Binary64.conflict_test_env)
                = [Binary64.TEACHER_CONFLICT (Binary64.conflict_test_slot "1")
                                             (Binary64.conflict_test_slot "2");
                   Binary64.ROOM_CONFLICT (Binary64.conflict_test_slot "1")
                                          (Binary64.conflict_test_slot "2")])
    by (vm_compute; reflexivity).
  split; [exact Hcs|].
  rewrite Hpos; rewrite Hraw, Hcs; vm_compute; reflexivity.
Defined.

(** ** Object.entries and the WORKLOAD_EXCEEDED records *)

Lemma b64_insert_index_perm (e : Z * (string * Binary64.jsval))
  (l : list (Z * (string * Binary64.jsval))) :
  Permutation (Binary64.insert_index e l) (e :: l).
Proof.
  induction l as [|e' l IH]; simpl; [reflexivity|].
  destruct (fst e <=? fst e')%Z; [reflexivity|].
  rewrite IH. apply perm_swap.
Qed.

Lemma b64_entries_perm (o : Binary64.JsObject) : Permutation (Binary64.Object_entries o) o.
Proof.
  unfold Binary64.Object_entries.
  assert (Hsort : forall l, Permutation (fold_right Binary64.insert_index [] l) l).
  { induction l as [|e l IH]; simpl; [reflexivity|].
    rewrite b64_insert_index_perm, IH. reflexivity. }
  rewrite (Permutation_map snd (Hsort (Binary64.index_entries o))).
  assert (Hidx : map snd (Binary64.index_entries o) = filter Binary64.is_index_key o).
  { unfold Binary64.index_entries, Binary64.is_index_key.
    induction o as [|kv o IH]; simpl; [reflexivity|].
    destruct (array_index (fst kv)); simpl; rewrite IH; reflexivity. }
  rewrite Hidx. apply filter_split_perm.
Qed.

Lemma b64_workload_recorded (ss : list Slot) (env : Binary64.Env) :
  filter Binary64.is_workload_conflict (snd (Binary64.fitness_scan ss env))
  = flat_map (Binary64.workload_events (Binary64.teachers env))
             (Binary64.Object_entries
                (Binary64.calculateTeacherWorkloads ss (Binary64.teachers env))).
Proof.
  destruct (b64_fitness_scan ss env) as [Hev _].
  rewrite Hev, !filter_app, b64_workload_scan.
  rewrite (b64_flat_map_none _ _ ss
             (fun s => proj2 (proj2 (proj2
                (b64_capacity_events_kinds (Binary64.courses env) (Binary64.rooms env) s))))).
  rewrite app_nil_r. simpl.
  apply b64_flat_map_all. intros e. apply b64_workload_events_kinds.
Qed.

Lemma b64_workload_recorded_iff (ss : list Slot) (env : Binary64.Env) (tid : string)
  (w mx : float) :
  In (Binary64.WORKLOAD_EXCEEDED tid w mx) (snd (Binary64.fitness_scan ss env))
  <-> exists t, Binary64.find_teacher (Binary64.teachers env) tid = Some t
                /\ Binary64.own (Binary64.calculateTeacherWorkloads ss (Binary64.teachers env))
                                tid = Some (Binary64.Num w)
                /\ mx = Binary64.maxWorkload t /\ PrimFloat.ltb mx w = true.
Proof.
  assert (Hk := workloads_distinct ss (Binary64.teachers env)).
  split.
  - intros H.
    assert (H' : In (Binary64.WORKLOAD_EXCEEDED tid w mx)
                    (filter Binary64.is_workload_conflict
                            (snd (Binary64.fitness_scan ss env))))
      by (apply filter_In; split; [exact H | reflexivity]).
    rewrite b64_workload_recorded in H'. apply in_flat_map in H'.
    destruct H' as [[k v] [Hin Hev]].
    apply (Permutation_in _ (b64_entries_perm _)) in Hin.
    unfold Binary64.workload_events in Hev. cbn [fst snd] in Hev.
    destruct (Binary64.find_teacher (Binary64.teachers env) k) as [t|] eqn:Ef;
      [|destruct Hev].
    destruct v as [w0|]; [|destruct Hev].
    destruct (PrimFloat.ltb (Binary64.maxWorkload t) w0) eqn:Eg; [|destruct Hev].
    destruct Hev as [Heq | []]. inversion Heq; subst.
    exists t. split; [exact Ef|]. split; [apply own_entry; assumption|].
    split; [reflexivity | exact Eg].
  - intros [t [Hf [Hg [Hmx Hlt]]]].
    assert (H' : In (Binary64.WORKLOAD_EXCEEDED tid w mx)
                    (filter Binary64.is_workload_conflict
                            (snd (Binary64.fitness_scan ss env)))).
    { rewrite b64_workload_recorded. apply in_flat_map.
      exists (tid, Binary64.Num w). split.
      - apply (Permutation_in _ (Permutation_sym (b64_entries_perm _))).
        apply own_entry; assumption.
      - unfold Binary64.workload_events. cbn [fst snd]. rewrite Hf.
        rewrite <- Hmx, Hlt. left. reflexivity. }
    apply filter_In in H'. apply H'.
Qed.

Lemma b64_workload_events_once (ts : list Binary64.Teacher)
  (l : list (string * Binary64.jsval)) :
  NoDup (map fst l) -> NoDup (flat_map (Binary64.workload_events ts) l).
Proof.
  induction l as [|[k v] l IH]; simpl; intros Hnd; [constructor|].
  inversion Hnd as [|? ? Hni Hnd']; subst.
  unfold Binary64.workload_events at 1. cbn [fst snd].
  destruct (Binary64.find_teacher ts k) as [t|]; [|apply IH; exact Hnd'].
  destruct v as [w|]; [|apply IH; exact Hnd'].
  destruct (PrimFloat.ltb (Binary64.maxWorkload t) w); [|apply IH; exact Hnd'].
  simpl. constructor; [|apply IH; exact Hnd'].
  intros Hin. apply in_flat_map in Hin. destruct Hin as [[k2 v2] [Hin2 Hev]].
  unfold Binary64.workload_events in Hev. cbn [fst snd] in Hev.
  destruct (Binary64.find_teacher ts k2) as [t2|]; [|destruct Hev].
  destruct v2 as [w2|]; [|destruct Hev].
  destruct (PrimFloat.ltb (Binary64.maxWorkload t2) w2); [|destruct Hev].
  destruct Hev as [Heq | []]. inversion Heq; subst.
  apply Hni. apply (in_map fst) in Hin2. exact Hin2.
Qed.

Lemma b64_duration_valid (s : Slot) :
  valid_times s ->
  exists a b, moment (startTime s) = Some a /\ moment (endTime s) = Some b
              /\ Binary64.duration s
                 = PrimFloat.div (Binary64.of_Z (60000 * (b - a))) 3600000.
Proof.
  unfold valid_times, Binary64.duration, Binary64.diff_hours.
  destruct (moment (endTime s)) as [b|], (moment (startTime s)) as [a|]; intros [H1 H2];
    try (exfalso; auto; fail).
  exists a, b. auto.
Qed.

Lemma teacher_genes_none (k : string) (ss : list Slot) :
  (forall s, In s ss -> teacherId s <> k) -> teacher_genes k ss = [].
Proof.
  unfold teacher_genes. induction ss as [|s rest IH]; intros Hne; [reflexivity|].
  cbn [filter]. destruct (String.eqb (teacherId s) k) eqn:E.
  - apply String.eqb_eq in E. exfalso. apply (Hne s); [left; reflexivity | exact E].
  - apply IH. intros s0 Hs0. apply Hne. right. exact Hs0.
Qed.

(** C6: the workload of a teacher of the snapshot is the sum, in hours,
    of (endTime - startTime) over that teacher's genes, added up in
    binary64 in gene order from 0 (two 1.5-hour genes give 3.0, no gene
    gives 0); a teacher whose workload exceeds maxWorkload gets one
    WORKLOAD_EXCEEDED record, a teacher whose workload does not gets none,
    and the record subtracts 0.1 x (workload - maxWorkload), whatever the
    overage, from the fitness that is then clamped at 0. *)
Theorem C6_teacher_workload :
  forall (individual : Binary64.Individual) (env : Binary64.Env)
         (teacher : Binary64.Teacher),
    let ss := Binary64.slots individual in
    let tid := Binary64.teacher_id teacher in
    let workloads := Binary64.calculateTeacherWorkloads ss (Binary64.teachers env) in
    let cs := snd (Binary64.calculateFitness individual env) in
    let raw := fst (Binary64.fitness_scan ss env) in
    let w := Binary64.teacher_hours tid ss in
    Binary64.find_teacher (Binary64.teachers env) tid = Some teacher ->
    tid <> "__proto__" ->
    (forall s, In s ss -> teacherId s = tid -> valid_times s) ->
    Binary64.obj_get workloads tid = Binary64.Own (Binary64.Num w)
    /\ w = fold_left (fun acc slot => PrimFloat.add acc (Binary64.duration slot))
                     (teacher_genes tid ss) 0%float
    /\ (forall s, In s (teacher_genes tid ss) ->
          exists a b, moment (startTime s) = Some a /\ moment (endTime s) = Some b
                      /\ Binary64.duration s
                         = PrimFloat.div (Binary64.of_Z (60000 * (b - a))) 3600000)
    /\ ((forall s, In s ss -> teacherId s <> tid) -> w = 0%float)
    /\ (PrimFloat.ltb (Binary64.maxWorkload teacher) w = true ->
        In (Binary64.WORKLOAD_EXCEEDED tid w (Binary64.maxWorkload teacher)) cs)
    /\ (PrimFloat.ltb (Binary64.maxWorkload teacher) w = false ->
        forall w' mx, ~ In (Binary64.WORKLOAD_EXCEEDED tid w' mx) cs)
    /\ NoDup (filter Binary64.is_workload_conflict cs)
    /\ Binary64.penalty (Binary64.WORKLOAD_EXCEEDED tid w (Binary64.maxWorkload teacher))
       = PrimFloat.mul 0.1 (PrimFloat.sub w (Binary64.maxWorkload teacher))
    /\ raw = Binary64.charge cs 1%float
    /\ fst (Binary64.calculateFitness individual env) = Binary64.Math_max_0 raw
    /\ Binary64.own (Binary64.calculateTeacherWorkloads workload_test_slots
                                                        Binary64.workload_test_teachers) "1"
       = Some (Binary64.Num 3)
    /\ Binary64.own (Binary64.calculateTeacherWorkloads workload_test_slots
                                                        Binary64.workload_test_teachers) "2"
       = Some (Binary64.Num 1.5).
Proof.
  intros individual env teacher ss tid workloads cs raw w Hf Hk Hv.
  pose proof (workload_accumulated ss (Binary64.teachers env) tid teacher Hf Hk) as Hw.
  fold workloads in Hw. fold w in Hw.
  split; [unfold Binary64.obj_get; rewrite Hw; reflexivity|].
  split; [reflexivity|].
  split.
  { intros s Hs. apply filter_In in Hs. destruct Hs as [Hs Hid].
    apply String.eqb_eq in Hid. apply b64_duration_valid. apply Hv; assumption. }
  split.
  { intros Hne. unfold w, Binary64.teacher_hours.
    rewrite (teacher_genes_none tid ss Hne). reflexivity. }
  split.
  { intros Hlt. apply b64_workload_recorded_iff. exists teacher. auto. }
  split.
  { intros Hle w' mx Hin. apply b64_workload_recorded_iff in Hin.
    destruct Hin as [t [Hft [Hg [Hmx Hlt]]]].
    rewrite Hf in Hft. inversion Hft; subst t.
    assert (E : Some (Binary64.Num w) = Some (Binary64.Num w'))
      by (transitivity (Binary64.own workloads tid); [symmetry; exact Hw | exact Hg]).
    injection E as E. rewrite <- E, Hmx in Hlt. congruence. }
  split.
  { change cs with (snd (Binary64.fitness_scan ss env)).
    rewrite b64_workload_recorded. apply b64_workload_events_once.
    apply (Permutation_NoDup
             (Permutation_map fst (Permutation_sym (b64_entries_perm _)))).
    apply workloads_distinct. }
  split; [reflexivity|].
  split; [apply b64_fitness_scan|].
  split; [reflexivity|].
  split; vm_compute; reflexivity.
Qed.

Lemma C6_teacher_workload_witness :
  Binary64.obj_get
    (Binary64.calculateTeacherWorkloads workload_test_slots Binary64.workload_test_teachers)
    "1"
  = Binary64.Own (Binary64.Num 3).
Proof.
  destruct (C6_teacher_workload
              {| Binary64.slots := workload_test_slots; Binary64.conflicts := [];
                 Binary64.fitness := 0 |}
              {| Binary64.students := [];
                 Binary64.teachers := Binary64.workload_test_teachers;
                 Binary64.courses := []; Binary64.rooms := [];
                 Binary64.existingTimetables := [] |}
              {| Binary64.teacher_id := "1"; Binary64.maxWorkload := 40 |})
    as [Hw _].
  - reflexivity.
  - discriminate.
  - intros s [<-|[<-|[<-|[]]]] _; split; discriminate.
  - cbn [Binary64.slots Binary64.teachers Binary64.teacher_id] in Hw.
    rewrite Hw. vm_compute. reflexivity.
Defined.

(** ** The two embeddings of the evaluator record the same clashes *)

Lemma clashes_of_events {B : Type} (ev : B -> list Conflict)
  (ev64 : B -> list Binary64.Conflict) (l : list B) :
  (forall b, flat_map clash_of (ev b) = flat_map binary64_clash_of (ev64 b)) ->
  flat_map clash_of (flat_map ev l) = flat_map binary64_clash_of (flat_map ev64 l).
Proof.
  intros H. induction l as [|b l IH]; [reflexivity|].
  cbn [flat_map]. rewrite !flat_map_app, IH, H. reflexivity.
Qed.

Lemma scan_clashes (ss : list Slot) (ex : list Existing) :
  flat_map clash_of (scan_events ss ex)
  = flat_map binary64_clash_of (Binary64.scan_events ss ex).
Proof.
  induction ss as [|s rest IH]; [reflexivity|].
  cbn [scan_events Binary64.scan_events]. rewrite !flat_map_app, IH.
  rewrite (clashes_of_events (pair_events s) (Binary64.pair_events s)).
  - rewrite (clashes_of_events (existing_events s) (Binary64.existing_events s));
      [reflexivity|].
    intros e. unfold existing_events, Binary64.existing_events.
    destruct (existing_clash s e); reflexivity.
  - intros s2. unfold pair_events, Binary64.pair_events.
    destruct (teacher_clash s s2), (room_clash s s2); reflexivity.
Qed.

Lemma workload_records_carry_no_clash (ts : list Teacher) (l : list (string * jsnum)) :
  flat_map clash_of (flat_map (workload_events ts) l) = [].
Proof.
  induction l as [|e l IH]; [reflexivity|].
  cbn [flat_map]. rewrite flat_map_app, IH, app_nil_r. unfold workload_events.
  destruct (find_teacher ts (fst e)) as [t|]; [destruct (snd e) as [w|]|];
    try destruct (Qgtb w (maxWorkload t)); reflexivity.
Qed.

Lemma b64_workload_records_carry_no_clash (ts : list Binary64.Teacher)
  (l : list (string * Binary64.jsval)) :
  flat_map binary64_clash_of (flat_map (Binary64.workload_events ts) l) = [].
Proof.
  induction l as [|e l IH]; [reflexivity|].
  cbn [flat_map]. rewrite flat_map_app, IH, app_nil_r. unfold Binary64.workload_events.
  destruct (Binary64.find_teacher ts (fst e)) as [t|]; [destruct (snd e) as [w|]|];
    try destruct (PrimFloat.ltb (Binary64.maxWorkload t) w); reflexivity.
Qed.

(** On the same genes, courses, rooms and committed entries, the evaluator
    over exact rationals and the evaluator in binary64 record the same
    teacher, room, existing-timetable and capacity conflicts, in the same
    order; only the workload records and the numbers can differ. *)
Lemma evaluators_record_the_same_clashes (individual : Individual) (env : Env)
  (individual64 : Binary64.Individual) (env64 : Binary64.Env) :
  slots individual = Binary64.slots individual64 ->
  courses env = Binary64.courses env64 ->
  rooms env = Binary64.rooms env64 ->
  existingTimetables env = Binary64.existingTimetables env64 ->
  flat_map clash_of (snd (calculateFitness individual env))
  = flat_map binary64_clash_of (snd (Binary64.calculateFitness individual64 env64)).
Proof.
  intros Hs Hc Hr He.
  change (snd (calculateFitness individual env))
    with (snd (fitness_scan (slots individual) env)).
  change (snd (Binary64.calculateFitness individual64 env64))
    with (snd (Binary64.fitness_scan (Binary64.slots individual64) env64)).
  rewrite fitness_scan_events. destruct (b64_fitness_scan (Binary64.slots individual64) env64)
    as [-> _].
  rewrite !flat_map_app, workload_records_carry_no_clash,
    b64_workload_records_carry_no_clash, scan_clashes, Hs, Hc, Hr, He.
  cbn [app]. f_equal. apply clashes_of_events. intros s.
  unfold capacity_events, Binary64.capacity_events.
  destruct (find_course (Binary64.courses env64) (courseId s)) as [c|];
    [destruct (find_room (Binary64.rooms env64) (roomId s)) as [r|];
     [destruct (maxStudents c) as [m|];
      [destruct (negb (m =? 0)%Z && (capacity r <? m)%Z)|]|]|]; reflexivity.
Qed.

(** Rounding at work: genes of 12, 46 and 2 minutes add up to a little
    more than the hour they make, so a teacher allowed one hour is
    recorded as exceeded, and the penalty is too small to lower a fitness
    of 1. *)
Example workload_rounding :
  Binary64.teacher_hours "tA" Binary64.one_hour_genes = 1.0000000000000002%float
  /\ Binary64.calculateFitness
       {| Binary64.slots := Binary64.one_hour_genes; Binary64.conflicts := [];
          Binary64.fitness := 0 |}
       {| Binary64.students := []; Binary64.teachers := Binary64.one_hour_teacher;
          Binary64.courses := []; Binary64.rooms := [];
          Binary64.existingTimetables := [] |}
     = (1%float, [Binary64.WORKLOAD_EXCEEDED "tA" 1.0000000000000002 1]).
Proof. split; vm_compute; reflexivity. Qed.

(** ** Which properties the workloads object has *)

Lemma existsb_teacher_id (ts : list Binary64.Teacher) (k : string) :
  existsb (fun t => String.eqb (Binary64.teacher_id t) k) ts = true
  <-> In k (map Binary64.teacher_id ts).
Proof.
  rewrite existsb_exists, in_map_iff. split.
  - intros [t [Ht Hid]]. apply String.eqb_eq in Hid. exists t. auto.
  - intros [t [Hid Ht]]. exists t. split; [exact Ht | apply String.eqb_eq; exact Hid].
Qed.

(** What one pass of the second loop does to the set of properties. *)
Lemma add_duration_key (o : Binary64.JsObject) (s : Slot) (k : string) :
  Binary64.own (Binary64.add_duration o s) k <> None
  <-> Binary64.own o k <> None
      \/ (teacherId s = k /\ k <> "__proto__" /\ Binary64.inherited k = true).
Proof.
  unfold Binary64.add_duration, Binary64.obj_get.
  destruct (Binary64.own o (teacherId s)) as [v|] eqn:Eo.
  - unfold Binary64.obj_set. destruct (String.eqb (teacherId s) "__proto__") eqn:Ep.
    + split; [auto|]. intros [H|[H1 [H2 _]]]; [exact H|].
      apply String.eqb_eq in Ep. congruence.
    + destruct (String.eqb (teacherId s) k) eqn:E.
      * apply String.eqb_eq in E. subst k. rewrite own_define_same, Eo.
        split; [left|]; discriminate.
      * apply String.eqb_neq in E. rewrite own_define_other by exact E.
        split; [auto|]. intros [H|[H _]]; [exact H | contradiction].
  - destruct (Binary64.inherited (teacherId s)) eqn:Ei.
    + unfold Binary64.obj_set. destruct (String.eqb (teacherId s) "__proto__") eqn:Ep.
      * split; [auto|]. intros [H|[H1 [H2 _]]]; [exact H|].
        apply String.eqb_eq in Ep. congruence.
      * apply String.eqb_neq in Ep. destruct (String.eqb (teacherId s) k) eqn:E.
        -- apply String.eqb_eq in E. subst k. rewrite own_define_same.
           split; [intros _; right; auto | discriminate].
        -- apply String.eqb_neq in E. rewrite own_define_other by exact E.
           split; [auto|]. intros [H|[H _]]; [exact H | contradiction].
    + split; [auto|]. intros [H|[H1 [_ H3]]]; [exact H|]. subst k. congruence.
Qed.

Lemma second_loop_keys (ss : list Slot) :
  forall o k,
    Binary64.own (fold_left Binary64.add_duration ss o) k <> None
    <-> Binary64.own o k <> None
        \/ (k <> "__proto__" /\ Binary64.inherited k = true
            /\ exists s, In s ss /\ teacherId s = k).
Proof.
  induction ss as [|s ss IH]; intros o k; simpl.
  - split; [auto|]. intros [H|[_ [_ [s [[] _]]]]]. exact H.
  - rewrite IH, add_duration_key. split.
    + intros [[H|[H1 [H2 H3]]]|[H1 [H2 [s' [Hs' Hk]]]]]; auto.
      * right. repeat split; auto. exists s. auto.
      * right. repeat split; auto. exists s'. auto.
    + intros [H|[H1 [H2 [s' [[<-|Hs'] Hk]]]]]; auto.
      right. repeat split; auto. exists s'. auto.
Qed.

Lemma first_loop_numbers (ts : list Binary64.Teacher) :
  Binary64.teachers_hold_numbers ts
    (fold_left (fun o teacher =>
                  Binary64.obj_set o (Binary64.teacher_id teacher) (Binary64.Num 0)) ts []).
Proof.
  split.
  - intros k Hin Hk. rewrite workloads_first_loop.
    apply existsb_teacher_id in Hin. apply String.eqb_neq in Hk. rewrite Hin, Hk.
    discriminate.
  - intros k v. rewrite workloads_first_loop.
    destruct (existsb (fun t => String.eqb (Binary64.teacher_id t) k) ts) eqn:E;
      [destruct (negb (String.eqb k "__proto__"))|]; simpl; try discriminate.
    intros H. inversion H. apply existsb_teacher_id in E. split; [eauto | auto].
Qed.

Lemma add_duration_numbers (ts : list Binary64.Teacher) (o : Binary64.JsObject) (s : Slot) :
  Binary64.teachers_hold_numbers ts o ->
  Binary64.teachers_hold_numbers ts (Binary64.add_duration o s).
Proof.
  intros [Hall Hnum]. split.
  - intros k Hin Hk. apply add_duration_key. left. apply Hall; assumption.
  - intros k v. unfold Binary64.add_duration, Binary64.obj_get.
    destruct (Binary64.own o (teacherId s)) as [v0|] eqn:Eo.
    + unfold Binary64.obj_set. destruct (String.eqb (teacherId s) "__proto__");
        [apply Hnum|].
      destruct (String.eqb (teacherId s) k) eqn:E.
      * apply String.eqb_eq in E. subst k. rewrite own_define_same.
        intros H. inversion H. subst v. specialize (Hnum _ _ Eo).
        destruct v0 as [x|]; cbn [Binary64.plus].
        -- split; [eauto | intros _; apply Hnum; eauto].
        -- split; [intros Hin; apply Hnum in Hin; destruct Hin; discriminate
                  | intros [x Hx]; discriminate].
      * apply String.eqb_neq in E. rewrite own_define_other by exact E. apply Hnum.
    + destruct (Binary64.inherited (teacherId s)); [|apply Hnum].
      unfold Binary64.obj_set. destruct (String.eqb (teacherId s) "__proto__") eqn:Ep;
        [apply Hnum|].
      apply String.eqb_neq in Ep. destruct (String.eqb (teacherId s) k) eqn:E.
      * apply String.eqb_eq in E. subst k. rewrite own_define_same.
        intros H. inversion H. cbn [Binary64.plus]. split.
        -- intros Hin. exfalso. apply (Hall _ Hin Ep). exact Eo.
        -- intros [x Hx]. discriminate.
      * apply String.eqb_neq in E. rewrite own_define_other by exact E. apply Hnum.
Qed.

Lemma second_loop_numbers (ts : list Binary64.Teacher) (ss : list Slot) :
  forall o, Binary64.teachers_hold_numbers ts o ->
            Binary64.teachers_hold_numbers ts (fold_left Binary64.add_duration ss o).
Proof.
  induction ss as [|s ss IH]; intros o H; simpl; [exact H|].
  apply IH. apply add_duration_numbers. exact H.
Qed.

Lemma counted_iff (ts : list Binary64.Teacher) (s : Slot) :
  Binary64.counted ts s = true
  <-> In (teacherId s) (map Binary64.teacher_id ts)
      \/ Binary64.inherited (teacherId s) = true.
Proof. unfold Binary64.counted. rewrite orb_true_iff, existsb_teacher_id. tauto. Qed.

(** A gene that is not counted leaves the object as it is. *)
Lemma second_loop_skips (ts : list Binary64.Teacher) :
  forall (ss : list Slot) (o : Binary64.JsObject),
    (forall k, Binary64.own o k <> None -> In k (map Binary64.teacher_id ts)
                                           \/ Binary64.inherited k = true) ->
    fold_left Binary64.add_duration (filter (Binary64.counted ts) ss) o
    = fold_left Binary64.add_duration ss o.
Proof.
  induction ss as [|s ss IH]; intros o Ho; [reflexivity|].
  assert (Hnext : forall k, Binary64.own (Binary64.add_duration o s) k <> None ->
                            In k (map Binary64.teacher_id ts)
                            \/ Binary64.inherited k = true).
  { intros k Hk. apply add_duration_key in Hk.
    destruct Hk as [Hk|[_ [_ Hk]]]; [apply Ho; exact Hk | right; exact Hk]. }
  cbn [filter]. destruct (Binary64.counted ts s) eqn:E; cbn [fold_left].
  - apply IH. exact Hnext.
  - assert (Hs : Binary64.add_duration o s = o).
    { unfold Binary64.add_duration, Binary64.obj_get.
      destruct (Binary64.own o (teacherId s)) as [v|] eqn:Eo.
      - exfalso. assert (Hc : Binary64.counted ts s = true)
          by (apply counted_iff; apply Ho; congruence).
        congruence.
      - destruct (Binary64.inherited (teacherId s)) eqn:Ei; [|reflexivity].
        exfalso. assert (Hc : Binary64.counted ts s = true)
          by (apply counted_iff; right; exact Ei).
        congruence. }
    rewrite Hs. apply IH. exact Ho.
Qed.

(** X15: the workloads object never has an own property [__proto__]; its
    properties are the other teacher ids, which hold numbers, and the
    names inherited from Object.prototype that some gene carries as its
    teacher id, which hold strings unless they are teacher ids; a gene
    whose teacher id is neither a teacher id of the list nor an inherited
    name is ignored, so dropping such genes changes nothing; and without
    genes every teacher's workload is 0. *)
Theorem X15_workload_keys :
  forall (ss : list Slot) (ts : list Binary64.Teacher),
    NoDup (map fst (Binary64.calculateTeacherWorkloads ss ts))
    /\ (forall k, In k (map fst (Binary64.calculateTeacherWorkloads ss ts))
                  <-> k <> "__proto__"
                      /\ (In k (map Binary64.teacher_id ts)
                          \/ (Binary64.inherited k = true
                              /\ exists s, In s ss /\ teacherId s = k)))
    /\ (forall k v, Binary64.own (Binary64.calculateTeacherWorkloads ss ts) k = Some v ->
                    (In k (map Binary64.teacher_id ts) <-> exists x, v = Binary64.Num x))
    /\ (forall k, ~ In k (map Binary64.teacher_id ts) -> Binary64.inherited k = false ->
                  Binary64.obj_get (Binary64.calculateTeacherWorkloads ss ts) k
                  = Binary64.Undefined)
    /\ Binary64.calculateTeacherWorkloads (filter (Binary64.counted ts) ss) ts
       = Binary64.calculateTeacherWorkloads ss ts
    /\ (forall t, In t ts -> Binary64.teacher_id t <> "__proto__" ->
                  Binary64.own (Binary64.calculateTeacherWorkloads [] ts)
                               (Binary64.teacher_id t) = Some (Binary64.Num 0)).
Proof.
  intros ss ts.
  assert (Hkeys : forall k,
             Binary64.own (Binary64.calculateTeacherWorkloads ss ts) k <> None
             <-> k <> "__proto__"
                 /\ (In k (map Binary64.teacher_id ts)
                     \/ (Binary64.inherited k = true
                         /\ exists s, In s ss /\ teacherId s = k))).
  { intros k. unfold Binary64.calculateTeacherWorkloads.
    rewrite second_loop_keys, workloads_first_loop. cbn [Binary64.own].
    destruct (existsb (fun t => String.eqb (Binary64.teacher_id t) k) ts) eqn:E.
    - apply existsb_teacher_id in E.
      destruct (String.eqb k "__proto__") eqn:Ep; cbn [negb andb].
      + apply String.eqb_eq in Ep. split; [|tauto].
        intros [H|[H _]]; congruence.
      + apply String.eqb_neq in Ep. split; [auto|]. intros _. left. discriminate.
    - cbn [andb]. assert (Hn : ~ In k (map Binary64.teacher_id ts)).
      { intros Hin. apply existsb_teacher_id in Hin. congruence. }
      split.
      + intros [H|[H1 [H2 H3]]]; [congruence | auto].
      + intros [H1 [H2|[H2 H3]]]; [contradiction | auto]. }
  split; [apply workloads_distinct|].
  split; [intros k; rewrite <- own_key; apply Hkeys|].
  split.
  { unfold Binary64.calculateTeacherWorkloads.
    apply (second_loop_numbers ts ss _ (first_loop_numbers ts)). }
  split.
  { intros k Hn Hi. unfold Binary64.obj_get.
    destruct (Binary64.own (Binary64.calculateTeacherWorkloads ss ts) k) eqn:E.
    - exfalso. assert (H : Binary64.own (Binary64.calculateTeacherWorkloads ss ts) k <> None)
        by congruence.
      apply Hkeys in H. destruct H as [_ [H|[H _]]]; [contradiction | congruence].
    - rewrite Hi. reflexivity. }
  split.
  { unfold Binary64.calculateTeacherWorkloads. apply second_loop_skips.
    intros k Hk. left. rewrite workloads_first_loop in Hk. cbn [Binary64.own] in Hk.
    destruct (existsb (fun t => String.eqb (Binary64.teacher_id t) k) ts) eqn:E;
      [apply existsb_teacher_id; exact E | cbn [andb] in Hk; congruence]. }
  intros t Ht Hk. unfold Binary64.calculateTeacherWorkloads. cbn [fold_left].
  rewrite workloads_first_loop.
  assert (E : existsb (fun t0 => String.eqb (Binary64.teacher_id t0) (Binary64.teacher_id t))
                      ts = true)
    by (apply existsb_exists; exists t; split; [exact Ht | apply String.eqb_refl]).
  apply String.eqb_neq in Hk. rewrite E, Hk. reflexivity.
Qed.

(** A gene whose teacher id is [toString] creates a property of that
    name, which holds a string. *)
Lemma X15_workload_keys_witness :
  In "toString"
     (map fst (Binary64.calculateTeacherWorkloads
                 [Binary64.short_gene "10:30" "09:00";
                  {| courseId := "cB"; teacherId := "toString"; roomId := "r1";
                     dayOfWeek := 1; startTime := "09:00"; endTime := "10:30";
                     creditHours := 3 |}]
                 Binary64.one_hour_teacher))
  /\ Binary64.own (Binary64.calculateTeacherWorkloads [] Binary64.one_hour_teacher) "tA"
     = Some (Binary64.Num 0).
Proof.
  destruct (X15_workload_keys
              [Binary64.short_gene "10:30" "09:00";
               {| courseId := "cB"; teacherId := "toString"; roomId := "r1";
                  dayOfWeek := 1; startTime := "09:00"; endTime := "10:30";
                  creditHours := 3 |}]
              Binary64.one_hour_teacher) as (_ & Hkeys & _ & _ & _ & _).
  destruct (X15_workload_keys [] Binary64.one_hour_teacher) as (_ & _ & _ & _ & _ & Hzero).
  split.
  - apply Hkeys. split; [discriminate|]. right. split; [reflexivity|].
    eexists. split; [right; left; reflexivity | reflexivity].
  - apply (Hzero {| Binary64.teacher_id := "tA"; Binary64.maxWorkload := 1 |});
      [left; reflexivity | discriminate].
Defined.

(** ** The index draw against the machine's arithmetic *)

(** On the sample draws, a hundred and fifty pseudo-random draws and the sample
    lengths, [random_index] returns the index that the machine's binary64
    product gives; for the draw
    5404319552844595 and five days that is 3, where the exact product
    would give 2. *)
Example random_index_machine :
  forallb (fun m =>
             forallb (fun n => (Z.of_nat (drawn_index (fun _ => m) 0 n) =? machine_index m n)%Z)
                     sample_lengths)
          (sample_draws ++ pseudo_draws 150 20240229) = true
  /\ drawn_index (fun _ => 5404319552844595%N) 0 5 = 3%nat
  /\ drawn_index (fun _ => 6124895493223874%N) 0 50 = 34%nat.
Proof. repeat split; vm_compute; reflexivity. Qed.
